(** * OBS timestamp markers to Premiere Pro XML: a verification development

    A shallow embedding of [timestamp_to_premiere.py] and the proofs of
    its properties.  Python values are modelled as the interpreter has
    them: [int] as [Z], [float] as an IEEE-754 binary64 datum
    ([spec_float], with the arithmetic of the Standard Library's
    [SpecFloat] at precision 53 and maximal exponent 1024, every
    operation rounded to nearest even), [str] as [string] (strings of
    ASCII characters), decoded JSON as an inductive type, exceptions
    as an error monad.  What the program asks of the operating system
    and of [datetime] is a record of functions, [world]; what
    [argparse] makes of the command line is an argument of [main].
    Messages printed on the way
    are left out; a message whose formatting can raise is kept as the
    exception it can raise. *)

From Stdlib Require Import ZArith List String Ascii Bool Lia Sorting.Sorted.
From Stdlib Require Import Floats.SpecFloat.
From Stdlib Require Import DecimalString.
Import ListNotations.

Local Open Scope string_scope.
Local Open Scope list_scope.
Local Open Scope Z_scope.

(** ** Exceptions *)

Inductive exn : Type :=
  | ValueError
  | TypeError
  | OverflowError
  | ZeroDivisionError
  | AttributeError
  | KeyError
  | ExpatError.

Inductive result (A : Type) : Type :=
  | Ok (a : A)
  | Raise (e : exn).

Arguments Ok {A} a.
Arguments Raise {A} e.

Definition bind {A B : Type} (r : result A) (k : A -> result B) : result B :=
  match r with
  | Ok a => k a
  | Raise e => Raise e
  end.

Notation "x <- r ;; k" := (bind r (fun x => k))
  (at level 61, r at next level, right associativity).

(** ** Python floats (binary64) *)

Module PyFloat.

Definition prec : Z := 53.
Definition emax : Z := 1024.

Definition of_Z (z : Z) : spec_float := binary_normalize prec emax z 0 false.

(** [float(n)] for an [int] n, as done implicitly when an [int] meets
    a [float] in arithmetic: rounds to nearest even, and raises
    OverflowError when n is too large. *)
Definition of_int (z : Z) : result spec_float :=
  match of_Z z with
  | S754_infinity _ => Raise OverflowError
  | f => Ok f
  end.

Definition is_zero (f : spec_float) : bool :=
  match f with
  | S754_zero _ => true
  | _ => false
  end.

Definition is_nan (f : spec_float) : bool :=
  match f with
  | S754_nan => true
  | _ => false
  end.

Definition mul (x y : spec_float) : spec_float := SFmul prec emax x y.
Definition sub (x y : spec_float) : spec_float := SFsub prec emax x y.

(** [x / y] on floats raises ZeroDivisionError on a zero divisor. *)
Definition truediv (x y : spec_float) : result spec_float :=
  if is_zero y then Raise ZeroDivisionError else Ok (SFdiv prec emax x y).

(** [a / b] on ints: the correctly rounded quotient. *)
Definition int_truediv (a b : Z) : result spec_float :=
  match b with
  | Z0 => Raise ZeroDivisionError
  | _ =>
    match a with
    | Z0 => Ok (S754_zero (b <? 0))
    | _ =>
      match SFdiv prec emax (S754_finite (a <? 0) (Z.to_pos (Z.abs a)) 0)
                            (S754_finite (b <? 0) (Z.to_pos (Z.abs b)) 0) with
      | S754_infinity _ => Raise OverflowError
      | f => Ok f
      end
    end
  end.

(** [int(x)] for a float x: truncation toward zero. *)
Definition trunc (s : bool) (m : positive) (e : Z) : Z :=
  let q := match e with
           | Z0 => Zpos m
           | Zpos p => Z.shiftl (Zpos m) (Zpos p)
           | Zneg p => Z.shiftr (Zpos m) (Zpos p)
           end in
  if s then Z.opp q else q.

Definition to_int (f : spec_float) : result Z :=
  match f with
  | S754_nan => Raise ValueError
  | S754_infinity _ => Raise OverflowError
  | S754_zero _ => Ok 0
  | S754_finite s m e => Ok (trunc s m e)
  end.

(** The mathematical floor of a float, when it is a number. *)
Definition floor (f : spec_float) : option Z :=
  match f with
  | S754_nan | S754_infinity _ => None
  | S754_zero _ => Some 0
  | S754_finite s m e =>
    let n := if s then Zneg m else Zpos m in
    Some (if 0 <=? e then n * 2 ^ e else n / 2 ^ (- e))
  end.

(** The integer a float is exactly equal to, if any: used by [==]
    between an [int] and a [float], which compares exactly. *)
Definition exact_Z (f : spec_float) : option Z :=
  match f with
  | S754_nan | S754_infinity _ => None
  | S754_zero _ => Some 0
  | S754_finite s m e =>
    let n := if s then Zneg m else Zpos m in
    if 0 <=? e then Some (n * 2 ^ e)
    else if n mod 2 ^ (- e) =? 0 then Some (n / 2 ^ (- e)) else None
  end.

Definition eqb (x y : spec_float) : bool := SFeqb x y.
Definition ltb (x y : spec_float) : bool := SFltb x y.

(** Literals of the source, as the nearest binary64 value. *)
Definition c1000 : spec_float := S754_finite false 0x1f400000000000 (-43).
Definition c23_976 : spec_float := S754_finite false 0x17f9db22d0e560 (-48).
Definition c29_97 : spec_float := S754_finite false 0x1df851eb851eb8 (-48).
Definition c59_94 : spec_float := S754_finite false 0x1df851eb851eb8 (-47).
Definition c1_001 : spec_float := S754_finite false 0x1004189374bc6a (-52).
Definition c300 : spec_float := S754_finite false 0x12c00000000000 (-44).

End PyFloat.

(** ** Python strings (ASCII) *)

Module PyStr.

Definition lower_ascii (c : ascii) : ascii :=
  let n := N_of_ascii c in
  if andb (65 <=? n)%N (n <=? 90)%N then ascii_of_N (n + 32) else c.

(** [s.lower()] *)
Fixpoint lower (s : string) : string :=
  match s with
  | EmptyString => EmptyString
  | String c s' => String (lower_ascii c) (lower s')
  end.

(** [s.startswith(p)] *)
Definition startswith (s p : string) : bool := String.prefix p s.

(** [s.endswith(p)] *)
Definition endswith (s p : string) : bool :=
  let ls := String.length s in
  let lp := String.length p in
  andb (Nat.leb lp ls) (String.eqb (String.substring (ls - lp) lp s) p).

(** [p in s] for two strings: p occurs in s. *)
Fixpoint contains (s p : string) : bool :=
  orb (String.prefix p s)
      match s with
      | EmptyString => false
      | String _ s' => contains s' p
      end.

Definition is_space (c : ascii) : bool :=
  let n := N_of_ascii c in
  orb (andb (9 <=? n)%N (n <=? 13)%N) (n =? 32)%N.

Fixpoint lstrip (s : string) : string :=
  match s with
  | String c s' => if is_space c then lstrip s' else s
  | EmptyString => EmptyString
  end.

Fixpoint rstrip (s : string) : string :=
  match s with
  | EmptyString => EmptyString
  | String c s' =>
    match rstrip s' with
    | EmptyString => if is_space c then EmptyString else String c EmptyString
    | r => String c r
    end
  end.

(** Removal of the white space that [int] accepts around a number *)
Definition strip (s : string) : string := rstrip (lstrip s).

Definition digit_of (c : ascii) : option Z :=
  let n := N_of_ascii c in
  if andb (48 <=? n)%N (n <=? 57)%N then Some (Z.of_N n - 48) else None.

(** Decimal digits with single underscores allowed between two
    digits; [acc] is the value read so far, [prev] tells whether the
    preceding character was a digit. *)
Fixpoint digits (s : string) (acc : Z) (prev : bool) : option Z :=
  match s with
  | EmptyString => if prev then Some acc else None
  | String c s' =>
    match digit_of c with
    | Some d => digits s' (10 * acc + d) true
    | None =>
      if andb (Ascii.eqb c "_") prev
      then match s' with
           | EmptyString => None
           | String c' _ =>
             match digit_of c' with
             | Some _ => digits s' acc false
             | None => None
             end
           end
      else None
    end
  end.

(** [int(s)] for a string, base 10: None stands for ValueError. *)
Definition to_int (s : string) : option Z :=
  match strip s with
  | String "-" r => option_map Z.opp (digits r 0 false)
  | String "+" r => digits r 0 false
  | r => digits r 0 false
  end.

(** [str(n)] for an int *)
Definition of_int (z : Z) : string := NilZero.string_of_int (Z.to_int z).

End PyStr.

(** ** Decoded JSON values

    What [json.loads] returns: [None], [bool], [int], [float], [str],
    [list] and [dict].  A [dict] is kept as the list of its items in
    insertion order, each key once. *)

#[warnings="-register-all"]
Inductive json : Type :=
  | JNull
  | JBool (b : bool)
  | JInt (z : Z)
  | JFloat (f : spec_float)
  | JStr (s : string)
  | JArr (l : list json)
  | JObj (kv : list (string * json)).

Module Py.

Fixpoint dict_get (k : string) (kv : list (string * json)) : option json :=
  match kv with
  | [] => None
  | (k', v) :: kv' => if String.eqb k k' then Some v else dict_get k kv'
  end.

Definition is_str (s : string) (j : json) : bool :=
  match j with
  | JStr s' => String.eqb s s'
  | _ => false
  end.

(** [k in x] for a string k *)
Definition contains (k : string) (x : json) : result bool :=
  match x with
  | JObj kv => Ok (match dict_get k kv with Some _ => true | None => false end)
  | JArr l => Ok (existsb (is_str k) l)
  | JStr s => Ok (PyStr.contains s k)
  | _ => Raise TypeError
  end.

(** [x[k]] for a string k *)
Definition subscript (x : json) (k : string) : result json :=
  match x with
  | JObj kv =>
    match dict_get k kv with
    | Some v => Ok v
    | None => Raise KeyError
    end
  | _ => Raise TypeError
  end.

(** [x.get(k, d)] *)
Definition get (x : json) (k : string) (d : json) : result json :=
  match x with
  | JObj kv =>
    match dict_get k kv with
    | Some v => Ok v
    | None => Ok d
    end
  | _ => Raise AttributeError
  end.

(** Truth value of an object *)
Definition truthy (x : json) : bool :=
  match x with
  | JNull => false
  | JBool b => b
  | JInt z => negb (z =? 0)
  | JFloat f => negb (PyFloat.is_zero f)
  | JStr s => negb (String.eqb s "")
  | JArr l => match l with [] => false | _ => true end
  | JObj kv => match kv with [] => false | _ => true end
  end.

(** [int(x)] *)
Definition int (x : json) : result Z :=
  match x with
  | JInt z => Ok z
  | JBool b => Ok (if b then 1 else 0)
  | JFloat f => PyFloat.to_int f
  | JStr s =>
    match PyStr.to_int s with
    | Some z => Ok z
    | None => Raise ValueError
    end
  | _ => Raise TypeError
  end.

End Py.

(** ** The parser *)

Record marker : Type := {
  timestamp_ms : Z;
  comment : json;
  name : json;
  color : json
}.

(** A line of the input file after [line.strip()] and [json.loads]:
    empty, rejected by the decoder (JSONDecodeError), or decoded. *)
Inductive line : Type :=
  | Blank
  | Malformed
  | Decoded (data : json).

(** The dict built for a timestamp entry. *)
Definition read_marker (data : json) : result marker :=
  v <- Py.subscript data "timestamp_ms" ;;
  ms <- Py.int v ;;
  c <- Py.get data "comment" (JStr "") ;;
  n <- Py.get data "name" (JStr "") ;;
  col <- Py.get data "color" (JStr "blue") ;;
  Ok {| timestamp_ms := ms; comment := c; name := n; color := col |}.

Inductive action : Type :=
  | SetMetadata (m : json)
  | Skip
  | Append (t : marker).

(** The body of the inner [try] for one decoded line. *)
Definition process (data : json) : result action :=
  is_meta <- Py.contains "metadata" data ;;
  if is_meta then
    m <- Py.subscript data "metadata" ;;
    _ <- Py.get m "recording_path" (JStr "N/A") ;;
    Ok (SetMetadata m)
  else
    has_ms <- Py.contains "timestamp_ms" data ;;
    if negb has_ms then Ok Skip
    else
      t <- read_marker data ;;
      Ok (Append t).

(** The loop over the lines.  ValueError and TypeError are caught per
    line; any other exception reaches the outer handler, which makes
    the function return [(None, None)], here [None]. *)
Fixpoint parse_lines (lines : list line) (metadata : json)
    (timestamps : list marker) : option (json * list marker) :=
  match lines with
  | [] => Some (metadata, timestamps)
  | Blank :: rest => parse_lines rest metadata timestamps
  | Malformed :: rest => parse_lines rest metadata timestamps
  | Decoded data :: rest =>
    match process data with
    | Ok (SetMetadata m) => parse_lines rest m timestamps
    | Ok Skip => parse_lines rest metadata timestamps
    | Ok (Append t) => parse_lines rest metadata (timestamps ++ [t])
    | Raise ValueError => parse_lines rest metadata timestamps
    | Raise TypeError => parse_lines rest metadata timestamps
    | Raise _ => None
    end
  end.

(** [file] is [None] when the input cannot be opened or read. *)
Definition parse_timestamps (file : option (list line)) : option (json * list marker) :=
  match file with
  | None => None
  | Some lines => parse_lines lines (JObj []) []
  end.

(** ** Frames and colours *)

Inductive num : Type :=
  | NInt (z : Z)
  | NFloat (f : spec_float).

(** A number as the float it becomes in mixed arithmetic *)
Definition as_float (x : num) : result spec_float :=
  match x with
  | NInt z => PyFloat.of_int z
  | NFloat f => Ok f
  end.

Definition ms_to_frames (milliseconds : Z) (fps : num) : result Z :=
  m <- PyFloat.of_int milliseconds ;;
  secs <- PyFloat.truediv m PyFloat.c1000 ;;
  f <- as_float fps ;;
  PyFloat.to_int (PyFloat.mul secs f).

Definition COLOR_MAP : list (string * string) :=
  [ ("blue", "4294741314");
    ("cyan", "4294940928");
    ("green", "4278255360");
    ("yellow", "4278255615");
    ("red", "4294901760");
    ("magenta", "4294902015");
    ("purple", "4286578816");
    ("orange", "4294924800") ].

Fixpoint map_get (k : string) (m : list (string * string)) : option string :=
  match m with
  | [] => None
  | (k', v) :: m' => if String.eqb k k' then Some v else map_get k m'
  end.

Definition blue_code : string := "4294741314".

Definition get_color_code (color_name : json) : result string :=
  match color_name with
  | JStr s =>
    Ok (match map_get (PyStr.lower s) COLOR_MAP with
        | Some c => c
        | None => blue_code
        end)
  | _ => Raise AttributeError
  end.

(** ** Paths ([os.path], POSIX flavour) *)

Module PyPath.

Fixpoint has_sep (s : string) : bool :=
  match s with
  | EmptyString => false
  | String c r => orb (Ascii.eqb c "/") (has_sep r)
  end.

(** [os.path.basename(p)]: what follows the last separator *)
Fixpoint basename (p : string) : string :=
  match p with
  | EmptyString => EmptyString
  | String c r =>
    if has_sep r then basename r
    else if Ascii.eqb c "/" then r else String c r
  end.

(** Split at the last dot: the text before it, and the text from it on. *)
Fixpoint split_last_dot (s : string) : option (string * string) :=
  match s with
  | EmptyString => None
  | String c r =>
    match split_last_dot r with
    | Some (root, ext) => Some (String c root, ext)
    | None => if Ascii.eqb c "." then Some (EmptyString, String c r) else None
    end
  end.

Fixpoint all_dots (s : string) : bool :=
  match s with
  | EmptyString => true
  | String c r => andb (Ascii.eqb c ".") (all_dots r)
  end.

(** [os.path.splitext(p)]: the extension starts at the last dot of
    the last component, leading dots of that component set aside. *)
Definition splitext (p : string) : string * string :=
  let b := basename p in
  let dir := String.substring 0 (String.length p - String.length b) p in
  match split_last_dot b with
  | Some (root, ext) =>
    if all_dots root then (p, EmptyString) else (String.append dir root, ext)
  | None => (p, EmptyString)
  end.

(** [os.path.join(a, b)] *)
Definition join (a b : string) : string :=
  if PyStr.startswith b "/" then b
  else if orb (String.eqb a "") (PyStr.endswith a "/") then String.append a b
  else String.append a (String "/" b).

End PyPath.

(** ** The environment *)

(** A [datetime], as [strptime] builds it from a string of the format
    "%Y-%m-%d %H:%M:%S". *)
Record datetime : Type := {
  year : Z;
  month : Z;
  day : Z;
  hour : Z;
  minute : Z;
  second : Z
}.

(** What the program asks the operating system and the libraries:
    whether a path exists, the names in a directory ([None] when
    listing raises), the modification time of a file ([None] when it
    raises), the [datetime] read by [datetime.strptime] in a string
    with the format "%Y-%m-%d %H:%M:%S" ([None] when it raises), the
    epoch that [datetime.timestamp()] gives for a [datetime] taken in
    local time, or the exception it raises for a date that the
    platform cannot convert (ValueError for the year 1, for one), the
    formatted current time, and whether a file can be opened for
    writing. *)
Record world : Type := {
  path_exists : string -> bool;
  listdir : string -> option (list string);
  getmtime : string -> option spec_float;
  strptime : string -> option datetime;
  timestamp : datetime -> result spec_float;
  now : string;
  can_write : string -> bool
}.

(** ** The resolver *)

Definition video_extensions : list string :=
  [".mp4"; ".mkv"; ".flv"; ".mov"; ".avi"; ".ts"].

Definition is_video (filename : string) : bool :=
  existsb (PyStr.endswith (PyStr.lower filename)) video_extensions.

(** The scan of the directory: [None] when an exception is caught. *)
Fixpoint scan (w : world) (recording_dir : string) (names : list string)
    : option (list (string * spec_float)) :=
  match names with
  | [] => Some []
  | filename :: rest =>
    if is_video filename then
      let filepath := PyPath.join recording_dir filename in
      match getmtime w filepath with
      | None => None
      | Some mtime =>
        match scan w recording_dir rest with
        | None => None
        | Some l => Some ((filepath, mtime) :: l)
        end
      end
    else scan w recording_dir rest
  end.

(** [list.sort(key=lambda x: x[1], reverse=True)]: a stable sort,
    greatest key first; equal keys keep the order of the list. *)
Fixpoint insert_desc (x : string * spec_float) (l : list (string * spec_float))
    : list (string * spec_float) :=
  match l with
  | [] => [x]
  | y :: l' =>
    if PyFloat.ltb (snd x) (snd y) then y :: insert_desc x l' else x :: l
  end.

Definition sort_desc (l : list (string * spec_float)) : list (string * spec_float) :=
  fold_right insert_desc [] l.

(** [abs(mtime - metadata_epoch) < 300] *)
Definition within_tolerance (metadata_epoch mtime : spec_float) : bool :=
  PyFloat.ltb (SFabs (PyFloat.sub mtime metadata_epoch)) PyFloat.c300.

(** The choice among the video files found, none of which is missing. *)
Definition choose (video_files : list (string * spec_float))
    (metadata_time : option spec_float) : option string :=
  match video_files with
  | [] => None
  | _ =>
    let sorted := sort_desc video_files in
    let newest := option_map fst (hd_error sorted) in
    match metadata_time with
    | Some metadata_epoch =>
      match find (fun x => within_tolerance metadata_epoch (snd x)) sorted with
      | Some (filepath, _) => Some filepath
      | None => newest
      end
    | None => newest
    end
  end.

(** A file descriptor that fits the C [int] that [os.stat] takes. *)
Definition fits_c_int (z : Z) : bool :=
  andb (- 2 ^ 31 <=? z) (z <? 2 ^ 31).

(** [recording_dir] and [metadata_timestamp] are whatever the metadata
    holds.  The timestamp is read inside a [try] whose handler sets
    [metadata_time] to [None]; once video files were found, the epoch
    is asked of [metadata_time.timestamp()] outside any [try], so
    that its exception leaves the function.  An integer (or bool)
    directory is taken by [os.path.exists] and [os.listdir] as a file
    descriptor: one that does not fit a C [int] makes [os.path.exists]
    raise OverflowError; for the others [os.path.join] raises a
    TypeError that the scan catches, so the answer is [None] whatever
    the descriptor is.  A float, list or dict makes [os.path.exists]
    raise TypeError. *)
Definition find_latest_video_file (w : world) (recording_dir metadata_timestamp : json)
    : result (option string) :=
  if negb (Py.truthy recording_dir) then Ok None
  else
    match recording_dir with
    | JStr d =>
      if negb (path_exists w d) then Ok None
      else
        let metadata_time :=
          match metadata_timestamp with
          | JStr s => strptime w s
          | _ => None
          end in
        match listdir w d with
        | None => Ok None
        | Some names =>
          match scan w d names with
          | None => Ok None
          | Some [] => Ok None
          | Some video_files =>
            match metadata_time with
            | Some t =>
              metadata_epoch <- timestamp w t ;;
              Ok (choose video_files (Some metadata_epoch))
            | None => Ok (choose video_files None)
            end
          end
        end
    | JInt z => if fits_c_int z then Ok None else Raise OverflowError
    | JBool _ => Ok None
    | _ => Raise TypeError
    end.

(** ** The emitter *)

(** An [ElementTree] element: tag, attributes, text (whatever object
    was assigned; [JNull] when none was), children in order. *)
#[warnings="-register-all"]
Inductive xml : Type :=
  | Element (tag : string) (attrib : list (string * string)) (text : json)
            (children : list xml).

Definition tag_of (x : xml) : string := let 'Element t _ _ _ := x in t.
Definition text_of (x : xml) : json := let 'Element _ _ t _ := x in t.
Definition children_of (x : xml) : list xml := let 'Element _ _ _ c := x in c.

(** An element holding only text, and one holding only children. *)
Definition leaf (tag text : string) : xml := Element tag [] (JStr text) [].
Definition node (tag : string) (children : list xml) : xml :=
  Element tag [] JNull children.

(** [fps in [23.976, 29.97, 59.94]]: membership by [==], which is
    exact between an int and a float. *)
Definition num_eqb (x : num) (c : spec_float) : bool :=
  match x with
  | NFloat f => PyFloat.eqb f c
  | NInt z =>
    match PyFloat.exact_Z c with
    | Some z' => z =? z'
    | None => false
    end
  end.

Definition is_ntsc (fps : num) : bool :=
  existsb (num_eqb fps) [PyFloat.c23_976; PyFloat.c29_97; PyFloat.c59_94].

(** [int(fps)] *)
Definition int_of_num (x : num) : result Z :=
  match x with
  | NInt z => Ok z
  | NFloat f => PyFloat.to_int f
  end.

(** [fps * 1.001] *)
Definition times_1_001 (x : num) : result spec_float :=
  f <- as_float x ;;
  Ok (PyFloat.mul f PyFloat.c1_001).

Definition timebase_of (fps : num) : result Z :=
  if negb (is_ntsc fps) then int_of_num fps
  else
    f <- times_1_001 fps ;;
    PyFloat.to_int f.

Definition rate_element (timebase : Z) (ntsc : bool) : xml :=
  node "rate"
    [ leaf "timebase" (PyStr.of_int timebase);
      leaf "ntsc" (if ntsc then "TRUE" else "FALSE") ].

(** [max] of a non-empty sequence of ints *)
Definition max_of (x : Z) (xs : list Z) : Z := fold_left Z.max xs x.

Definition marker_element (fps : num) (ts : marker) : result xml :=
  frame <- ms_to_frames (timestamp_ms ts) fps ;;
  color_code <- get_color_code (color ts) ;;
  Ok (node "marker"
        [ Element "comment" [] (comment ts) [];
          Element "name" [] (name ts) [];
          leaf "in" (PyStr.of_int frame);
          leaf "out" "-1";
          leaf "pproColor" color_code ]).

Fixpoint map_result {A B : Type} (f : A -> result B) (l : list A) : result (list B) :=
  match l with
  | [] => Ok []
  | a :: l' =>
    b <- f a ;;
    bs <- map_result f l' ;;
    Ok (b :: bs)
  end.

Definition color_matte_effect : xml :=
  node "effect"
    [ leaf "name" "Color";
      leaf "effectid" "Color";
      leaf "effectcategory" "Matte";
      leaf "effecttype" "generator";
      leaf "mediatype" "video";
      Element "parameter" [("authoringApp", "PremierePro")] JNull
        [ leaf "parameterid" "fillcolor";
          leaf "name" "Color";
          node "value"
            [ leaf "alpha" "0"; leaf "red" "0"; leaf "green" "0"; leaf "blue" "0" ] ] ].

Definition opacity_filter : xml :=
  node "filter"
    [ node "effect"
        [ leaf "name" "Opacity";
          leaf "effectid" "opacity";
          leaf "effectcategory" "motion";
          leaf "effecttype" "motion";
          leaf "mediatype" "video";
          Element "parameter" [("authoringApp", "PremierePro")] JNull
            [ leaf "parameterid" "opacity";
              leaf "name" "opacity";
              leaf "value" "0" ] ] ].

Definition audio_track (i : Z) : xml :=
  node "track"
    [ leaf "enabled" "TRUE";
      leaf "locked" "FALSE";
      leaf "outputchannelindex" (PyStr.of_int (i + 1)) ].

Definition generator_item (duration timebase : Z) (ntsc : bool) (markers : list xml) : xml :=
  Element "generatoritem" [("id", "clipitem-1")] JNull
    ([ leaf "name" "OBS Marker Holder";
       leaf "enabled" "TRUE";
       leaf "duration" (PyStr.of_int duration);
       rate_element timebase ntsc;
       leaf "start" "0";
       leaf "end" (PyStr.of_int duration);
       leaf "in" "0";
       leaf "out" (PyStr.of_int duration);
       leaf "alphatype" "none";
       color_matte_effect;
       opacity_filter ] ++ markers).

Definition video_element (duration timebase : Z) (ntsc : bool) (width height : Z)
    (markers : list xml) : xml :=
  node "video"
    [ node "format"
        [ node "samplecharacteristics"
            [ rate_element timebase ntsc;
              node "codec" [ leaf "name" "Apple ProRes 422" ];
              leaf "width" (PyStr.of_int width);
              leaf "height" (PyStr.of_int height);
              leaf "anamorphic" "FALSE";
              leaf "pixelaspectratio" "square";
              leaf "fielddominance" "none";
              leaf "colordepth" "24" ] ];
      node "track"
        [ leaf "enabled" "TRUE";
          leaf "locked" "FALSE";
          generator_item duration timebase ntsc markers ] ].

Definition audio_element : xml :=
  node "audio"
    [ leaf "numOutputChannels" "2";
      node "format"
        [ node "samplecharacteristics"
            [ leaf "depth" "16"; leaf "samplerate" "48000" ] ];
      audio_track 0;
      audio_track 1 ].

Definition timecode_element (timebase : Z) (ntsc : bool) : xml :=
  node "timecode"
    [ rate_element timebase ntsc;
      leaf "string" "00:00:00:00";
      leaf "frame" "0";
      leaf "displayformat" "NDF" ].

(** The tree under the root, with the children in the order the
    source appends them. *)
Definition sequence_element (duration timebase : Z) (ntsc : bool)
    (sequence_name : string) (width height : Z)
    (item_markers sequence_markers : list xml) : xml :=
  Element "sequence" [("id", "sequence"); ("explodedTracks", "true")] JNull
    ([ leaf "uuid" "obs-timestamp-markers-sequence";
       leaf "duration" (PyStr.of_int duration);
       rate_element timebase ntsc;
       leaf "name" sequence_name;
       node "media"
         [ video_element duration timebase ntsc width height item_markers;
           audio_element ];
       timecode_element timebase ntsc ] ++ sequence_markers).

Definition default_sequence_name (w : world) : string :=
  String.append "OBS Markers (" (String.append (now w) ")").

(** The tree of the document, for a non-empty list of timestamps. *)
Definition build_tree (w : world) (first : marker) (others : list marker)
    (fps : num) (sequence_name : option string) (width height : Z) : result xml :=
  let timestamps := first :: others in
  let ntsc := is_ntsc fps in
  timebase <- timebase_of fps ;;
  let sequence_name :=
    match sequence_name with
    | Some n => if String.eqb n "" then default_sequence_name w else n
    | None => default_sequence_name w
    end in
  let max_timestamp_ms := max_of (timestamp_ms first) (map timestamp_ms others) in
  duration <- ms_to_frames (max_timestamp_ms + 60000) fps ;;
  item_markers <- map_result (marker_element fps) timestamps ;;
  sequence_markers <- map_result (marker_element fps) timestamps ;;
  Ok (Element "xmeml" [("version", "4")] JNull
        [ sequence_element duration timebase ntsc sequence_name width height
            item_markers sequence_markers ]).

(** The text objects of a tree, in document order. *)
Fixpoint texts (x : xml) : list json :=
  match x with
  | Element _ _ t c => t :: flat_map texts c
  end.

(** Every element of a tree, in document order. *)
Fixpoint elements (x : xml) : list xml :=
  match x with
  | Element _ _ _ c => x :: flat_map elements c
  end.

(** [ET.tostring] writes the text of an element only when the text
    is true as a condition, and it must then be a [str]: [None], the
    empty string, and the objects of another type that are false (0,
    0.0, [False], an empty list or dict) are left out without an
    error. *)
Definition text_ok (t : json) : bool :=
  match t with
  | JStr _ => true
  | _ => negb (Py.truthy t)
  end.

(** The parser behind [minidom.parseString] rejects the control
    characters other than tab, line feed and carriage return. *)
Definition xml_char (c : ascii) : bool :=
  let n := N_of_ascii c in
  orb (32 <=? n)%N (orb (n =? 9)%N (orb (n =? 10)%N (n =? 13)%N)).

Fixpoint xml_chars (s : string) : bool :=
  match s with
  | EmptyString => true
  | String c r => andb (xml_char c) (xml_chars r)
  end.

Definition text_chars_ok (t : json) : bool :=
  match t with
  | JStr s => xml_chars s
  | _ => true
  end.

Definition carriage_return : ascii := ascii_of_N 13.
Definition line_feed : ascii := ascii_of_N 10.

(** The ends of lines as an XML parser hands them over: a carriage
    return followed by a line feed, and a carriage return alone, both
    become one line feed. *)
Fixpoint end_of_lines (s : string) : string :=
  match s with
  | EmptyString => EmptyString
  | String c r =>
    if Ascii.eqb c carriage_return then
      match r with
      | String c' r' =>
        if Ascii.eqb c' line_feed then String line_feed (end_of_lines r')
        else String line_feed (end_of_lines r)
      | EmptyString => String line_feed EmptyString
      end
    else String c (end_of_lines r)
  end.

(** The text of an element of the document that was serialized and
    parsed again: none for a text that was left out, and otherwise
    the string with its ends of lines normalized. *)
Definition text_read_back (t : json) : json :=
  match t with
  | JStr s => if String.eqb s "" then JNull else JStr (end_of_lines s)
  | _ => JNull
  end.

(** The tree of the document, as it is read back. *)
Fixpoint read_back (x : xml) : xml :=
  match x with
  | Element tag attrib text children =>
    Element tag attrib (text_read_back text) (map read_back children)
  end.

(** [ET.tostring] followed by [minidom.parseString(...).toprettyxml]:
    the first raises TypeError, the second ExpatError; what comes out
    is the document as the parser read it, which pretty-printing does
    not change but for the white space between the elements. *)
Definition serialize (root : xml) : result xml :=
  if negb (forallb text_ok (texts root)) then Raise TypeError
  else if negb (forallb text_chars_ok (texts root)) then Raise ExpatError
  else Ok (read_back root).

(** What a call of the emitter leaves behind: the boolean it returns
    and the file it wrote, if any (a path and the document of the
    file, kept as the tree that a parser reads in it). *)
Record emitted : Type := {
  returned : bool;
  written : option (string * xml)
}.

Definition create_premiere_xml (w : world) (timestamps : list marker)
    (output_path : string) (fps : num) (sequence_name : option string)
    (width height : Z) : result emitted :=
  match timestamps with
  | [] => Ok {| returned := false; written := None |}
  | first :: others =>
    root <- build_tree w first others fps sequence_name width height ;;
    document <- serialize root ;;
    if can_write w output_path
    then Ok {| returned := true; written := Some (output_path, document) |}
    else Ok {| returned := false; written := None |}
  end.

(** ** The entry point *)

Record arguments : Type := {
  arg_input : string;
  arg_output : option string;
  arg_fps : num;
  arg_sequence_name : option string;
  arg_width : Z;
  arg_height : Z
}.

(** What [parse_arguments] makes of the command line: [argparse]
    ends the process with status 2 after a usage error (a missing
    input, an option it does not know, a value that is not a
    number), with status 0 after printing the help for [-h] or
    [--help], and returns the arguments otherwise. *)
Inductive parse_arguments : Type :=
  | UsageError
  | HelpPrinted
  | Parsed (args : arguments).

(** A command line that is parsed is written as its arguments. *)
Coercion Parsed : arguments >-> parse_arguments.

(** A JSON number as a Python number; [bool] is a subtype of [int]. *)
Definition as_num (x : json) : result num :=
  match x with
  | JInt z => Ok (NInt z)
  | JBool b => Ok (NInt (if b then 1 else 0))
  | JFloat f => Ok (NFloat f)
  | _ => Raise TypeError
  end.

(** [x / y] *)
Definition truediv (x y : json) : result spec_float :=
  a <- as_num x ;;
  b <- as_num y ;;
  match a, b with
  | NInt n, NInt d => PyFloat.int_truediv n d
  | _, _ =>
    fa <- as_float a ;;
    fb <- as_float b ;;
    PyFloat.truediv fa fb
  end.

(** [metadata and k1 in metadata and k2 in metadata] *)
Definition has_both (metadata : json) (k1 k2 : string) : result bool :=
  if negb (Py.truthy metadata) then Ok false
  else
    a <- Py.contains k1 metadata ;;
    if negb a then Ok false else Py.contains k2 metadata.

Definition effective_fps (args : arguments) (metadata : json) : result num :=
  b <- has_both metadata "fps_num" "fps_den" ;;
  if b then
    fps_num <- Py.subscript metadata "fps_num" ;;
    fps_den <- Py.subscript metadata "fps_den" ;;
    calculated_fps <- truediv fps_num fps_den ;;
    Ok (NFloat calculated_fps)
  else Ok (arg_fps args).

Definition markers_suffix : string := "_markers.xml".

(** [os.path.splitext(args.input)[0] + '_markers.xml'] *)
Definition fallback_output (args : arguments) : string :=
  String.append (fst (PyPath.splitext (arg_input args))) markers_suffix.

(** [output_file], when [if not output_file] takes the fallback *)
Definition or_fallback (args : arguments) (output_file : option string) : string :=
  match output_file with
  | Some o => if String.eqb o "" then fallback_output args else o
  | None => fallback_output args
  end.

Definition output_path (w : world) (args : arguments) (metadata : json) : result string :=
  let output_file := arg_output args in
  b <- has_both metadata "recording_path" "timestamp" ;;
  if b then
    recording_dir <- Py.subscript metadata "recording_path" ;;
    recording_time <- Py.subscript metadata "timestamp" ;;
    video_file <- find_latest_video_file w recording_dir recording_time ;;
    match video_file with
    | Some v =>
      if String.eqb v "" then Ok (or_fallback args output_file)
      else
        let video_basename := fst (PyPath.splitext (PyPath.basename v)) in
        match recording_dir with
        | JStr d => Ok (PyPath.join d (String.append video_basename markers_suffix))
        | _ => Raise TypeError
        end
    | None => Ok (or_fallback args output_file)
    end
  else Ok (or_fallback args output_file).

(** The format specifications [:<30] and [:<15] of the preview are
    refused (TypeError) by [None], lists and dicts. *)
Definition format_ok (x : json) : result unit :=
  match x with
  | JNull | JArr _ | JObj _ => Raise TypeError
  | _ => Ok tt
  end.

Definition preview_line (ts : marker) : result unit :=
  _ <- PyFloat.of_int (timestamp_ms ts) ;;
  _ <- format_ok (comment ts) ;;
  if Py.truthy (name ts) then format_ok (name ts) else Ok tt.

Inductive exit : Type :=
  | Returned (code : Z)
  | Uncaught (e : exn)
  | SystemExit (code : Z).

(** The status of the process: [sys.exit(main())], 1 after an
    uncaught exception, and the status that [argparse] asks for when
    it ends the process itself. *)
Definition exit_status (x : exit) : Z :=
  match x with
  | Returned code => code
  | Uncaught _ => 1
  | SystemExit code => code
  end.

(** A run of the program: how it ended, the arguments of the call of
    the emitter if it was called, and the file written. *)
Record run : Type := {
  ended : exit;
  emitter_call : option (list marker * string * num);
  output : option (string * xml)
}.

(** [command_line] is what [parse_arguments()] does on the first
    line of [main]; [file] is the content of the input file. *)
Definition main (w : world) (command_line : parse_arguments) (file : option (list line))
    : run :=
  match command_line with
  | UsageError => {| ended := SystemExit 2; emitter_call := None; output := None |}
  | HelpPrinted => {| ended := SystemExit 0; emitter_call := None; output := None |}
  | Parsed args =>
    match parse_timestamps file with
    | None => {| ended := Returned 1; emitter_call := None; output := None |}
    | Some (metadata, timestamps) =>
      match timestamps with
      | [] => {| ended := Returned 1; emitter_call := None; output := None |}
      | _ =>
        match (fps <- effective_fps args metadata ;;
               output_file <- output_path w args metadata ;;
               _ <- map_result preview_line timestamps ;;
               Ok (fps, output_file)) with
        | Raise e => {| ended := Uncaught e; emitter_call := None; output := None |}
        | Ok (fps, output_file) =>
          let call := Some (timestamps, output_file, fps) in
          match create_premiere_xml w timestamps output_file fps
                  (arg_sequence_name args) (arg_width args) (arg_height args) with
          | Raise e => {| ended := Uncaught e; emitter_call := call; output := None |}
          | Ok r =>
            {| ended := Returned (if returned r then 0 else 1);
               emitter_call := call;
               output := written r |}
          end
        end
      end
    end
  end.

(** ** Notions used to state the properties *)

(** A line that the parser takes as the metadata record. *)
Definition is_metadata_record (l : line) : bool :=
  match l with
  | Decoded (JObj kv) =>
    match Py.dict_get "metadata" kv with
    | Some _ => true
    | None => false
    end
  | _ => false
  end.


Definition nonneg_offsets (ts : list marker) : Prop :=
  Forall (fun t => 0 <= timestamp_ms t) ts.

Definition is_string (x : json) : bool :=
  match x with
  | JStr _ => true
  | _ => false
  end.

(** Some marker of the list has a colour that is not a string. *)
Definition has_bad_color (ts : list marker) : bool :=
  existsb (fun t => negb (is_string (color t))) ts.

(** Every frame conversion that the emitter performs succeeds. *)
Definition conversions_succeed (fps : num) (first : marker) (others : list marker) : Prop :=
  (exists tb, timebase_of fps = Ok tb) /\
  (exists d, ms_to_frames (max_of (timestamp_ms first) (map timestamp_ms others) + 60000) fps = Ok d) /\
  Forall (fun t => exists fr, ms_to_frames (timestamp_ms t) fps = Ok fr) (first :: others).

(** An environment with no recording directory, where files can be
    written. *)
Definition bare_world : world := {|
  path_exists := fun _ => false;
  listdir := fun _ => None;
  getmtime := fun _ => None;
  strptime := fun _ => None;
  timestamp := fun _ => Raise ValueError;
  now := "2024-01-01 00:00";
  can_write := fun _ => true
|}.

(** The command line [in.jsonl] with the defaults of the options,
    but for [--fps]. *)
Definition default_arguments (fps : num) : arguments := {|
  arg_input := "in.jsonl";
  arg_output := None;
  arg_fps := fps;
  arg_sequence_name := None;
  arg_width := 1920;
  arg_height := 1080
|}.

Definition plain_marker (ms : Z) : marker :=
  {| timestamp_ms := ms; comment := JStr ""; name := JStr ""; color := JStr "blue" |}.

(** The [rate] elements of a tree, in document order. *)
Definition rates (root : xml) : list xml :=
  filter (fun x => String.eqb (tag_of x) "rate") (elements root).

(** The input
    [{"metadata": {"fps_num": 30000, "fps_den": 1001}}]
    [{"timestamp_ms": 0}] *)
Definition ntsc_metadata_file : option (list line) :=
  Some [ Decoded (JObj [("metadata", JObj [("fps_num", JInt 30000); ("fps_den", JInt 1001)])]);
         Decoded (JObj [("timestamp_ms", JInt 0)]) ].

(** 30000/1001 as a float: 0x1.df853e2556b28p+4 *)
Definition fps_30000_1001 : spec_float := S754_finite false 0x1df853e2556b28 (-48).

(** The video of the metadata is resolved to [v] in directory [d]. *)
Definition video_resolved (w : world) (metadata : json) (d v : string) : Prop :=
  has_both metadata "recording_path" "timestamp" = Ok true /\
  Py.subscript metadata "recording_path" = Ok (JStr d) /\
  exists t,
    Py.subscript metadata "timestamp" = Ok t /\
    find_latest_video_file w (JStr d) t = Ok (Some v) /\
    v <> "".

(** No video is resolved: the metadata lacks the directory or the
    timestamp, or the resolver finds nothing. *)
Definition no_video (w : world) (metadata : json) : Prop :=
  has_both metadata "recording_path" "timestamp" = Ok false \/
  (has_both metadata "recording_path" "timestamp" = Ok true /\
   exists d t,
     Py.subscript metadata "recording_path" = Ok d /\
     Py.subscript metadata "timestamp" = Ok t /\
     find_latest_video_file w d t = Ok None).

(** The output argument, when it is given and not empty. *)
Definition explicit_output (args : arguments) : option string :=
  match arg_output args with
  | Some o => if String.eqb o "" then None else Some o
  | None => None
  end.

(** Noon of the first day of 2024, and midnight of the first day of
    the year 1. *)
Definition noon_2024 : datetime :=
  {| year := 2024; month := 1; day := 1; hour := 12; minute := 0; second := 0 |}.
Definition year_one : datetime :=
  {| year := 1; month := 1; day := 1; hour := 0; minute := 0; second := 0 |}.

(** A recording directory [/rec] holding two videos and a text file;
    the recording started at epoch 1704110400.  The two timestamps
    that are read in this environment are that of the recording and
    one of the year 1, whose epoch [timestamp()] refuses to compute
    (ValueError: year 0 is out of range). *)
Definition studio_world : world := {|
  path_exists := fun d => String.eqb d "/rec";
  listdir := fun d =>
    if String.eqb d "/rec" then Some ["take1.mp4"; "notes.txt"; "take2.MKV"] else None;
  getmtime := fun p =>
    if String.eqb p "/rec/take1.mp4" then Some (PyFloat.of_Z 1704110410)
    else if String.eqb p "/rec/take2.MKV" then Some (PyFloat.of_Z 1704114000)
    else None;
  strptime := fun s =>
    if String.eqb s "2024-01-01 12:00:00" then Some noon_2024
    else if String.eqb s "0001-01-01 00:00:00" then Some year_one
    else None;
  timestamp := fun t =>
    if year t =? 2024 then Ok (PyFloat.of_Z 1704110400) else Raise ValueError;
  now := "2024-01-01 13:00";
  can_write := fun _ => true
|}.

Definition studio_metadata : json :=
  JObj [("recording_path", JStr "/rec"); ("timestamp", JStr "2024-01-01 12:00:00")].

Definition arguments_with_output (o : option string) : arguments := {|
  arg_input := "in.jsonl";
  arg_output := o;
  arg_fps := NInt 60;
  arg_sequence_name := None;
  arg_width := 1920;
  arg_height := 1080
|}.

(** The float that [ms_to_frames] hands to [int]:
    [(milliseconds / 1000.0) * fps]. *)
Definition frame_position (milliseconds : Z) (fps : num) : result spec_float :=
  m <- PyFloat.of_int milliseconds ;;
  secs <- PyFloat.truediv m PyFloat.c1000 ;;
  f <- as_float fps ;;
  Ok (PyFloat.mul secs f).

(** A frame rate above zero. *)
Definition positive_rate (fps : num) : Prop :=
  match fps with
  | NInt z => 0 < z
  | NFloat f => PyFloat.ltb (S754_zero false) f = true
  end.

(** A float whose sign bit is clear (NaN has none). *)
Definition sign_clear (f : spec_float) : bool :=
  match f with
  | S754_zero s | S754_infinity s | S754_finite s _ _ => negb s
  | S754_nan => true
  end.

(** A frame rate that is not below zero. *)
Definition not_negative (fps : num) : Prop :=
  match fps with
  | NInt z => 0 <= z
  | NFloat f => sign_clear f = true
  end.

(** The floor of [ms/1000 * fps] computed without rounding, the
    frame rate taken at its exact value. *)
Definition exact_frames (ms : Z) (fps : num) : option Z :=
  match fps with
  | NInt z => Some (ms * z / 1000)
  | NFloat (S754_zero _) => Some 0
  | NFloat (S754_finite s m e) =>
    let n := if s then Zneg m else Zpos m in
    Some (if 0 <=? e then ms * n * 2 ^ e / 1000 else ms * n / (1000 * 2 ^ (- e)))
  | NFloat _ => None
  end.


(** The frame rate is one of 23.976, 29.97 and 59.94. *)
Definition listed_rate (fps : num) : Prop :=
  fps = NFloat PyFloat.c23_976 \/ fps = NFloat PyFloat.c29_97 \/ fps = NFloat PyFloat.c59_94.


(** 60.0 and 30.0 *)
Definition c60 : spec_float := S754_finite false 0x1e000000000000 (-47).
Definition c30 : spec_float := S754_finite false 0x1e000000000000 (-48).


(** The first child of an element with a given tag, and the element
    reached by a path of tags. *)
Definition child (tag : string) (x : xml) : option xml :=
  find (fun c => String.eqb (tag_of c) tag) (children_of x).

Fixpoint descend (path : list string) (x : xml) : option xml :=
  match path with
  | [] => Some x
  | tag :: rest =>
    match child tag x with
    | Some c => descend rest c
    | None => None
    end
  end.

Definition text_at (path : list string) (root : xml) : option json :=
  option_map text_of (descend path root).

Definition generator_path : list string :=
  ["sequence"; "media"; "video"; "track"; "generatoritem"].

(** The children of an element that are markers. *)
Definition markers_of (x : xml) : list xml :=
  filter (fun c => String.eqb (tag_of c) "marker") (children_of x).

(** The frame written as the [in] of a marker element. *)
Definition in_frame (x : xml) : option json :=
  text_at ["in"] x.

(** A list of files whose modification times go down: no file is
    older than one that comes after it. *)
Definition not_older (x y : string * spec_float) : Prop :=
  PyFloat.ltb (snd x) (snd y) = false.

Definition descending (l : list (string * spec_float)) : Prop :=
  StronglySorted not_older l.

(** Modification times are numbers. *)
Definition times_are_numbers (l : list (string * spec_float)) : Prop :=
  Forall (fun x => PyFloat.is_nan (snd x) = false) l.

Definition close_file : string * spec_float := ("/rec/take1.mp4", PyFloat.of_Z 1704110410).
Definition far_file : string * spec_float := ("/rec/take2.MKV", PyFloat.of_Z 1704114000).

(** ** The position of a real number between two consecutive
    multiples of a unit

    The rounding of [SpecFloat] works on a mantissa [m] and a location
    that tells where the number stands in [m, m+1): on [m], below
    the middle, on the middle, above it.  Both are packed here in one
    integer, the code [4 * m + k] with [k] from 0 to 3; codes are
    ordered as the numbers they locate are. *)

Definition loc_code (l : location) : Z :=
  match l with
  | loc_Exact => 0
  | loc_Inexact Lt => 1
  | loc_Inexact Eq => 2
  | loc_Inexact Gt => 3
  end.

Definition record_code (r : shr_record) : Z :=
  4 * shr_m r + (if shr_r r then 2 else 0) + (if shr_s r then 1 else 0).

(** The code of the same number for a unit [2 ^ n] times larger. *)
Definition coarsen (n c : Z) : Z :=
  2 * (c / 2 ^ (n + 1)) + (if c mod 2 ^ (n + 1) =? 0 then 0 else 1).

(** The code of the quotient [N / D]. *)
Definition qcode (N D : Z) : Z :=
  2 * (2 * N / D) + (if (2 * N) mod D =? 0 then 0 else 1).

(** Rounding to nearest, ties to even, of a code to a mantissa. *)
Definition round_code (c : Z) : Z :=
  let m := c / 4 in
  let k := c mod 4 in
  if k <=? 1 then m
  else if k =? 3 then m + 1
  else if Z.even m then m else m + 1.

(** The rounding of [binary_round_aux] for a positive sign, written
    on the code [c] of the number at exponent [e]: a shift to the
    exponent that the format gives to numbers of that size, rounding
    to nearest even, a second shift when rounding carried into one
    more digit, and the test for overflow. *)
Definition round_at (c e : Z) : spec_float :=
  let target := fexp PyFloat.prec PyFloat.emax (Zdigits2 (c / 4) + e) in
  let n := Z.max 0 (target - e) in
  let m1 := round_code (coarsen n c) in
  let e1 := e + n in
  let target2 := fexp PyFloat.prec PyFloat.emax (Zdigits2 m1 + e1) in
  let n2 := Z.max 0 (target2 - e1) in
  let m2 := coarsen n2 (4 * m1) / 4 in
  let e2 := e1 + n2 in
  match m2 with
  | Z0 => S754_zero false
  | Zpos q =>
    if e2 <=? PyFloat.emax - PyFloat.prec then S754_finite false q e2
    else S754_infinity false
  | Zneg _ => S754_nan
  end.

(** The exponent given to the numbers located by code [c] at
    exponent [e], and the mantissa they round to at that exponent. *)
Definition target (c e : Z) : Z :=
  fexp PyFloat.prec PyFloat.emax (Zdigits2 (c / 4) + e).

Definition rounded (c e : Z) : Z :=
  round_code (coarsen (target c e - e) c).

(** The code is fine enough for the rounding to be decided on it. *)
Definition fits (c e : Z) : Prop := e <= target c e.

(** The float of mantissa [m], at most [2 ^ 53], and exponent [t]. *)
Definition pack (m t : Z) : spec_float :=
  if m =? 0 then S754_zero false
  else if m =? 2 ^ 53 then
    if t + 1 <=? 971 then S754_finite false (Z.to_pos (2 ^ 52)) (t + 1)
    else S754_infinity false
  else if t <=? 971 then S754_finite false (Z.to_pos m) t
  else S754_infinity false.

(** The order of the floats that are not negative, infinity
    included. *)
Definition fle (x y : spec_float) : Prop :=
  match x, y with
  | S754_zero _, S754_zero _ => True
  | S754_zero _, S754_finite false _ _ => True
  | S754_zero _, S754_infinity false => True
  | S754_finite false m e, S754_finite false m' e' =>
    e < e' \/ (e = e' /\ Zpos m <= Zpos m')
  | S754_finite false _ _, S754_infinity false => True
  | S754_infinity false, S754_infinity false => True
  | _, _ => False
  end.

(** A float as the format has it: a finite one has the exponent that
    the format gives to its mantissa. *)
Definition valid (x : spec_float) : Prop :=
  valid_binary PyFloat.prec PyFloat.emax x = true.

(** A frame rate that is a float is one of the format. *)
Definition valid_rate (fps : num) : Prop :=
  match fps with
  | NInt _ => True
  | NFloat f => valid f
  end.

(** The mantissa of 1000.0, and the exponent at which the division of
    a float of mantissa [mx] and exponent [ex] by 1000.0 computes its
    quotient. *)
Definition m1000 : Z := 0x1f400000000000.

Definition div_exponent (mx : positive) (ex : Z) : Z :=
  Z.min (Z.max (Zdigits2 (Zpos mx) + ex - 63) (-1074)) (ex + 43).

(** The exponent at which an integer [a] is handed to the rounding. *)
Definition int_exponent (a : Z) : Z :=
  Z.min 0 (Z.max (Zdigits2 a - 53) (-1074)).

(** Marker element [x] carries, as its [in], the frame of marker [t]. *)
Definition marker_at (fps : num) (t : marker) (x : xml) : Prop :=
  exists frame,
    ms_to_frames (timestamp_ms t) fps = Ok frame /\
    tag_of x = "marker" /\
    in_frame x = Some (JStr (PyStr.of_int frame)).

(** -60.0 *)
Definition minus_sixty : spec_float := S754_finite true 0x1e000000000000 (-47).

(** A string that a parser reads back as it was written: it is not
    empty and holds no carriage return. *)
Fixpoint no_carriage_return (s : string) : bool :=
  match s with
  | EmptyString => true
  | String c r => andb (negb (Ascii.eqb c carriage_return)) (no_carriage_return r)
  end.

Definition kept (s : string) : bool :=
  andb (negb (String.eqb s "")) (no_carriage_return s).

(** ** Notions used to state the properties of the lines of a file *)

(** A line on which the parser gives up: its [metadata] value is not
    an object (the message printed for it raises AttributeError), or
    its [timestamp_ms] is an infinite float ([int] raises
    OverflowError); neither exception is caught per line. *)
Definition fatal (l : line) : bool :=
  match l with
  | Decoded (JObj kv) =>
    match Py.dict_get "metadata" kv with
    | Some (JObj _) => false
    | Some _ => true
    | None =>
      match Py.dict_get "timestamp_ms" kv with
      | Some (JFloat (S754_infinity _)) => true
      | _ => false
      end
    end
  | _ => false
  end.

(** The value of a key, or a default. *)
Definition value_or (d : json) (o : option json) : json :=
  match o with
  | Some v => v
  | None => d
  end.

(** The marker that a line stands for, if it stands for one: the line
    is an object without [metadata], with a [timestamp_ms] that [int]
    converts. *)
Definition line_marker (l : line) : option marker :=
  match l with
  | Decoded (JObj kv) =>
    match Py.dict_get "metadata" kv, Py.dict_get "timestamp_ms" kv with
    | None, Some v =>
      match Py.int v with
      | Ok ms =>
        Some {| timestamp_ms := ms;
                comment := value_or (JStr "") (Py.dict_get "comment" kv);
                name := value_or (JStr "") (Py.dict_get "name" kv);
                color := value_or (JStr "blue") (Py.dict_get "color" kv) |}
      | Raise _ => None
      end
    | _, _ => None
    end
  | _ => None
  end.

Definition line_markers (l : line) : list marker :=
  match line_marker l with
  | Some t => [t]
  | None => []
  end.

(** The markers of the lines of a file, in the order of the lines. *)
Definition file_markers (lines : list line) : list marker :=
  flat_map line_markers lines.

(** The metadata after a line, [metadata] being the one before it. *)
Definition line_metadata (metadata : json) (l : line) : json :=
  match l with
  | Decoded (JObj kv) => value_or metadata (Py.dict_get "metadata" kv)
  | _ => metadata
  end.

(** The metadata of the lines of a file: that of the last metadata
    record, the empty dict when there is none. *)
Definition file_metadata (lines : list line) : json :=
  fold_left line_metadata lines (JObj []).

(** The lines that the parser passes over. *)
Inductive skipped : line -> Prop :=
  | skipped_blank : skipped Blank
  | skipped_malformed : skipped Malformed
  | skipped_not_object (data : json) :
      (forall kv, data <> JObj kv) -> skipped (Decoded data)
  | skipped_no_offset (kv : list (string * json)) :
      Py.dict_get "metadata" kv = None ->
      Py.dict_get "timestamp_ms" kv = None ->
      skipped (Decoded (JObj kv))
  | skipped_bad_offset (kv : list (string * json)) (v : json) (e : exn) :
      Py.dict_get "metadata" kv = None ->
      Py.dict_get "timestamp_ms" kv = Some v ->
      Py.int v = Raise e ->
      e <> OverflowError ->
      skipped (Decoded (JObj kv)).

(** A file with a blank line, a line that is not JSON, a marker, a
    metadata record in the middle, a marker whose offset is a string
    and a marker whose comment is a number. *)
Definition mixed_file : list line :=
  [ Blank;
    Decoded (JObj [("timestamp_ms", JInt 2000); ("name", JStr "b")]);
    Malformed;
    Decoded (JObj [("metadata", JObj [("fps_num", JInt 30)])]);
    Decoded (JObj [("timestamp_ms", JStr " 1000 "); ("color", JStr "Red")]);
    Decoded (JObj [("timestamp_ms", JInt 2000); ("comment", JInt 7)]) ].

(** ** Notions used to state the properties of the entry point *)

(** A JSON value that is a number equal to zero. *)
Definition is_zero_number (x : json) : bool :=
  match x with
  | JInt z => z =? 0
  | JBool b => negb b
  | JFloat f => PyFloat.is_zero f
  | _ => false
  end.

(** A JSON value that is a number, and one that Python can take to
    a float. *)
Definition is_float_convertible (x : json) : bool :=
  match as_num x with
  | Ok n => match as_float n with Ok _ => true | Raise _ => false end
  | Raise _ => false
  end.

(** A value that the format specification [:<30] refuses. *)
Definition refuses_padding (x : json) : bool :=
  match x with
  | JNull | JArr _ | JObj _ => true
  | _ => false
  end.

(** The input
    [{"metadata": {"fps_num": 30, "fps_den": 0}}]
    [{"timestamp_ms": 0}] *)
Definition zero_denominator_file : option (list line) :=
  Some [ Decoded (JObj [("metadata", JObj [("fps_num", JInt 30); ("fps_den", JInt 0)])]);
         Decoded (JObj [("timestamp_ms", JInt 0)]) ].

(** The input [{"timestamp_ms": 0, "comment": null}] *)
Definition null_comment_file : option (list line) :=
  Some [ Decoded (JObj [("timestamp_ms", JInt 0); ("comment", JNull)]) ].

(** ** Notions used to state the properties of the resolver *)

(** The timestamp of the metadata cannot be used: it is not a string,
    or [strptime] refuses it. *)
Definition unusable_timestamp (w : world) (stamp : json) : Prop :=
  match stamp with
  | JStr s => strptime w s = None
  | _ => True
  end.

(** A name of the listing is a video whose modification time cannot
    be read. *)
Definition unreadable_video (w : world) (d : string) (names : list string) : Prop :=
  exists filename,
    In filename names /\ is_video filename = true /\
    getmtime w (PyPath.join d filename) = None.

(** ** Integers as floats *)

(** The float of the format that is equal to the integer [n], for
    [n] above 0 and below 2^53: its mantissa is [n] shifted to 53
    digits. *)
Definition canonical (n : Z) : spec_float :=
  S754_finite false (Z.to_pos (n * 2 ^ (53 - Zdigits2 n))) (Zdigits2 n - 53).

(** ** Notions used to state the properties of the document *)

(** The name given to the sequence: the argument, or the default
    name when the argument is absent or empty. *)
Definition sequence_title (w : world) (sequence_name : option string) : string :=
  match sequence_name with
  | Some n => if String.eqb n "" then default_sequence_name w else n
  | None => default_sequence_name w
  end.

(** The marker element that the emitter builds for marker [t], for
    a frame and a colour code. *)
Definition marker_node (t : marker) (frame : Z) (code : string) : xml :=
  node "marker"
    [ Element "comment" [] (comment t) [];
      Element "name" [] (name t) [];
      leaf "in" (PyStr.of_int frame);
      leaf "out" "-1";
      leaf "pproColor" code ].

(** Element [x] is the marker element built for [t]: it holds the
    comment and the name of [t] as they are, the frame of its offset
    and the code of its colour, and -1 as [out]. *)
Definition carries (fps : num) (t : marker) (x : xml) : Prop :=
  exists frame code,
    ms_to_frames (timestamp_ms t) fps = Ok frame /\
    get_color_code (color t) = Ok code /\
    x = marker_node t frame code.

(** The marker element of marker [t] in the written document: the
    comment and the name are the texts that are read back from the
    file, that is no text for [None], for the empty string and for
    any other value that is false as a condition, and otherwise the
    string with every CR LF pair and every other CR turned into a
    line feed. *)
Definition written_marker (t : marker) (frame : Z) (code : string) : xml :=
  node "marker"
    [ Element "comment" [] (text_read_back (comment t)) [];
      Element "name" [] (text_read_back (name t)) [];
      leaf "in" (PyStr.of_int frame);
      leaf "out" "-1";
      leaf "pproColor" code ].

(** Element [x] is the marker element of [t] in the written
    document, with the frame of its offset and the code of its
    colour. *)
Definition written_as (fps : num) (t : marker) (x : xml) : Prop :=
  exists frame code,
    ms_to_frames (timestamp_ms t) fps = Ok frame /\
    get_color_code (color t) = Ok code /\
    x = written_marker t frame code.

(** The two characters [a] and [b] with a carriage return between
    them, and with a line feed between them. *)
Definition cr_between : string :=
  String "a" (String carriage_return (String "b" EmptyString)).
Definition lf_between : string :=
  String "a" (String line_feed (String "b" EmptyString)).

(** A marker whose comment holds a carriage return and whose name is
    empty. *)
Definition carriage_marker : marker :=
  {| timestamp_ms := 0; comment := JStr cr_between; name := JStr ""; color := JStr "blue" |}.

(** Every text of a tree passes a test. *)
Definition all_texts (P : json -> bool) (x : xml) : bool :=
  forallb P (texts x).

(** The comment and the name of a marker are texts that can be
    serialized: each is a string, or a value that is false as a
    condition ([None], 0, 0.0, [False], an empty list or dict), which
    the serialization leaves out. *)
Definition text_fields_ok (t : marker) : bool :=
  andb (text_ok (comment t)) (text_ok (name t)).

(** A value that the serialization refuses as a text: one that is
    true as a condition, so that it is written, and is not a
    string (a number other than zero, [True], a list or an object
    that is not empty). *)
Definition unserializable (x : json) : bool :=
  andb (Py.truthy x) (negb (is_string x)).

(** Some marker of the list has such a comment or such a name. *)
Definition has_unserializable (ts : list marker) : bool :=
  existsb (fun t => orb (unserializable (comment t)) (unserializable (name t))) ts.

(** The comment and the name of a marker hold no character that the
    XML parser refuses. *)
Definition text_fields_chars_ok (t : marker) : bool :=
  andb (text_chars_ok (comment t)) (text_chars_ok (name t)).

(** The paths of the name of the sequence and of the dimensions of
    the picture. *)
Definition name_path : list string := ["sequence"; "name"].
Definition width_path : list string :=
  ["sequence"; "media"; "video"; "format"; "samplecharacteristics"; "width"].
Definition height_path : list string :=
  ["sequence"; "media"; "video"; "format"; "samplecharacteristics"; "height"].

(** A marker whose comment is the number 5. *)
Definition numbered_marker : marker :=
  {| timestamp_ms := 0; comment := JInt 5; name := JStr ""; color := JStr "blue" |}.




(** A rate that is not a number: NaN or an infinity. *)
Definition not_finite (f : spec_float) : bool :=
  match f with
  | S754_nan | S754_infinity _ => true
  | _ => false
  end.

(** * Properties *)

(** ** The parser *)

Lemma parse_lines_app (a b : list line) :
  forall metadata timestamps,
    parse_lines (a ++ b) metadata timestamps =
    match parse_lines a metadata timestamps with
    | Some (metadata', timestamps') => parse_lines b metadata' timestamps'
    | None => None
    end.
Proof.
  induction a as [|l a IH]; intros metadata timestamps; simpl.
  - reflexivity.
  - destruct l as [| |data]; try apply IH.
    destruct (process data) as [[m| |t]|[]]; try apply IH; reflexivity.
Qed.

Lemma parse_lines_keeps_metadata (lines : list line) :
  forallb (fun l => negb (is_metadata_record l)) lines = true ->
  forall metadata timestamps metadata' timestamps',
    parse_lines lines metadata timestamps = Some (metadata', timestamps') ->
    metadata' = metadata.
Proof.
  induction lines as [|l lines IH]; simpl; intros Hno metadata timestamps metadata' timestamps' H.
  - congruence.
  - apply andb_prop in Hno. destruct Hno as [Hl Hno].
    destruct l as [| |data]; try (eapply IH; eassumption).
    destruct (process data) as [[m| |t]|[]] eqn:Hp;
      try (eapply IH; eassumption); try discriminate.
    exfalso. unfold process in Hp.
    destruct data; simpl in Hp; try discriminate.
    + destruct (PyStr.contains s "metadata"); simpl in Hp; try discriminate.
      destruct (PyStr.contains s "timestamp_ms"); simpl in Hp; discriminate.
    + destruct (existsb (Py.is_str "metadata") l); simpl in Hp; try discriminate.
      destruct (existsb (Py.is_str "timestamp_ms") l); simpl in Hp; discriminate.
    + simpl in Hl. destruct (Py.dict_get "metadata" kv); simpl in *; try discriminate.
      destruct (Py.dict_get "timestamp_ms" kv); simpl in Hp; try discriminate.
      unfold read_marker in Hp. simpl in Hp.
      destruct (Py.dict_get "timestamp_ms" kv); simpl in Hp; try discriminate.
      destruct (Py.int j0); simpl in Hp; try discriminate.
      destruct (Py.dict_get "comment" kv), (Py.dict_get "name" kv), (Py.dict_get "color" kv);
        simpl in Hp; discriminate.
Qed.

Lemma process_metadata (kv : list (string * json)) (m : json) (a : action) :
  Py.dict_get "metadata" kv = Some m ->
  process (JObj kv) = Ok a ->
  a = SetMetadata m.
Proof.
  intros Hm H. unfold process in H. simpl in H. rewrite Hm in H. simpl in H.
  destruct (Py.get m "recording_path" (JStr "N/A")); simpl in H; congruence.
Qed.

Lemma process_metadata_raises (kv : list (string * json)) (m : json) (e : exn) :
  Py.dict_get "metadata" kv = Some m ->
  process (JObj kv) = Raise e ->
  e = AttributeError.
Proof.
  intros Hm H. unfold process in H. simpl in H. rewrite Hm in H. simpl in H.
  destruct m; simpl in H; try congruence.
  destruct (Py.dict_get "recording_path" kv0); simpl in H; discriminate.
Qed.






(** C5, as the code has it: every record with a [metadata] key,
    wherever it stands in the file, replaces the metadata read so
    far, so the last such record is the one returned. *)
Theorem c5_last_metadata_record_wins :
  forall before kv m after metadata timestamps,
    Py.dict_get "metadata" kv = Some m ->
    forallb (fun l => negb (is_metadata_record l)) after = true ->
    parse_timestamps (Some (before ++ Decoded (JObj kv) :: after)) = Some (metadata, timestamps) ->
    metadata = m.
Proof.
  intros before kv m after metadata timestamps Hm Hafter H.
  simpl in H. rewrite parse_lines_app in H.
  destruct (parse_lines before (JObj []) []) as [[md1 ts1]|]; [|discriminate].
  simpl in H.
  destruct (process (JObj kv)) as [a|e] eqn:Hp.
  - apply (process_metadata kv m a Hm) in Hp. subst a.
    eapply parse_lines_keeps_metadata; eassumption.
  - apply (process_metadata_raises kv m e Hm) in Hp. subst e. discriminate.
Qed.

Lemma c5_last_metadata_record_wins_witness :
  parse_timestamps
    (Some ([Decoded (JObj [("metadata", JObj [("fps_num", JInt 30)])])]
           ++ Decoded (JObj [("metadata", JObj [("fps_num", JInt 60)])])
              :: [Decoded (JObj [("timestamp_ms", JInt 0)])]))
    = Some (JObj [("fps_num", JInt 60)], [plain_marker 0]) /\
  JObj [("fps_num", JInt 60)] = JObj [("fps_num", JInt 60)].
Proof.
  split; [reflexivity|].
  apply (c5_last_metadata_record_wins
           [Decoded (JObj [("metadata", JObj [("fps_num", JInt 30)])])]
           [("metadata", JObj [("fps_num", JInt 60)])]
           (JObj [("fps_num", JInt 60)])
           [Decoded (JObj [("timestamp_ms", JInt 0)])]
           (JObj [("fps_num", JInt 60)])
           [plain_marker 0]); reflexivity.
Defined.

(** C5 as stated fails: of two metadata records the parser returns
    the second, not the first. *)
Lemma c5_first_metadata_record_lost :
  parse_timestamps
    (Some [ Decoded (JObj [("metadata", JObj [("fps_num", JInt 30)])]);
            Decoded (JObj [("metadata", JObj [("fps_num", JInt 60)])]) ])
    = Some (JObj [("fps_num", JInt 60)], []) /\
  JObj [("fps_num", JInt 60)] <> JObj [("fps_num", JInt 30)].
Proof.
  split; [reflexivity|discriminate].
Qed.

(** ** Empty marker lists *)

(** C6: when the parser yields no marker the program ends with status
    1 without calling the emitter or writing a file; and the emitter,
    given an empty list, returns false and writes nothing. *)
Theorem c6_no_markers_no_emission :
  (forall w (args : arguments) file metadata,
     parse_timestamps file = Some (metadata, []) ->
     exit_status (ended (main w args file)) = 1 /\
     emitter_call (main w args file) = None /\
     output (main w args file) = None) /\
  (forall w output_path fps sequence_name width height,
     create_premiere_xml w [] output_path fps sequence_name width height
       = Ok {| returned := false; written := None |}).
Proof.
  split.
  - intros w args file metadata H. unfold main. rewrite H. simpl. auto.
  - reflexivity.
Qed.

Lemma c6_no_markers_no_emission_witness :
  exit_status (ended (main bare_world (default_arguments (NInt 60))
                        (Some [Blank; Malformed; Decoded (JObj [("comment", JStr "x")])]))) = 1 /\
  emitter_call (main bare_world (default_arguments (NInt 60))
                  (Some [Blank; Malformed; Decoded (JObj [("comment", JStr "x")])])) = None /\
  output (main bare_world (default_arguments (NInt 60))
            (Some [Blank; Malformed; Decoded (JObj [("comment", JStr "x")])])) = None.
Proof.
  apply (proj1 c6_no_markers_no_emission bare_world (default_arguments (NInt 60))
           (Some [Blank; Malformed; Decoded (JObj [("comment", JStr "x")])]) (JObj [])).
  reflexivity.
Defined.

(** ** Colours that are not strings *)

Lemma get_color_code_not_string (c : json) :
  is_string c = false -> get_color_code c = Raise AttributeError.
Proof. destruct c; simpl; intros H; try reflexivity; discriminate. Qed.

Lemma markers_bad_color_raise (fps : num) (l : list marker) :
  has_bad_color l = true ->
  exists e, map_result (marker_element fps) l = Raise e /\
            (Forall (fun t => exists fr, ms_to_frames (timestamp_ms t) fps = Ok fr) l ->
             e = AttributeError).
Proof.
  induction l as [|t l IH]; simpl; intros H; [discriminate|].
  unfold marker_element at 1.
  destruct (ms_to_frames (timestamp_ms t) fps) as [fr|e] eqn:Hfr; simpl.
  - destruct (is_string (color t)) eqn:Hc.
    + simpl in H. destruct (IH H) as [e [He Hall]].
      destruct (color t); try discriminate. simpl. rewrite He. simpl.
      exists e. split; [reflexivity|]. intros HF. inversion HF; subst. auto.
    + rewrite (get_color_code_not_string _ Hc). simpl.
      exists AttributeError. auto.
  - exists e. split; [reflexivity|]. intros HF. inversion HF as [|x l' [fr Hx] _]; subst.
    congruence.
Qed.

Lemma emitter_bad_color_raises (w : world) (timestamps : list marker) (path : string)
    (fps : num) (sequence_name : option string) (width height : Z) :
  has_bad_color timestamps = true ->
  exists e, create_premiere_xml w timestamps path fps sequence_name width height = Raise e.
Proof.
  intros H. destruct timestamps as [|first others]; [discriminate|].
  unfold create_premiere_xml, build_tree.
  destruct (timebase_of fps); cbn [bind]; [|eauto].
  destruct (ms_to_frames _ fps); cbn [bind]; [|eauto].
  destruct (markers_bad_color_raise fps _ H) as [e [He _]].
  rewrite He. cbn [bind]. eauto.
Qed.

(** C10: the parser keeps whatever value the record gives for
    [color]; [get_color_code] raises AttributeError on a value that is
    not a string; the emitter then raises instead of returning
    (AttributeError when the frame conversions succeed), and the
    program ends on that uncaught exception, without output. *)
Theorem c10_non_string_color_crashes :
  (forall kv v ms c,
     Py.dict_get "metadata" kv = None ->
     Py.dict_get "timestamp_ms" kv = Some v ->
     Py.int v = Ok ms ->
     Py.dict_get "color" kv = Some c ->
     exists md t,
       parse_timestamps (Some [Decoded (JObj kv)]) = Some (md, [t]) /\ color t = c) /\
  (forall c, is_string c = false -> get_color_code c = Raise AttributeError) /\
  (forall w first others path fps sequence_name width height,
     has_bad_color (first :: others) = true ->
     exists e,
       create_premiere_xml w (first :: others) path fps sequence_name width height = Raise e /\
       (conversions_succeed fps first others -> e = AttributeError)) /\
  (forall w (args : arguments) file metadata timestamps,
     parse_timestamps file = Some (metadata, timestamps) ->
     has_bad_color timestamps = true ->
     exists e, ended (main w args file) = Uncaught e /\ output (main w args file) = None).
Proof.
  split; [|split; [|split]].
  - intros kv v ms c Hm Hv Hms Hc. simpl. unfold process, read_marker. simpl.
    rewrite Hm. simpl. rewrite Hv. simpl. rewrite Hms. simpl. rewrite Hc.
    destruct (Py.dict_get "comment" kv), (Py.dict_get "name" kv); simpl; eauto.
  - exact get_color_code_not_string.
  - intros w first others path fps sequence_name width height H.
    unfold create_premiere_xml, build_tree.
    destruct (timebase_of fps) as [tb|e] eqn:Htb; cbn [bind].
    + destruct (ms_to_frames _ fps) as [d|e] eqn:Hd; cbn [bind].
      * destruct (markers_bad_color_raise fps _ H) as [e [He Hall]].
        rewrite He. cbn [bind]. exists e. split; [reflexivity|].
        intros [_ [_ HF]]. auto.
      * exists e. split; [reflexivity|]. intros [_ [[d Hd'] _]]. congruence.
    + exists e. split; [reflexivity|]. intros [[tb Htb'] _]. congruence.
  - intros w args file metadata timestamps Hp H. unfold main. rewrite Hp.
    destruct timestamps as [|first others]; [discriminate|].
    match goal with |- context [match ?r with Ok _ => _ | Raise _ => _ end] =>
      destruct r as [[fps output_file]|e] end.
    + destruct (emitter_bad_color_raises w (first :: others) output_file fps
                  (arg_sequence_name args) (arg_width args) (arg_height args) H) as [e He].
      rewrite He. simpl. eauto.
    + simpl. eauto.
Qed.

Lemma c10_non_string_color_crashes_witness :
  exists e,
    create_premiere_xml bare_world
      [ {| timestamp_ms := 0; comment := JStr ""; name := JStr ""; color := JInt 5 |} ]
      "out.xml" (NInt 60) None 1920 1080 = Raise e /\
    (conversions_succeed (NInt 60)
       {| timestamp_ms := 0; comment := JStr ""; name := JStr ""; color := JInt 5 |} [] ->
     e = AttributeError).
Proof.
  apply (proj1 (proj2 (proj2 c10_non_string_color_crashes)) bare_world
           {| timestamp_ms := 0; comment := JStr ""; name := JStr ""; color := JInt 5 |}
           [] "out.xml" (NInt 60) None 1920 1080).
  reflexivity.
Defined.

(** ** The output path *)

Lemma or_fallback_explicit (args : arguments) :
  or_fallback args (arg_output args) =
  match explicit_output args with
  | Some o => o
  | None => fallback_output args
  end.
Proof.
  unfold or_fallback, explicit_output.
  destruct (arg_output args) as [o|]; [|reflexivity].
  destruct (String.eqb o ""); reflexivity.
Qed.

Lemma output_path_no_video (w : world) (args : arguments) (metadata : json) :
  no_video w metadata ->
  output_path w args metadata = Ok (or_fallback args (arg_output args)).
Proof.
  unfold output_path. intros [H|[H [d [t [Hd [Ht Hf]]]]]]; rewrite H; simpl.
  - reflexivity.
  - rewrite Hd. simpl. rewrite Ht. simpl. rewrite Hf. reflexivity.
Qed.

(** C8, as the code has it: a name derived from a resolved video
    (its base name without extension, then [_markers.xml], in the
    recording directory) comes first, whatever the output argument;
    without a resolved video the output argument is used when given;
    the name derived from the input file is the last resort. *)
Theorem c8_output_path_priority :
  forall w args metadata,
    (forall d v,
       video_resolved w metadata d v ->
       output_path w args metadata =
       Ok (PyPath.join d
             (String.append (fst (PyPath.splitext (PyPath.basename v))) markers_suffix))) /\
    (forall o,
       no_video w metadata ->
       explicit_output args = Some o ->
       output_path w args metadata = Ok o) /\
    (no_video w metadata ->
     explicit_output args = None ->
     output_path w args metadata = Ok (fallback_output args)).
Proof.
  intros w args metadata. split; [|split].
  - intros d v [Hb [Hd [t [Ht [Hf Hv]]]]]. unfold output_path.
    rewrite Hb. simpl. rewrite Hd. simpl. rewrite Ht. simpl. rewrite Hf. simpl.
    destruct (String.eqb_spec v ""); [contradiction|reflexivity].
  - intros o Hn Ho. rewrite (output_path_no_video w args metadata Hn).
    rewrite or_fallback_explicit, Ho. reflexivity.
  - intros Hn Ho. rewrite (output_path_no_video w args metadata Hn).
    rewrite or_fallback_explicit, Ho. reflexivity.
Qed.

Lemma c8_output_path_priority_witness :
  output_path studio_world (arguments_with_output (Some "out.xml")) studio_metadata
    = Ok "/rec/take1_markers.xml" /\
  output_path bare_world (arguments_with_output (Some "out.xml")) (JObj []) = Ok "out.xml" /\
  output_path bare_world (arguments_with_output None) (JObj []) = Ok "in_markers.xml".
Proof.
  split; [|split].
  - apply (proj1 (c8_output_path_priority studio_world
                    (arguments_with_output (Some "out.xml")) studio_metadata)
             "/rec" "/rec/take1.mp4").
    unfold video_resolved. split; [reflexivity|]. split; [reflexivity|].
    exists (JStr "2024-01-01 12:00:00").
    split; [reflexivity|]. split; [vm_compute; reflexivity|discriminate].
  - apply (proj1 (proj2 (c8_output_path_priority bare_world
                           (arguments_with_output (Some "out.xml")) (JObj []))) "out.xml").
    + left. reflexivity.
    + reflexivity.
  - apply (proj2 (proj2 (c8_output_path_priority bare_world
                           (arguments_with_output None) (JObj [])))).
    + left. reflexivity.
    + reflexivity.
Defined.

(** C8 as stated fails: with an output argument and no metadata the
    program writes to the output argument, not to the name derived
    from the input file, so that fallback does not have the highest
    priority. *)
Lemma c8_fallback_not_highest :
  output_path bare_world (arguments_with_output (Some "out.xml")) (JObj []) = Ok "out.xml" /\
  fallback_output (arguments_with_output (Some "out.xml")) = "in_markers.xml".
Proof.
  split; reflexivity.
Qed.

(** ** Frame rate from the metadata *)

(** C3 evaluated on the code: with [fps_num] 30000 and [fps_den] 1001
    in the metadata, whatever [--fps] says, the emitter is called with
    the float 30000/1001; that float is none of 23.976, 29.97 and
    59.94, and each of the four rate elements written has timebase 29
    and ntsc FALSE. *)
Theorem c3_metadata_rate_not_flagged_ntsc :
  forall cli_fps,
    emitter_call (main bare_world (default_arguments cli_fps) ntsc_metadata_file)
      = Some ([plain_marker 0], "in_markers.xml", NFloat fps_30000_1001) /\
    PyFloat.int_truediv 30000 1001 = Ok fps_30000_1001 /\
    is_ntsc (NFloat fps_30000_1001) = false /\
    option_map (fun o => rates (snd o))
      (output (main bare_world (default_arguments cli_fps) ntsc_metadata_file))
      = Some [ rate_element 29 false; rate_element 29 false;
               rate_element 29 false; rate_element 29 false ].
Proof.
  intros cli_fps. repeat split; vm_compute; reflexivity.
Qed.

(** ** Signs of floats *)

Lemma binary_round_aux_sign (s : bool) (m e : Z) (l : location) :
  match binary_round_aux PyFloat.prec PyFloat.emax s m e l with
  | S754_zero s' | S754_infinity s' | S754_finite s' _ _ => s' = s
  | S754_nan => True
  end.
Proof.
  unfold binary_round_aux.
  destruct (shr_fexp PyFloat.prec PyFloat.emax m e l) as [mrs' e'].
  destruct (shr_fexp PyFloat.prec PyFloat.emax _ e' loc_Exact) as [mrs'' e''].
  destruct (shr_m mrs''); try exact I; try reflexivity.
  destruct (e'' <=? PyFloat.emax - PyFloat.prec); reflexivity.
Qed.

Lemma binary_round_aux_sign_clear (m e : Z) (l : location) :
  sign_clear (binary_round_aux PyFloat.prec PyFloat.emax false m e l) = true.
Proof.
  pose proof (binary_round_aux_sign false m e l) as H.
  destruct (binary_round_aux PyFloat.prec PyFloat.emax false m e l); simpl; subst; reflexivity.
Qed.

Lemma of_Z_sign_clear (z : Z) : 0 <= z -> sign_clear (PyFloat.of_Z z) = true.
Proof.
  intros Hz. unfold PyFloat.of_Z, binary_normalize.
  destruct z as [|p|p]; try reflexivity; [|lia].
  unfold binary_round.
  destruct (shl_align p 0 _) as [mz ez]. apply binary_round_aux_sign_clear.
Qed.

Lemma of_int_sign_clear (z : Z) (f : spec_float) :
  0 <= z -> PyFloat.of_int z = Ok f -> sign_clear f = true.
Proof.
  intros Hz. unfold PyFloat.of_int. pose proof (of_Z_sign_clear z Hz) as H.
  destruct (PyFloat.of_Z z); intros E; inversion E; subst; assumption.
Qed.

Lemma mul_sign_clear (x y : spec_float) :
  sign_clear x = true -> sign_clear y = true -> sign_clear (PyFloat.mul x y) = true.
Proof.
  unfold PyFloat.mul, SFmul.
  destruct x as [sx|sx| |sx mx ex], y as [sy|sy| |sy my ey]; simpl; intros Hx Hy;
    try reflexivity;
    try (apply negb_true_iff in Hx; apply negb_true_iff in Hy; subst; reflexivity).
  apply negb_true_iff in Hx. apply negb_true_iff in Hy. subst. simpl.
  apply binary_round_aux_sign_clear.
Qed.

Lemma div_sign_clear (x y : spec_float) :
  sign_clear x = true -> sign_clear y = true ->
  sign_clear (SFdiv PyFloat.prec PyFloat.emax x y) = true.
Proof.
  unfold SFdiv.
  destruct x as [sx|sx| |sx mx ex], y as [sy|sy| |sy my ey]; simpl; intros Hx Hy;
    try reflexivity;
    try (apply negb_true_iff in Hx; apply negb_true_iff in Hy; subst; reflexivity).
  apply negb_true_iff in Hx. apply negb_true_iff in Hy. subst. simpl.
  destruct (SFdiv_core_binary _ _ _ _ _ _) as [[mz ez] lz].
  apply binary_round_aux_sign_clear.
Qed.

Lemma positive_rate_sign_clear (fps : num) (f : spec_float) :
  positive_rate fps -> as_float fps = Ok f -> sign_clear f = true.
Proof.
  destruct fps as [z|g]; simpl.
  - intros Hz. apply of_int_sign_clear. lia.
  - intros Hg E. inversion E; subst.
    destruct f as [s|[|]| |[|] m e]; simpl in *; try reflexivity; discriminate.
Qed.

Lemma not_negative_sign_clear (fps : num) (f : spec_float) :
  not_negative fps -> as_float fps = Ok f -> sign_clear f = true.
Proof.
  destruct fps as [z|g]; simpl.
  - apply of_int_sign_clear.
  - intros Hg E. inversion E; subst. assumption.
Qed.

Lemma frame_position_sign_clear (ms : Z) (fps : num) (p : spec_float) :
  0 <= ms -> not_negative fps -> frame_position ms fps = Ok p -> sign_clear p = true.
Proof.
  intros Hms Hfps. unfold frame_position.
  destruct (PyFloat.of_int ms) as [m|] eqn:Hm; simpl; [|discriminate].
  unfold PyFloat.truediv. simpl.
  destruct (as_float fps) as [f|] eqn:Hf; simpl; [|discriminate].
  intros E. inversion E; subst. apply mul_sign_clear.
  - apply div_sign_clear; [|reflexivity]. eapply of_int_sign_clear; eassumption.
  - eapply not_negative_sign_clear; eassumption.
Qed.

Lemma floor_finite (s : bool) (m : positive) (e : Z) :
  PyFloat.floor (S754_finite s m e) =
  Some (if 0 <=? e then (if s then Zneg m else Zpos m) * 2 ^ e
        else (if s then Zneg m else Zpos m) / 2 ^ (- e)).
Proof. reflexivity. Qed.

Lemma trunc_floor (m : positive) (e : Z) :
  PyFloat.trunc false m e = if 0 <=? e then Zpos m * 2 ^ e else Zpos m / 2 ^ (- e).
Proof.
  unfold PyFloat.trunc. destruct e as [|q|q].
  - change (0 <=? 0) with true. cbv iota. rewrite Z.pow_0_r, Z.mul_1_r. reflexivity.
  - change (0 <=? Z.pos q) with true. cbv iota.
    rewrite Z.shiftl_mul_pow2 by lia. reflexivity.
  - change (0 <=? Z.neg q) with false. cbv iota.
    rewrite Z.shiftr_div_pow2 by lia. reflexivity.
Qed.

(** On a float whose sign bit is clear, truncation is the floor. *)
Lemma to_int_floor (f : spec_float) (n : Z) :
  sign_clear f = true -> PyFloat.floor f = Some n -> PyFloat.to_int f = Ok n.
Proof.
  destruct f as [s|s| |s m e]; try discriminate.
  - intros _ E. inversion E. reflexivity.
  - intros Hs E. simpl in Hs. apply negb_true_iff in Hs. subst s.
    rewrite floor_finite, <- trunc_floor in E.
    unfold PyFloat.to_int. congruence.
Qed.

Lemma ms_to_frames_position (ms : Z) (fps : num) :
  ms_to_frames ms fps = (p <- frame_position ms fps ;; PyFloat.to_int p).
Proof.
  unfold ms_to_frames, frame_position.
  destruct (PyFloat.of_int ms); simpl; [|reflexivity].
  unfold PyFloat.truediv. simpl.
  destruct (as_float fps); reflexivity.
Qed.

(** ** Frame conversion *)

(** C1, as the code has it: for a non-negative offset and a positive
    rate, [ms_to_frames] returns the floor of the binary64 number
    that [(ms / 1000.0) * fps] evaluates to (each operation rounded to
    nearest), and raises when that number is infinite or NaN;
    ms_to_frames(1500, 60) = 90 and ms_to_frames(999, 30) = 29. *)
Theorem c1_frames_floor_of_float_product :
  (forall ms fps p,
     0 <= ms -> positive_rate fps ->
     frame_position ms fps = Ok p ->
     match PyFloat.floor p with
     | Some n => ms_to_frames ms fps = Ok n
     | None => exists e, ms_to_frames ms fps = Raise e
     end) /\
  ms_to_frames 1500 (NInt 60) = Ok 90 /\
  ms_to_frames 999 (NInt 30) = Ok 29 /\
  ms_to_frames 1500 (NFloat c60) = Ok 90 /\
  ms_to_frames 999 (NFloat c30) = Ok 29.
Proof.
  split; [|repeat split; vm_compute; reflexivity].
  intros ms fps p Hms Hfps Hp.
  rewrite ms_to_frames_position, Hp. simpl.
  assert (Hs : sign_clear p = true).
  { apply (frame_position_sign_clear ms fps p Hms); [|assumption].
    destruct fps as [z|f]; simpl in *; [lia|].
    destruct f as [s|[|]| |[|] m e]; simpl in *; try reflexivity; discriminate. }
  destruct (PyFloat.floor p) as [n|] eqn:Hfl.
  - apply to_int_floor; assumption.
  - destruct p; simpl in *; try discriminate; eauto.
Qed.

Lemma c1_frames_floor_of_float_product_witness :
  0 <= 2050 /\ positive_rate (NInt 60) /\ ms_to_frames 2050 (NInt 60) = Ok 122.
Proof.
  split; [lia|]. split; [simpl; lia|].
  change (match PyFloat.floor (S754_finite false 0x1ebfffffffffff (-46)) with
          | Some n => ms_to_frames 2050 (NInt 60) = Ok n
          | None => exists e, ms_to_frames 2050 (NInt 60) = Raise e
          end).
  apply (proj1 c1_frames_floor_of_float_product 2050 (NInt 60)
           (S754_finite false 0x1ebfffffffffff (-46))).
  - lia.
  - simpl. lia.
  - vm_compute. reflexivity.
Defined.

(** C1 as stated fails: at 60 frames per second the offset 2050 ms is
    converted to frame 122, while floor(2050/1000 * 60) = 123.  The
    quotient 2050/1000.0 is the float 0x1.0666666666666p+1, just
    under 2.05, and its product with 60 rounds to
    0x1.ebfffffffffffp+6, just under 123. *)
Lemma c1_frame_below_exact_floor :
  ms_to_frames 2050 (NInt 60) = Ok 122 /\
  ms_to_frames 2050 (NFloat c60) = Ok 122 /\
  frame_position 2050 (NInt 60) = Ok (S754_finite false 0x1ebfffffffffff (-46)) /\
  exact_frames 2050 (NInt 60) = Some 123 /\
  exact_frames 2050 (NFloat c60) = Some 123.
Proof.
  repeat split; vm_compute; reflexivity.
Qed.

(** ** The rate elements *)

Lemma SFeqb_finite (f : spec_float) (s : bool) (m : positive) (e : Z) :
  SFeqb f (S754_finite s m e) = true -> f = S754_finite s m e.
Proof.
  unfold SFeqb, SFcompare.
  destruct f as [s'|s'| |s' m' e']; try discriminate.
  - destruct s; discriminate.
  - destruct s'; discriminate.
  - destruct s', s; try discriminate;
      destruct (Z.compare_spec e' e); try discriminate; subst;
      destruct (Pos.compare_cont Eq m' m) eqn:Hc; try discriminate;
      apply Pos.compare_eq in Hc; subst; reflexivity.
Qed.

Lemma is_ntsc_listed (fps : num) : is_ntsc fps = true <-> listed_rate fps.
Proof.
  unfold listed_rate. split.
  - unfold is_ntsc. simpl existsb. rewrite !orb_true_iff.
    destruct fps as [z|f].
    + vm_compute. intuition discriminate.
    + unfold num_eqb, PyFloat.eqb. intros [H|[H|[H|H]]]; try discriminate;
        apply SFeqb_finite in H; subst; auto.
  - intros [H|[H|H]]; subst; reflexivity.
Qed.


















(** ** The document read back *)

Lemma end_of_lines_kept (s : string) : no_carriage_return s = true -> end_of_lines s = s.
Proof.
  induction s as [|c s IH]; [reflexivity|]. cbn [no_carriage_return end_of_lines].
  intros H. apply andb_prop in H. destruct H as [Hc Hs].
  apply negb_true_iff in Hc. rewrite Hc, (IH Hs). reflexivity.
Qed.

Lemma text_read_back_kept (s : string) : kept s = true -> text_read_back (JStr s) = JStr s.
Proof.
  unfold kept, text_read_back. intros H. apply andb_prop in H. destruct H as [He Hs].
  apply negb_true_iff in He. rewrite He, (end_of_lines_kept s Hs). reflexivity.
Qed.

Lemma no_carriage_return_of_uint (u : Decimal.uint) :
  no_carriage_return (NilEmpty.string_of_uint u) = true.
Proof.
  induction u; simpl; try reflexivity; exact IHu.
Qed.

Lemma kept_of_int (z : Z) : kept (PyStr.of_int z) = true.
Proof.
  unfold PyStr.of_int, NilZero.string_of_int, NilZero.string_of_uint, kept.
  destruct (Z.to_int z) as [u|u]; destruct u; try reflexivity;
    cbn [NilEmpty.string_of_uint String.eqb negb andb no_carriage_return];
    change (Ascii.eqb "-" carriage_return) with false; cbn [negb andb];
    apply no_carriage_return_of_uint.
Qed.

Lemma read_back_element (t : string) (a : list (string * string)) (x : json) (c : list xml) :
  read_back (Element t a x c) = Element t a (text_read_back x) (map read_back c).
Proof. reflexivity. Qed.

Lemma read_back_leaf (t s : string) : kept s = true -> read_back (leaf t s) = leaf t s.
Proof.
  intros H. unfold leaf. rewrite read_back_element, (text_read_back_kept s H). reflexivity.
Qed.

Lemma read_back_int (t : string) (z : Z) :
  read_back (leaf t (PyStr.of_int z)) = leaf t (PyStr.of_int z).
Proof.
  apply read_back_leaf, kept_of_int.
Qed.

Lemma read_back_node (t : string) (a : list (string * string)) (c : list xml) :
  read_back (Element t a JNull c) = Element t a JNull (map read_back c).
Proof. reflexivity. Qed.

Ltac read_step :=
  repeat first
    [ rewrite read_back_int
    | rewrite read_back_leaf by reflexivity
    | rewrite read_back_node
    | progress cbn [map] ].

Lemma read_back_rate (timebase : Z) (ntsc : bool) :
  read_back (rate_element timebase ntsc) = rate_element timebase ntsc.
Proof.
  unfold rate_element, node. destruct ntsc; read_step; reflexivity.
Qed.

Lemma read_back_matte : read_back color_matte_effect = color_matte_effect.
Proof.
  unfold color_matte_effect, node. read_step. reflexivity.
Qed.

Lemma read_back_opacity : read_back opacity_filter = opacity_filter.
Proof.
  unfold opacity_filter, node. read_step. reflexivity.
Qed.

Lemma read_back_audio : read_back audio_element = audio_element.
Proof.
  unfold audio_element, audio_track, node. read_step. reflexivity.
Qed.

Lemma read_back_timecode (timebase : Z) (ntsc : bool) :
  read_back (timecode_element timebase ntsc) = timecode_element timebase ntsc.
Proof.
  unfold timecode_element, node. rewrite read_back_node. cbn [map].
  rewrite read_back_rate. read_step. reflexivity.
Qed.

Lemma read_back_generator (duration timebase : Z) (ntsc : bool) (markers : list xml) :
  read_back (generator_item duration timebase ntsc markers)
  = generator_item duration timebase ntsc (map read_back markers).
Proof.
  unfold generator_item. rewrite read_back_node, map_app. cbn [map].
  rewrite read_back_rate, read_back_matte, read_back_opacity. read_step. reflexivity.
Qed.

Lemma read_back_video (duration timebase : Z) (ntsc : bool) (width height : Z)
    (markers : list xml) :
  read_back (video_element duration timebase ntsc width height markers)
  = video_element duration timebase ntsc width height (map read_back markers).
Proof.
  unfold video_element, node. rewrite read_back_node. cbn [map].
  rewrite (read_back_node "track"). cbn [map]. rewrite read_back_generator.
  rewrite (read_back_node "format"). cbn [map].
  rewrite (read_back_node "samplecharacteristics"). cbn [map].
  rewrite read_back_rate. read_step. reflexivity.
Qed.

Lemma read_back_sequence (duration timebase : Z) (ntsc : bool) (title : string)
    (width height : Z) (item_markers markers : list xml) :
  title <> "" ->
  read_back (sequence_element duration timebase ntsc title width height item_markers markers)
  = sequence_element duration timebase ntsc (end_of_lines title) width height
      (map read_back item_markers) (map read_back markers).
Proof.
  intros Ht. unfold sequence_element. rewrite read_back_node, map_app. cbn [map].
  rewrite read_back_rate, read_back_timecode.
  unfold node at 1. rewrite (read_back_node "media"). cbn [map].
  rewrite read_back_video, read_back_audio.
  assert (En : read_back (leaf "name" title) = leaf "name" (end_of_lines title)).
  { unfold leaf. rewrite read_back_element. unfold text_read_back.
    destruct (String.eqb_spec title ""); [contradiction|reflexivity]. }
  rewrite En. read_step. reflexivity.
Qed.

Lemma read_back_document (duration timebase : Z) (ntsc : bool) (title : string)
    (width height : Z) (item_markers markers : list xml) :
  title <> "" ->
  read_back (Element "xmeml" [("version", "4")] JNull
               [ sequence_element duration timebase ntsc title width height
                   item_markers markers ])
  = Element "xmeml" [("version", "4")] JNull
      [ sequence_element duration timebase ntsc (end_of_lines title) width height
          (map read_back item_markers) (map read_back markers) ].
Proof.
  intros Ht. rewrite read_back_node. cbn [map]. rewrite (read_back_sequence _ _ _ _ _ _ _ _ Ht).
  reflexivity.
Qed.

Lemma default_sequence_name_not_empty (w : world) : default_sequence_name w <> "".
Proof.
  unfold default_sequence_name. cbn [String.append]. discriminate.
Qed.

(** The marker element of a marker, once read back. *)
Lemma read_back_marker (fps : num) (t : marker) (x : xml) :
  marker_element fps t = Ok x ->
  exists frame code,
    ms_to_frames (timestamp_ms t) fps = Ok frame /\
    get_color_code (color t) = Ok code /\
    read_back x
    = node "marker"
        [ Element "comment" [] (text_read_back (comment t)) [];
          Element "name" [] (text_read_back (name t)) [];
          leaf "in" (PyStr.of_int frame);
          leaf "out" "-1";
          Element "pproColor" [] (text_read_back (JStr code)) [] ].
Proof.
  unfold marker_element.
  destruct (ms_to_frames (timestamp_ms t) fps) as [frame|]; cbn [bind]; [|discriminate].
  destruct (get_color_code (color t)) as [code|]; cbn [bind]; [|discriminate].
  intros E. inversion E. exists frame, code. split; [reflexivity|]. split; [reflexivity|].
  unfold node. rewrite read_back_node. cbn [map]. rewrite !read_back_element. cbn [map].
  rewrite read_back_int, (read_back_leaf "out") by reflexivity. reflexivity.
Qed.



(** What a written document is made of: the tree that was built,
    read back. *)
Lemma written_document (w : world) (timestamps : list marker) (path : string) (fps : num)
    (sequence_name : option string) (width height : Z) (r : emitted) (p : string) (root : xml) :
  create_premiere_xml w timestamps path fps sequence_name width height = Ok r ->
  written r = Some (p, root) ->
  exists first others timebase duration title markers,
    timestamps = first :: others /\
    timebase_of fps = Ok timebase /\
    ms_to_frames (max_of (timestamp_ms first) (map timestamp_ms others) + 60000) fps
      = Ok duration /\
    map_result (marker_element fps) timestamps = Ok markers /\
    root = Element "xmeml" [("version", "4")] JNull
             [ sequence_element duration timebase (is_ntsc fps) title width height
                 (map read_back markers) (map read_back markers) ].
Proof.
  unfold create_premiere_xml. destruct timestamps as [|first others].
  - intros E. inversion E; subst. discriminate.
  - unfold build_tree.
    destruct (timebase_of fps) as [tb|] eqn:Htb; cbn [bind]; [|discriminate].
    destruct (ms_to_frames _ fps) as [d|] eqn:Hd; cbn [bind]; [|discriminate].
    destruct (map_result (marker_element fps) (first :: others)) as [ms|] eqn:Hms;
      cbn [bind]; [|discriminate].
    unfold serialize.
    destruct (negb (forallb text_ok _)); cbn [bind]; [discriminate|].
    destruct (negb (forallb text_chars_ok _)); cbn [bind]; [discriminate|].
    destruct (can_write w path); intros E; inversion E; subst; cbn [written]; intros W;
      [|discriminate].
    inversion W; subst.
    exists first, others, tb, d.
    eexists. exists ms. repeat split; try reflexivity; try assumption.
    apply read_back_document.
    destruct sequence_name as [n|]; [|apply default_sequence_name_not_empty].
    destruct (String.eqb_spec n ""); [apply default_sequence_name_not_empty|assumption].
Qed.





(** ** The order of modification times *)

Ltac compare_cases :=
  repeat match goal with
         | H : context [Z.compare ?a ?b] |- _ =>
           destruct (Z.compare_spec a b); simpl in H; try discriminate H
         | H : context [Pos.compare ?a ?b] |- _ =>
           destruct (Pos.compare_spec a b); simpl in H; try discriminate H
         | |- context [Z.compare ?a ?b] =>
           destruct (Z.compare_spec a b); simpl
         | |- context [Pos.compare ?a ?b] =>
           destruct (Pos.compare_spec a b); simpl
         end;
  subst; try reflexivity; try discriminate; try lia.

(** The comparison of floats, with the comparison of mantissas written
    with [Pos.compare]. *)
Lemma ltb_unfold (x y : spec_float) :
  PyFloat.ltb x y =
  match x, y with
  | S754_nan, _ | _, S754_nan => false
  | S754_infinity s1, S754_infinity s2 => andb s1 (negb s2)
  | S754_infinity s, _ => s
  | _, S754_infinity s => negb s
  | S754_finite s _ _, S754_zero _ => s
  | S754_zero _, S754_finite s _ _ => negb s
  | S754_zero _, S754_zero _ => false
  | S754_finite s1 m1 e1, S754_finite s2 m2 e2 =>
    match s1, s2 with
    | true, false => true
    | false, true => false
    | false, false =>
      match Z.compare e1 e2 with
      | Lt => true
      | Gt => false
      | Eq => match Pos.compare m1 m2 with Lt => true | _ => false end
      end
    | true, true =>
      match Z.compare e1 e2 with
      | Lt => false
      | Gt => true
      | Eq => match Pos.compare m1 m2 with Gt => true | _ => false end
      end
    end
  end.
Proof.
  unfold PyFloat.ltb, SFltb, SFcompare.
  destruct x as [sx|[|]| |[|] mx ex], y as [sy|[|]| |[|] my ey]; try reflexivity;
    repeat match goal with s : bool |- _ => destruct s end; try reflexivity;
    destruct (Z.compare ex ey); try reflexivity;
    unfold Pos.compare; destruct (Pos.compare_cont Eq mx my); reflexivity.
Qed.

Lemma ltb_irrefl (x : spec_float) : PyFloat.ltb x x = false.
Proof.
  rewrite ltb_unfold.
  destruct x as [s|[|]| |[|] m e]; try reflexivity; compare_cases.
Qed.

Lemma ltb_asym (x y : spec_float) :
  PyFloat.ltb x y = true -> PyFloat.ltb y x = false.
Proof.
  rewrite !ltb_unfold.
  destruct x as [sx|[|]| |[|] mx ex], y as [sy|[|]| |[|] my ey];
    simpl; intros H; try reflexivity; try discriminate H; compare_cases.
Qed.

(** On numbers, "not below" is transitive. *)
Lemma not_ltb_trans (x y z : spec_float) :
  PyFloat.is_nan y = false ->
  PyFloat.ltb x y = false -> PyFloat.ltb y z = false -> PyFloat.ltb x z = false.
Proof.
  rewrite !ltb_unfold.
  destruct x as [sx|[|]| |[|] mx ex], y as [sy|[|]| |[|] my ey], z as [sz|[|]| |[|] mz ez];
    simpl; intros Hn H1 H2; try reflexivity; try discriminate; compare_cases.
Qed.

(** ** The sort of the resolver *)

Lemma insert_desc_in (x z : string * spec_float) (l : list (string * spec_float)) :
  In z (insert_desc x l) <-> z = x \/ In z l.
Proof.
  induction l as [|y l IH]; simpl.
  - intuition auto.
  - destruct (PyFloat.ltb (snd x) (snd y)); simpl; rewrite ?IH; intuition auto.
Qed.

Lemma sort_desc_in (z : string * spec_float) (l : list (string * spec_float)) :
  In z (sort_desc l) <-> In z l.
Proof.
  induction l as [|x l IH]; simpl.
  - reflexivity.
  - rewrite insert_desc_in, IH. intuition auto.
Qed.

Lemma insert_desc_descending (x : string * spec_float) (l : list (string * spec_float)) :
  times_are_numbers l -> descending l -> descending (insert_desc x l).
Proof.
  unfold descending. induction l as [|y l IH]; simpl; intros Hn Hs.
  - repeat constructor.
  - inversion Hs as [|y' l' Hl Hy]; subst. inversion Hn as [|y' l' Hny Hnl]; subst.
    destruct (PyFloat.ltb (snd x) (snd y)) eqn:Hxy.
    + constructor; [apply IH; assumption|].
      rewrite Forall_forall in *. intros z Hz. apply insert_desc_in in Hz.
      destruct Hz as [->|Hz]; [|auto].
      apply ltb_asym. assumption.
    + constructor; [assumption|]. constructor; [assumption|].
      rewrite Forall_forall in *. intros z Hz.
      unfold not_older in *. eapply not_ltb_trans; [exact Hny|exact Hxy|auto].
Qed.

Lemma sort_desc_numbers (l : list (string * spec_float)) :
  times_are_numbers l -> times_are_numbers (sort_desc l).
Proof.
  unfold times_are_numbers. rewrite !Forall_forall. intros H z Hz.
  apply H. apply sort_desc_in. assumption.
Qed.

Lemma sort_desc_descending (l : list (string * spec_float)) :
  times_are_numbers l -> descending (sort_desc l).
Proof.
  induction l as [|x l IH]; simpl; intros Hn.
  - constructor.
  - inversion Hn; subst. apply insert_desc_descending.
    + apply sort_desc_numbers. assumption.
    + apply IH. assumption.
Qed.

Lemma descending_head (x : string * spec_float) (l : list (string * spec_float)) :
  descending (x :: l) -> forall y, In y (x :: l) -> not_older x y.
Proof.
  intros Hs y [<-|Hy].
  - apply ltb_irrefl.
  - inversion Hs as [|x' l' _ Hx]; subst. rewrite Forall_forall in Hx. auto.
Qed.



Lemma sort_desc_nonempty (l : list (string * spec_float)) :
  l <> [] -> exists h t, sort_desc l = h :: t.
Proof.
  destruct l as [|x l]; [congruence|]. intros _. simpl.
  destruct (sort_desc l) as [|y s]; simpl; [eauto|].
  destruct (PyFloat.ltb (snd x) (snd y)); eauto.
Qed.






(** ** Rounding is monotone

    The frame of a marker cannot exceed the frame of a later offset:
    each operation of [ms_to_frames] rounds to nearest, and rounding
    to nearest keeps the order.  This is proved on the definitions of
    [SpecFloat], through the codes defined above. *)

Lemma pow2_pos (n : Z) : 0 <= n -> 0 < 2 ^ n.
Proof. intros H. apply Z.pow_pos_nonneg; lia. Qed.

Lemma pow2_succ (n : Z) : 0 <= n -> 2 ^ (n + 1) = 2 * 2 ^ n.
Proof. intros H. rewrite Z.pow_add_r by lia. change (2 ^ 1) with 2. lia. Qed.

Ltac eqb_cases :=
  repeat match goal with
         | |- context [Z.eqb ?x ?y] => destruct (Z.eqb_spec x y)
         end;
  try reflexivity; try lia; try nia.

Lemma coarsen_0 (c : Z) : coarsen 0 c = c.
Proof.
  unfold coarsen. change (2 ^ (0 + 1)) with 2.
  pose proof (Z.div_mod c 2 ltac:(lia)) as H.
  pose proof (Z.mod_pos_bound c 2 ltac:(lia)) as Hb.
  destruct (Z.eqb_spec (c mod 2) 0); lia.
Qed.

Lemma coarsen_div2 (n c : Z) : 0 <= n -> coarsen n c / 2 = c / 2 ^ (n + 1).
Proof.
  intros Hn. unfold coarsen.
  destruct (c mod 2 ^ (n + 1) =? 0).
  - rewrite Z.add_0_r, Z.mul_comm, Z.div_mul by lia. reflexivity.
  - rewrite Z.mul_comm, Z.div_add_l by lia. change (1 / 2) with 0. lia.
Qed.

Lemma coarsen_mod2 (n c : Z) :
  0 <= n -> coarsen n c mod 2 = if c mod 2 ^ (n + 1) =? 0 then 0 else 1.
Proof.
  intros Hn. unfold coarsen.
  destruct (c mod 2 ^ (n + 1) =? 0).
  - rewrite Z.add_0_r, Z.mul_comm, Z.mod_mul by lia. reflexivity.
  - rewrite Z.add_comm, Z.mul_comm, Z.mod_add by lia. reflexivity.
Qed.

Lemma coarsen_coarsen (a b c : Z) :
  0 <= a -> 0 <= b -> coarsen a (coarsen b c) = coarsen (a + b) c.
Proof.
  intros Ha Hb.
  assert (HA : 0 < 2 ^ a) by (apply pow2_pos; lia).
  assert (HB : 0 < 2 ^ (b + 1)) by (apply pow2_pos; lia).
  unfold coarsen at 1.
  rewrite (pow2_succ a) by lia.
  rewrite <- Z.div_div by lia. rewrite coarsen_div2 by lia.
  rewrite Z.rem_mul_r by lia. rewrite coarsen_div2, coarsen_mod2 by lia.
  unfold coarsen.
  replace (2 ^ (a + b + 1)) with (2 ^ (b + 1) * 2 ^ a)
    by (rewrite <- Z.pow_add_r by lia; f_equal; lia).
  rewrite <- Z.div_div by lia. rewrite Z.rem_mul_r by lia.
  pose proof (Z.mod_pos_bound c (2 ^ (b + 1)) HB) as H1.
  pose proof (Z.mod_pos_bound (c / 2 ^ (b + 1)) (2 ^ a) HA) as H2.
  f_equal. destruct (Z.eqb_spec (c mod 2 ^ (b + 1)) 0); eqb_cases.
Qed.

Lemma coarsen_mono (n c c' : Z) :
  0 <= n -> c <= c' -> coarsen n c <= coarsen n c'.
Proof.
  intros Hn Hc. unfold coarsen.
  assert (HP : 0 < 2 ^ (n + 1)) by (apply pow2_pos; lia).
  set (P := 2 ^ (n + 1)) in *.
  pose proof (Z.div_le_mono c c' P HP Hc) as Hq.
  pose proof (Z.div_mod c P ltac:(lia)) as E1.
  pose proof (Z.div_mod c' P ltac:(lia)) as E2.
  pose proof (Z.mod_pos_bound c P HP) as B1.
  pose proof (Z.mod_pos_bound c' P HP) as B2.
  destruct (Z.eq_dec (c / P) (c' / P)) as [E|E].
  - rewrite E in *.
    destruct (Z.eqb_spec (c mod P) 0), (Z.eqb_spec (c' mod P) 0); lia.
  - destruct (Z.eqb_spec (c mod P) 0), (Z.eqb_spec (c' mod P) 0); lia.
Qed.

Lemma coarsen_nonneg (n c : Z) : 0 <= n -> 0 <= c -> 0 <= coarsen n c.
Proof.
  intros Hn Hc. unfold coarsen.
  assert (HP : 0 < 2 ^ (n + 1)) by (apply pow2_pos; lia).
  pose proof (Z.div_pos c (2 ^ (n + 1)) Hc HP).
  destruct (c mod 2 ^ (n + 1) =? 0); lia.
Qed.

Lemma coarsen_div4 (n c : Z) : 0 <= n -> coarsen n c / 4 = c / 4 / 2 ^ n.
Proof.
  intros Hn.
  assert (HA : 0 < 2 ^ n) by (apply pow2_pos; lia).
  change 4 with (2 * 2) at 1. rewrite <- Z.div_div by lia.
  rewrite coarsen_div2 by lia.
  rewrite !Z.div_div by lia. f_equal.
  rewrite pow2_succ by lia. lia.
Qed.

(** A quotient seen at a coarser unit. *)
Lemma coarsen_qcode (j N D : Z) :
  0 <= j -> 0 < D -> coarsen j (qcode N D) = qcode N (D * 2 ^ j).
Proof.
  intros Hj HD.
  assert (HA : 0 < 2 ^ j) by (apply pow2_pos; lia).
  unfold coarsen.
  rewrite (pow2_succ j) by lia.
  rewrite <- Z.div_div by lia. rewrite Z.rem_mul_r by lia.
  unfold qcode at 1 2 3.
  assert (Hd2 : forall q i, 0 <= i < 2 -> (2 * q + i) / 2 = q /\ (2 * q + i) mod 2 = i).
  { intros q i Hi. pose proof (Z.div_mod (2 * q + i) 2 ltac:(lia)).
    pose proof (Z.mod_pos_bound (2 * q + i) 2 ltac:(lia)). lia. }
  assert (Hi : 0 <= (if (2 * N) mod D =? 0 then 0 else 1) < 2)
    by (destruct ((2 * N) mod D =? 0); lia).
  destruct (Hd2 (2 * N / D) _ Hi) as [E1 E2]. rewrite E1, E2.
  unfold qcode. rewrite <- Z.div_div by lia. rewrite Z.rem_mul_r by lia.
  pose proof (Z.mod_pos_bound (2 * N) D HD) as H1.
  pose proof (Z.mod_pos_bound (2 * N / D) (2 ^ j) HA) as H2.
  f_equal. destruct (Z.eqb_spec ((2 * N) mod D) 0); eqb_cases.
Qed.

Lemma qcode_scale (N D k : Z) : 0 < D -> 0 < k -> qcode (N * k) (D * k) = qcode N D.
Proof.
  intros HD Hk. unfold qcode.
  replace (2 * (N * k)) with (2 * N * k) by lia.
  rewrite Z.div_mul_cancel_r by lia.
  rewrite Z.mul_mod_distr_r by lia.
  destruct (Z.eqb_spec ((2 * N) mod D) 0) as [E|E].
  - rewrite E. reflexivity.
  - pose proof (Z.mod_pos_bound (2 * N) D HD).
    destruct (Z.eqb_spec ((2 * N) mod D * k) 0); [nia|reflexivity].
Qed.

Lemma qcode_mono (N N' D : Z) : 0 < D -> N <= N' -> qcode N D <= qcode N' D.
Proof.
  intros HD HN. unfold qcode.
  assert (H2 : 2 * N <= 2 * N') by lia.
  pose proof (Z.div_le_mono _ _ D HD H2) as Hq.
  pose proof (Z.div_mod (2 * N) D ltac:(lia)) as E1.
  pose proof (Z.div_mod (2 * N') D ltac:(lia)) as E2.
  pose proof (Z.mod_pos_bound (2 * N) D HD) as B1.
  pose proof (Z.mod_pos_bound (2 * N') D HD) as B2.
  destruct (Z.eq_dec (2 * N / D) (2 * N' / D)) as [E|E].
  - rewrite E in *.
    destruct (Z.eqb_spec ((2 * N) mod D) 0), (Z.eqb_spec ((2 * N') mod D) 0); lia.
  - destruct (Z.eqb_spec ((2 * N) mod D) 0), (Z.eqb_spec ((2 * N') mod D) 0); lia.
Qed.

Lemma qcode_nonneg (N D : Z) : 0 < D -> 0 <= N -> 0 <= qcode N D.
Proof.
  intros HD HN. unfold qcode.
  assert (0 <= 2 * N / D) by (apply Z.div_pos; lia).
  destruct ((2 * N) mod D =? 0); lia.
Qed.

Lemma qcode_1 (N : Z) : qcode N 1 = 4 * N.
Proof.
  unfold qcode. rewrite Z.div_1_r, Z.mod_1_r. change (0 =? 0) with true. cbv iota. lia.
Qed.

Lemma qcode_div4 (N D : Z) : 0 < D -> qcode N D / 4 = N / D.
Proof.
  intros HD. unfold qcode.
  change 4 with (2 * 2). rewrite <- Z.div_div by lia.
  assert (E : (2 * (2 * N / D) + (if (2 * N) mod D =? 0 then 0 else 1)) / 2 = 2 * N / D).
  { destruct ((2 * N) mod D =? 0).
    - rewrite Z.add_0_r, Z.mul_comm, Z.div_mul by lia. reflexivity.
    - rewrite Z.mul_comm, Z.div_add_l by lia. change (1 / 2) with 0. lia. }
  rewrite E. rewrite Z.div_div by lia.
  rewrite (Z.mul_comm D 2). rewrite Z.div_mul_cancel_l by lia. reflexivity.
Qed.

Lemma round_code_mono (c c' : Z) : c <= c' -> round_code c <= round_code c'.
Proof.
  intros Hc. unfold round_code.
  pose proof (Z.div_mod c 4 ltac:(lia)) as E1.
  pose proof (Z.div_mod c' 4 ltac:(lia)) as E2.
  pose proof (Z.mod_pos_bound c 4 ltac:(lia)) as B1.
  pose proof (Z.mod_pos_bound c' 4 ltac:(lia)) as B2.
  destruct (Z.eq_dec (c / 4) (c' / 4)) as [E|E].
  - rewrite E in *.
    destruct (Z.leb_spec (c mod 4) 1), (Z.leb_spec (c' mod 4) 1),
      (Z.eqb_spec (c mod 4) 3), (Z.eqb_spec (c' mod 4) 3),
      (Z.even (c' / 4)); lia.
  - destruct (Z.leb_spec (c mod 4) 1), (Z.leb_spec (c' mod 4) 1),
      (Z.eqb_spec (c mod 4) 3), (Z.eqb_spec (c' mod 4) 3),
      (Z.even (c / 4)), (Z.even (c' / 4)); lia.
Qed.

Lemma round_code_bounds (c : Z) : c / 4 <= round_code c <= c / 4 + 1.
Proof.
  unfold round_code.
  destruct (c mod 4 <=? 1), (c mod 4 =? 3), (Z.even (c / 4)); lia.
Qed.

Lemma round_code_exact (m : Z) : round_code (4 * m) = m.
Proof.
  unfold round_code.
  rewrite (Z.mul_comm 4 m), Z.div_mul, Z.mod_mul by lia. reflexivity.
Qed.

(** *** The shifts of [SpecFloat] on codes *)

Lemma record_code_div4 (r : shr_record) : record_code r / 4 = shr_m r.
Proof.
  unfold record_code. destruct (shr_r r), (shr_s r); Z.div_mod_to_equations; lia.
Qed.

Lemma shr_1_code (r : shr_record) :
  0 <= shr_m r ->
  record_code (shr_1 r) = coarsen 1 (record_code r) /\ 0 <= shr_m (shr_1 r).
Proof.
  destruct r as [m rb sb]. cbn [shr_m]. intros Hm.
  unfold coarsen. change (2 ^ (1 + 1)) with 4.
  destruct m as [|[p|p|]|p]; try lia;
    unfold shr_1, record_code; cbn [shr_m shr_r shr_s];
    try (pose proof (Pos2Z.inj_xI p)); try (pose proof (Pos2Z.inj_xO p));
    destruct rb, sb; cbn [orb];
    match goal with
    | |- context [Z.eqb ?x ?y] => destruct (Z.eqb_spec x y)
    end; Z.div_mod_to_equations; lia.
Qed.

Lemma iter_pos_code (n : positive) :
  forall r, 0 <= shr_m r ->
            record_code (iter_pos shr_1 n r) = coarsen (Zpos n) (record_code r) /\
            0 <= shr_m (iter_pos shr_1 n r).
Proof.
  induction n as [n IH|n IH|]; intros r Hr; cbn [iter_pos].
  - destruct (shr_1_code r Hr) as [E1 H1].
    destruct (IH _ H1) as [E2 H2]. destruct (IH _ H2) as [E3 H3].
    split; [|assumption].
    rewrite E3, E2, E1, !coarsen_coarsen by lia. f_equal. lia.
  - destruct (IH _ Hr) as [E2 H2]. destruct (IH _ H2) as [E3 H3].
    split; [|assumption].
    rewrite E3, E2, !coarsen_coarsen by lia. f_equal. lia.
  - apply shr_1_code. assumption.
Qed.

Lemma shr_code (r : shr_record) (e n : Z) :
  0 <= shr_m r ->
  record_code (fst (shr r e n)) = coarsen (Z.max 0 n) (record_code r) /\
  snd (shr r e n) = e + Z.max 0 n /\
  0 <= shr_m (fst (shr r e n)).
Proof.
  intros Hr. unfold shr. destruct n as [|p|p]; cbn [fst snd].
  - change (Z.max 0 0) with 0. rewrite coarsen_0. split; [reflexivity|]. split; [lia|assumption].
  - replace (Z.max 0 (Z.pos p)) with (Z.pos p) by lia.
    destruct (iter_pos_code p r Hr). auto.
  - replace (Z.max 0 (Z.neg p)) with 0 by lia.
    rewrite coarsen_0. split; [reflexivity|]. split; [lia|assumption].
Qed.

Lemma record_of_loc_code (m : Z) (l : location) :
  record_code (shr_record_of_loc m l) = 4 * m + loc_code l /\
  shr_m (shr_record_of_loc m l) = m.
Proof.
  destruct l as [|[| |]]; unfold record_code; cbn; split; lia.
Qed.

Lemma round_nearest_even_code (r : shr_record) :
  round_nearest_even (shr_m r) (loc_of_shr_record r) = round_code (record_code r).
Proof.
  destruct r as [m rb sb]. unfold round_code, record_code. cbn [shr_m shr_r shr_s].
  assert (E : forall k, 0 <= k < 4 -> (4 * m + k) / 4 = m /\ (4 * m + k) mod 4 = k)
    by (intros; Z.div_mod_to_equations; lia).
  destruct rb, sb; cbn [loc_of_shr_record round_nearest_even].
  - destruct (E 3 ltac:(lia)) as [E1 E2].
    replace (4 * m + 2 + 1) with (4 * m + 3) by lia. rewrite E1, E2. reflexivity.
  - destruct (E 2 ltac:(lia)) as [E1 E2].
    replace (4 * m + 2 + 0) with (4 * m + 2) by lia. rewrite E1, E2. reflexivity.
  - destruct (E 1 ltac:(lia)) as [E1 E2].
    replace (4 * m + 0 + 1) with (4 * m + 1) by lia. rewrite E1, E2. reflexivity.
  - destruct (E 0 ltac:(lia)) as [E1 E2].
    replace (4 * m + 0 + 0) with (4 * m + 0) by lia. rewrite E1, E2. reflexivity.
Qed.

Lemma round_code_nonneg (c : Z) : 0 <= c -> 0 <= round_code c.
Proof.
  intros Hc. pose proof (round_code_bounds c).
  assert (0 <= c / 4) by (apply Z.div_pos; lia). lia.
Qed.

(** [binary_round_aux], for the positive sign, is [round_at]. *)
Lemma binary_round_aux_code (m e : Z) (l : location) :
  0 <= m ->
  binary_round_aux PyFloat.prec PyFloat.emax false m e l = round_at (4 * m + loc_code l) e.
Proof.
  intros Hm. unfold binary_round_aux, round_at, shr_fexp.
  assert (Ec : (4 * m + loc_code l) / 4 = m)
    by (destruct l as [|[| |]]; cbn [loc_code]; Z.div_mod_to_equations; lia).
  rewrite Ec.
  destruct (record_of_loc_code m l) as [C0 M0].
  assert (H0 : 0 <= shr_m (shr_record_of_loc m l)) by lia.
  set (n := fexp PyFloat.prec PyFloat.emax (Zdigits2 m + e) - e).
  destruct (shr_code (shr_record_of_loc m l) e n H0) as [C1 [E1 M1]].
  destruct (shr (shr_record_of_loc m l) e n) as [mrs' e']. cbn [fst snd] in *.
  rewrite round_nearest_even_code, C1, C0. subst e'.
  set (m1 := round_code (coarsen (Z.max 0 n) (4 * m + loc_code l))).
  assert (Hm1 : 0 <= m1).
  { apply round_code_nonneg, coarsen_nonneg; [lia|].
    destruct l as [|[| |]]; cbn [loc_code]; lia. }
  destruct (record_of_loc_code m1 loc_Exact) as [C2 M2]. cbn [loc_code] in C2.
  assert (H2 : 0 <= shr_m (shr_record_of_loc m1 loc_Exact)) by lia.
  set (n2 := fexp PyFloat.prec PyFloat.emax (Zdigits2 m1 + (e + Z.max 0 n)) - (e + Z.max 0 n)).
  destruct (shr_code (shr_record_of_loc m1 loc_Exact) (e + Z.max 0 n) n2 H2) as [C3 [E3 M3]].
  destruct (shr (shr_record_of_loc m1 loc_Exact) (e + Z.max 0 n) n2) as [mrs'' e''].
  cbn [fst snd] in *. subst e''.
  rewrite <- (record_code_div4 mrs''), C3, C2, Z.add_0_r.
  reflexivity.
Qed.

(** *** The number of binary digits *)

Lemma digits2_pos_bounds (p : positive) :
  2 ^ (Zpos (digits2_pos p) - 1) <= Zpos p < 2 ^ Zpos (digits2_pos p).
Proof.
  induction p as [p IH|p IH|]; cbn [digits2_pos].
  - rewrite Pos2Z.inj_succ. set (d := Z.pos (digits2_pos p)) in *.
    assert (Hd : 0 < d) by (unfold d; lia).
    assert (E1 : 2 ^ Z.succ d = 2 * 2 ^ d) by (rewrite Z.pow_succ_r; lia).
    assert (E2 : 2 ^ (Z.succ d - 1) = 2 ^ d) by (f_equal; lia).
    assert (E3 : 2 ^ d = 2 * 2 ^ (d - 1)) by (rewrite <- pow2_succ by lia; f_equal; lia).
    rewrite E1, E2. lia.
  - rewrite Pos2Z.inj_succ. set (d := Z.pos (digits2_pos p)) in *.
    assert (Hd : 0 < d) by (unfold d; lia).
    assert (E1 : 2 ^ Z.succ d = 2 * 2 ^ d) by (rewrite Z.pow_succ_r; lia).
    assert (E2 : 2 ^ (Z.succ d - 1) = 2 ^ d) by (f_equal; lia).
    assert (E3 : 2 ^ d = 2 * 2 ^ (d - 1)) by (rewrite <- pow2_succ by lia; f_equal; lia).
    rewrite E1, E2. lia.
  - change (2 ^ (1 - 1)) with 1. change (2 ^ 1) with 2. lia.
Qed.

Lemma digits_nonneg (m : Z) : 0 <= Zdigits2 m.
Proof. destruct m; simpl; lia. Qed.

Lemma digits_bounds (m : Z) : 0 < m -> 2 ^ (Zdigits2 m - 1) <= m < 2 ^ Zdigits2 m.
Proof.
  destruct m as [|p|p]; try lia. intros _. apply digits2_pos_bounds.
Qed.

Lemma digits_pos (m : Z) : 0 < m -> 0 < Zdigits2 m.
Proof. destruct m; simpl; lia. Qed.

Lemma digits_upper (m : Z) : 0 <= m -> m < 2 ^ Zdigits2 m.
Proof.
  intros H. destruct (Z.eq_dec m 0) as [->|]; [reflexivity|].
  apply digits_bounds. lia.
Qed.

Lemma pow2_lt_le (a b : Z) : 0 <= a -> 0 <= b -> 2 ^ a < 2 ^ (b + 1) -> a <= b.
Proof.
  intros Ha Hb H. destruct (Z_le_gt_dec a b) as [|G]; [assumption|].
  assert (2 ^ (b + 1) <= 2 ^ a) by (apply Z.pow_le_mono_r; lia). lia.
Qed.

Lemma digits_unique (m d : Z) : 0 < m -> 2 ^ (d - 1) <= m < 2 ^ d -> Zdigits2 m = d.
Proof.
  intros Hm [H1 H2]. pose proof (digits_bounds m Hm) as [B1 B2].
  pose proof (digits_pos m Hm) as Hp.
  assert (Hd : 0 < d).
  { destruct (Z_lt_le_dec 0 d) as [|G]; [assumption|].
    destruct (Z.eq_dec d 0) as [->|]; [change (2 ^ 0) with 1 in H2; lia|].
    rewrite (Z.pow_neg_r 2 d) in H2 by lia. lia. }
  assert (Zdigits2 m - 1 <= d - 1).
  { apply pow2_lt_le; try lia. replace (d - 1 + 1) with d by lia. lia. }
  assert (d - 1 <= Zdigits2 m - 1).
  { apply pow2_lt_le; try lia. replace (Zdigits2 m - 1 + 1) with (Zdigits2 m) by lia. lia. }
  lia.
Qed.

Lemma digits_le (m d : Z) : 0 <= m -> 0 <= d -> m < 2 ^ d -> Zdigits2 m <= d.
Proof.
  intros Hm Hd H. destruct (Z.eq_dec m 0) as [->|]; [simpl; lia|].
  pose proof (digits_bounds m ltac:(lia)) as [B1 B2].
  pose proof (digits_pos m ltac:(lia)).
  assert (Zdigits2 m - 1 <= d - 1); [|lia].
  destruct (Z.eq_dec d 0) as [->|]; [change (2 ^ 0) with 1 in H; lia|].
  apply pow2_lt_le; try lia. replace (d - 1 + 1) with d by lia. lia.
Qed.

Lemma digits_ge (m d : Z) : 0 <= d -> 2 ^ d <= m -> d + 1 <= Zdigits2 m.
Proof.
  intros Hd H. assert (Hm : 0 < m) by (pose proof (pow2_pos d Hd); lia).
  pose proof (digits_bounds m Hm) as [B1 B2]. pose proof (digits_pos m Hm).
  assert (d <= Zdigits2 m - 1); [|lia].
  apply pow2_lt_le; try lia.
  replace (Zdigits2 m - 1 + 1) with (Zdigits2 m) by lia. lia.
Qed.

Lemma digits_mono (m m' : Z) : 0 <= m <= m' -> Zdigits2 m <= Zdigits2 m'.
Proof.
  intros [H1 H2]. apply digits_le; [assumption|apply digits_nonneg|].
  pose proof (digits_upper m' ltac:(lia)). lia.
Qed.

Lemma digits_mul_pow2 (m n : Z) : 0 < m -> 0 <= n -> Zdigits2 (m * 2 ^ n) = Zdigits2 m + n.
Proof.
  intros Hm Hn. pose proof (digits_bounds m Hm) as [B1 B2].
  pose proof (digits_pos m Hm). pose proof (pow2_pos n Hn).
  apply digits_unique; [nia|].
  replace (Zdigits2 m + n - 1) with (Zdigits2 m - 1 + n) by lia.
  rewrite !Z.pow_add_r by lia. nia.
Qed.

Lemma digits_div_pow2 (m n : Z) :
  0 <= n -> 2 ^ n <= m -> Zdigits2 (m / 2 ^ n) = Zdigits2 m - n.
Proof.
  intros Hn H. pose proof (pow2_pos n Hn) as Hp.
  assert (Hm : 0 < m) by lia.
  pose proof (digits_bounds m Hm) as [B1 B2].
  pose proof (digits_ge m n Hn H) as Hd.
  assert (Hq : 0 < m / 2 ^ n) by (apply Z.div_str_pos; lia).
  apply digits_unique; [assumption|]. split.
  - apply Z.div_le_lower_bound; [lia|].
    rewrite <- Z.pow_add_r by lia. replace (n + (Zdigits2 m - n - 1)) with (Zdigits2 m - 1) by lia.
    assumption.
  - apply Z.div_lt_upper_bound; [lia|].
    rewrite <- Z.pow_add_r by lia. replace (n + (Zdigits2 m - n)) with (Zdigits2 m) by lia.
    assumption.
Qed.

Lemma digits_small_quotient (m n : Z) : 0 <= m -> 0 <= n -> m / 2 ^ n = 0 -> Zdigits2 m <= n.
Proof.
  intros Hm Hn H. apply digits_le; try assumption.
  pose proof (pow2_pos n Hn). apply Z.div_small_iff in H; lia.
Qed.

(** *** The result of the rounding *)

Lemma fexp_unfold (k : Z) : fexp PyFloat.prec PyFloat.emax k = Z.max (k - 53) (-1074).
Proof. reflexivity. Qed.

Lemma target_unfold (c e : Z) : target c e = Z.max (Zdigits2 (c / 4) + e - 53) (-1074).
Proof. unfold target. rewrite fexp_unfold. reflexivity. Qed.

Lemma pow2_split (a b : Z) : 0 <= a -> 0 <= b -> 2 ^ (a + b) = 2 ^ a * 2 ^ b.
Proof. intros. apply Z.pow_add_r; assumption. Qed.

Lemma pow2_le (a b : Z) : 0 <= a <= b -> 2 ^ a <= 2 ^ b.
Proof. intros. apply Z.pow_le_mono_r; lia. Qed.

(** The mantissa before rounding has at most 53 digits. *)
Lemma shifted_upper (c e : Z) :
  0 <= c -> fits c e -> c / 4 / 2 ^ (target c e - e) < 2 ^ 53.
Proof.
  intros Hc Hf. unfold fits in Hf. pose proof (target_unfold c e) as Ht.
  set (T := target c e) in *. set (m := c / 4) in *.
  assert (Hm : 0 <= m) by (apply Z.div_pos; lia).
  pose proof (digits_upper m Hm) as Hu. pose proof (digits_nonneg m) as Hd.
  assert (Hp : 0 < 2 ^ (T - e)) by (apply pow2_pos; lia).
  apply Z.div_lt_upper_bound; [assumption|].
  rewrite <- pow2_split by lia.
  assert (2 ^ Zdigits2 m <= 2 ^ (T - e + 53)) by (apply pow2_le; lia).
  lia.
Qed.

(** Above the smallest exponent it has exactly 53 digits. *)
Lemma shifted_lower (c e : Z) :
  0 <= c -> fits c e -> -1074 < target c e -> 2 ^ 52 <= c / 4 / 2 ^ (target c e - e).
Proof.
  intros Hc Hf Hn. unfold fits in Hf. pose proof (target_unfold c e) as Ht.
  set (T := target c e) in *. set (m := c / 4) in *.
  assert (Hm : 0 <= m) by (apply Z.div_pos; lia).
  pose proof (digits_nonneg m) as Hd.
  assert (Hp : 0 < 2 ^ (T - e)) by (apply pow2_pos; lia).
  assert (Hpos : 0 < m).
  { destruct (Z.eq_dec m 0) as [E|]; [|lia]. rewrite E in Ht. simpl in Ht. lia. }
  pose proof (digits_bounds m Hpos) as [B1 B2].
  apply Z.div_le_lower_bound; [assumption|].
  rewrite <- pow2_split by lia.
  replace (T - e + 52) with (Zdigits2 m - 1) by lia. assumption.
Qed.

Lemma rounded_bounds (c e : Z) :
  0 <= c -> fits c e ->
  0 <= rounded c e <= 2 ^ 53 /\ (-1074 < target c e -> 2 ^ 52 <= rounded c e).
Proof.
  intros Hc Hf. unfold rounded.
  assert (Hn : 0 <= target c e - e) by (unfold fits in Hf; lia).
  pose proof (round_code_bounds (coarsen (target c e - e) c)) as [B1 B2].
  rewrite coarsen_div4 in B1, B2 by assumption.
  pose proof (shifted_upper c e Hc Hf) as Hu.
  assert (H0 : 0 <= c / 4 / 2 ^ (target c e - e)).
  { apply Z.div_pos; [apply Z.div_pos; lia|apply pow2_pos; assumption]. }
  split; [lia|]. intros Ht. pose proof (shifted_lower c e Hc Hf Ht). lia.
Qed.

Lemma target_min (c e : Z) : -1074 <= target c e.
Proof. rewrite target_unfold. lia. Qed.

(** The second shift and the test for overflow, on a mantissa of at
    most 53 digits, or [2 ^ 53]. *)
Lemma round_at_pack (c e : Z) :
  0 <= c -> fits c e -> round_at c e = pack (rounded c e) (target c e).
Proof.
  intros Hc Hf. destruct (rounded_bounds c e Hc Hf) as [[B0 B1] _].
  pose proof (target_min c e) as Hmin.
  unfold round_at. fold (target c e).
  assert (Hn : Z.max 0 (target c e - e) = target c e - e) by (unfold fits in Hf; lia).
  rewrite Hn. fold (rounded c e).
  replace (e + (target c e - e)) with (target c e) by lia.
  set (m1 := rounded c e) in *. set (T := target c e) in *.
  rewrite fexp_unfold. unfold pack.
  destruct (Z.eqb_spec m1 0) as [E0|E0].
  - rewrite E0. change (Zdigits2 0) with 0.
    replace (Z.max 0 (Z.max (0 + T - 53) (-1074) - T)) with 0 by lia.
    rewrite coarsen_0. reflexivity.
  - destruct (Z.eqb_spec m1 (2 ^ 53)) as [E1|E1].
    + rewrite E1. change (Zdigits2 (2 ^ 53)) with 54.
      replace (Z.max 0 (Z.max (54 + T - 53) (-1074) - T)) with 1 by lia.
      rewrite coarsen_div4 by lia.
      replace (4 * 2 ^ 53 / 4 / 2 ^ 1) with (2 ^ 52) by reflexivity.
      change (2 ^ 52) with (Z.pos (Z.to_pos (2 ^ 52))) at 1.
      cbv iota beta. change (PyFloat.emax - PyFloat.prec) with 971. reflexivity.
    + assert (Hd : Zdigits2 m1 <= 53) by (apply digits_le; lia).
      replace (Z.max 0 (Z.max (Zdigits2 m1 + T - 53) (-1074) - T)) with 0 by lia.
      rewrite coarsen_0. rewrite Z.mul_comm, Z.div_mul by lia.
      rewrite Z.add_0_r. change (PyFloat.emax - PyFloat.prec) with 971.
      destruct m1 as [|q|q]; try lia. reflexivity.
Qed.

(** The result is a float of the format. *)
Lemma pack_valid (m t : Z) :
  0 <= m <= 2 ^ 53 -> -1074 <= t -> (-1074 < t -> 2 ^ 52 <= m) -> valid (pack m t).
Proof.
  intros [H0 H1] Ht Hl. unfold pack, valid.
  destruct (Z.eqb_spec m 0); [reflexivity|].
  destruct (Z.eqb_spec m (2 ^ 53)).
  - destruct (Z.leb_spec (t + 1) 971); [|reflexivity].
    unfold valid_binary, bounded, canonical_mantissa.
    change (Z.pos (digits2_pos (Z.to_pos (2 ^ 52)))) with 53.
    rewrite fexp_unfold. change (PyFloat.emax - PyFloat.prec) with 971.
    apply andb_true_intro. split; [apply Z.eqb_eq|apply Z.leb_le]; lia.
  - destruct (Z.leb_spec t 971); [|reflexivity].
    unfold valid_binary, bounded, canonical_mantissa.
    assert (Hm : 0 < m) by lia.
    assert (Hd : Zdigits2 m <= 53) by (apply digits_le; lia).
    pose proof (digits_pos m Hm) as Hp.
    assert (E : Z.pos (digits2_pos (Z.to_pos m)) = Zdigits2 m)
      by (destruct m; try lia; reflexivity).
    rewrite E, fexp_unfold. change (PyFloat.emax - PyFloat.prec) with 971.
    apply andb_true_intro. split; [apply Z.eqb_eq|apply Z.leb_le; lia].
    destruct (Z.eq_dec t (-1074)) as [->|]; [lia|].
    assert (53 <= Zdigits2 m) by (apply (digits_ge m 52); lia). lia.
Qed.

Lemma round_at_valid (c e : Z) : 0 <= c -> fits c e -> valid (round_at c e).
Proof.
  intros Hc Hf. rewrite round_at_pack by assumption.
  destruct (rounded_bounds c e Hc Hf) as [B L].
  apply pack_valid; [assumption|apply target_min|assumption].
Qed.

(** *** The order of the results *)

Lemma pack_mono_mantissa (m m' t : Z) :
  0 <= m <= m' -> m' <= 2 ^ 53 -> fle (pack m t) (pack m' t).
Proof.
  intros [H0 H1] H2. unfold pack.
  destruct (Z.eqb_spec m 0), (Z.eqb_spec m' 0), (Z.eqb_spec m (2 ^ 53)),
    (Z.eqb_spec m' (2 ^ 53)), (Z.leb_spec (t + 1) 971), (Z.leb_spec t 971);
    try lia; cbn [fle]; auto; try lia;
    try (right; split; [reflexivity|]; rewrite !Z2Pos.id by lia; lia).
Qed.

Lemma pack_mono_exponent (m m' t t' : Z) :
  0 <= m <= 2 ^ 53 -> 2 ^ 52 <= m' <= 2 ^ 53 -> t < t' -> fle (pack m t) (pack m' t').
Proof.
  intros [H0 H1] [H2 H3] Ht. unfold pack.
  assert (Hp : 0 < 2 ^ 52) by reflexivity.
  destruct (Z.eqb_spec m 0), (Z.eqb_spec m' 0), (Z.eqb_spec m (2 ^ 53)),
    (Z.eqb_spec m' (2 ^ 53)), (Z.leb_spec (t + 1) 971), (Z.leb_spec t 971),
    (Z.leb_spec (t' + 1) 971), (Z.leb_spec t' 971);
    try lia; cbn [fle]; auto; lia.
Qed.

Lemma target_mono (c c' e : Z) : 0 <= c <= c' -> target c e <= target c' e.
Proof.
  intros [H0 H1]. rewrite !target_unfold.
  assert (0 <= c / 4) by (apply Z.div_pos; lia).
  assert (c / 4 <= c' / 4) by (apply Z.div_le_mono; lia).
  pose proof (digits_mono (c / 4) (c' / 4) ltac:(lia)). lia.
Qed.

(** Two numbers located at the same exponent round in order. *)
Lemma round_at_mono (c c' e : Z) :
  0 <= c <= c' -> fits c e -> fits c' e -> fle (round_at c e) (round_at c' e).
Proof.
  intros [H0 H1] Hf Hf'.
  rewrite !round_at_pack by (assumption || lia).
  destruct (rounded_bounds c e H0 Hf) as [B L].
  destruct (rounded_bounds c' e ltac:(lia) Hf') as [B' L'].
  pose proof (target_mono c c' e ltac:(lia)) as Ht.
  pose proof (target_min c e) as Hmin.
  destruct (Z.eq_dec (target c e) (target c' e)) as [E|E].
  - rewrite <- E. apply pack_mono_mantissa; [|lia]. split; [lia|].
    unfold rounded. rewrite <- E. apply round_code_mono, coarsen_mono; [|lia].
    unfold fits in Hf. lia.
  - apply pack_mono_exponent; lia.
Qed.

(** The same number located at a finer exponent rounds to the same
    float. *)
Lemma round_at_finer (f e0 e : Z) :
  0 <= f -> e0 <= e -> fits (coarsen (e - e0) f) e ->
  round_at f e0 = round_at (coarsen (e - e0) f) e /\ fits f e0.
Proof.
  intros Hf He Hfit.
  assert (Ht : target f e0 = target (coarsen (e - e0) f) e).
  { unfold fits in Hfit. rewrite !target_unfold in *.
    rewrite coarsen_div4 in * by lia.
    set (mf := f / 4) in *. assert (Hmf : 0 <= mf) by (apply Z.div_pos; lia).
    pose proof (pow2_pos (e - e0) ltac:(lia)) as Hp.
    destruct (Z_lt_le_dec mf (2 ^ (e - e0))) as [Hs|Hs].
    - rewrite Z.div_small in * by lia. change (Zdigits2 0) with 0 in *.
      assert (Zdigits2 mf <= e - e0) by (apply digits_le; lia).
      pose proof (digits_nonneg mf). lia.
    - rewrite digits_div_pow2 by lia. f_equal. lia. }
  assert (Hfit0 : fits f e0) by (unfold fits in *; lia).
  split; [|assumption].
  unfold round_at. fold (target f e0). fold (target (coarsen (e - e0) f) e).
  rewrite <- Ht. unfold fits in *.
  replace (Z.max 0 (target f e0 - e0)) with (target f e0 - e + (e - e0)) by lia.
  replace (Z.max 0 (target f e0 - e)) with (target f e0 - e) by lia.
  rewrite coarsen_coarsen by lia.
  replace (e0 + (target f e0 - e + (e - e0))) with (e + (target f e0 - e)) by lia.
  reflexivity.
Qed.

(** Two quotients by the same divisor, located at their own
    exponents, round in the order of their values. *)
Lemma round_quotients_mono (D Na Nb ea eb : Z) :
  0 < D -> 0 <= Na -> 0 <= Nb ->
  fits (qcode Na D) ea -> fits (qcode Nb D) eb ->
  Na * 2 ^ (ea - Z.min ea eb) <= Nb * 2 ^ (eb - Z.min ea eb) ->
  fle (round_at (qcode Na D) ea) (round_at (qcode Nb D) eb).
Proof.
  intros HD Ha Hb Hfa Hfb Hle.
  set (e0 := Z.min ea eb) in *.
  assert (Hpa : 0 < 2 ^ (ea - e0)) by (apply pow2_pos; lia).
  assert (Hpb : 0 < 2 ^ (eb - e0)) by (apply pow2_pos; lia).
  assert (Ea : coarsen (ea - e0) (qcode (Na * 2 ^ (ea - e0)) D) = qcode Na D)
    by (rewrite coarsen_qcode by lia; apply qcode_scale; lia).
  assert (Eb : coarsen (eb - e0) (qcode (Nb * 2 ^ (eb - e0)) D) = qcode Nb D)
    by (rewrite coarsen_qcode by lia; apply qcode_scale; lia).
  assert (Qa : 0 <= qcode (Na * 2 ^ (ea - e0)) D) by (apply qcode_nonneg; nia).
  assert (Qb : 0 <= qcode (Nb * 2 ^ (eb - e0)) D) by (apply qcode_nonneg; nia).
  rewrite <- Ea in Hfa |- *. rewrite <- Eb in Hfb |- *.
  destruct (round_at_finer _ e0 ea Qa ltac:(lia) Hfa) as [Ra Fa].
  destruct (round_at_finer _ e0 eb Qb ltac:(lia) Hfb) as [Rb Fb].
  rewrite <- Ra, <- Rb.
  apply round_at_mono; try assumption. split; [assumption|].
  apply qcode_mono; assumption.
Qed.

(** *** Floats of the format and their values *)

Lemma valid_finite (s : bool) (m : positive) (e : Z) :
  valid (S754_finite s m e) ->
  Zdigits2 (Zpos m) <= 53 /\ -1074 <= e <= 971 /\ (-1074 < e -> Zdigits2 (Zpos m) = 53).
Proof.
  unfold valid, valid_binary, bounded, canonical_mantissa. intros H.
  apply andb_prop in H. destruct H as [H1 H2].
  apply Z.eqb_eq in H1. apply Z.leb_le in H2.
  rewrite fexp_unfold in H1. change (PyFloat.emax - PyFloat.prec) with 971 in H2.
  change (Zdigits2 (Z.pos m)) with (Z.pos (digits2_pos m)). lia.
Qed.

Lemma pack_shape (m t : Z) :
  match pack m t with
  | S754_zero false | S754_finite false _ _ | S754_infinity false => True
  | _ => False
  end.
Proof.
  unfold pack.
  destruct (m =? 0), (m =? 2 ^ 53), (t + 1 <=? 971), (t <=? 971); exact I.
Qed.

Lemma round_at_shape (c e : Z) :
  0 <= c -> fits c e ->
  match round_at c e with
  | S754_zero false | S754_finite false _ _ | S754_infinity false => True
  | _ => False
  end.
Proof.
  intros Hc Hf. rewrite round_at_pack by assumption. apply pack_shape.
Qed.

(** The order of two floats is the order of their values. *)
Lemma fle_values (mx my : positive) (ex ey : Z) :
  valid (S754_finite false mx ex) -> valid (S754_finite false my ey) ->
  fle (S754_finite false mx ex) (S754_finite false my ey) ->
  ex <= ey /\ Zpos mx <= Zpos my * 2 ^ (ey - ex).
Proof.
  intros Vx Vy H. apply valid_finite in Vx, Vy.
  destruct Vx as [Dx [Ex _]]. destruct Vy as [Dy [Ey Ny]].
  cbn [fle] in H. destruct H as [H|[H1 H2]].
  - split; [lia|].
    pose proof (digits_upper (Zpos mx) ltac:(lia)) as Ux.
    pose proof (digits_bounds (Zpos my) ltac:(lia)) as [Ly _].
    rewrite (Ny ltac:(lia)) in Ly. change (2 ^ (53 - 1)) with (2 ^ 52) in Ly.
    pose proof (digits_nonneg (Z.pos mx)).
    assert (2 ^ Zdigits2 (Z.pos mx) <= 2 ^ 53) by (apply pow2_le; lia).
    assert (2 ^ 1 <= 2 ^ (ey - ex)) by (apply pow2_le; lia).
    change (2 ^ 1) with 2 in *. change (2 ^ 53) with (2 * 2 ^ 52) in *. nia.
  - subst ey. split; [lia|]. rewrite Z.sub_diag. change (2 ^ 0) with 1. lia.
Qed.

(** Truncation keeps the order. *)
Lemma trunc_mono (mx my : positive) (ex ey : Z) :
  ex <= ey -> Zpos mx <= Zpos my * 2 ^ (ey - ex) ->
  PyFloat.trunc false mx ex <= PyFloat.trunc false my ey.
Proof.
  intros He Hv. rewrite !trunc_floor.
  assert (Hd : 0 < 2 ^ (ey - ex)) by (apply pow2_pos; lia).
  destruct (Z.leb_spec 0 ex), (Z.leb_spec 0 ey); try lia.
  - replace ey with (ey - ex + ex) at 1 by lia. rewrite pow2_split by lia.
    pose proof (pow2_pos ex ltac:(lia)). nia.
  - assert (Hp : 0 < 2 ^ (- ex)) by (apply pow2_pos; lia).
    apply Z.div_le_upper_bound; [assumption|].
    replace (ey - ex) with (- ex + ey) in Hv by lia. rewrite pow2_split in Hv by lia.
    lia.
  - assert (Hp : 0 < 2 ^ (- ey)) by (apply pow2_pos; lia).
    replace (- ex) with (ey - ex + - ey) by lia. rewrite pow2_split by lia.
    rewrite <- Z.div_div by lia. apply Z.div_le_mono; [assumption|].
    apply Z.div_le_upper_bound; lia.
Qed.

Lemma trunc_nonneg (m : positive) (e : Z) : 0 <= PyFloat.trunc false m e.
Proof.
  rewrite trunc_floor. destruct (Z.leb_spec 0 e).
  - apply Z.mul_nonneg_nonneg; [lia|]. apply Z.pow_nonneg. lia.
  - apply Z.div_pos; [lia|]. apply pow2_pos. lia.
Qed.

Lemma to_int_mono (x y : spec_float) (a b : Z) :
  valid x -> valid y -> fle x y ->
  PyFloat.to_int x = Ok a -> PyFloat.to_int y = Ok b -> a <= b.
Proof.
  intros Vx Vy H Ha Hb.
  destruct x as [sx|sx| |sx mx ex], y as [sy|sy| |sy my ey];
    cbn [PyFloat.to_int] in Ha, Hb; try discriminate;
    inversion Ha; inversion Hb; subst; try lia.
  - destruct sy; [cbn [fle] in H; contradiction|]. apply trunc_nonneg.
  - destruct sx; cbn [fle] in H; contradiction.
  - destruct sx; [cbn [fle] in H; contradiction|].
    destruct sy; [cbn [fle] in H; contradiction|].
    destruct (fle_values mx my ex ey Vx Vy H). apply trunc_mono; assumption.
Qed.

(** *** The three operations of the conversion keep the order *)

Lemma fle_zero_l (s : bool) (c e : Z) : 0 <= c -> fits c e -> fle (S754_zero s) (round_at c e).
Proof.
  intros Hc Hf. pose proof (round_at_shape c e Hc Hf) as H.
  destruct (round_at c e) as [[|]|[|]| |[|] m' e']; cbn [fle]; auto.
Qed.

Lemma fle_inf_r (c e : Z) : 0 <= c -> fits c e -> fle (round_at c e) (S754_infinity false).
Proof.
  intros Hc Hf. pose proof (round_at_shape c e Hc Hf) as H.
  destruct (round_at c e) as [[|]|[|]| |[|] m' e']; cbn [fle]; auto.
Qed.

Lemma digits_mul_ge (a b : Z) :
  0 < a -> 0 < b -> Zdigits2 a + Zdigits2 b - 1 <= Zdigits2 (a * b).
Proof.
  intros Ha Hb.
  pose proof (digits_bounds a Ha) as [La _]. pose proof (digits_bounds b Hb) as [Lb _].
  pose proof (digits_pos a Ha). pose proof (digits_pos b Hb).
  assert (H2 : 2 ^ (Zdigits2 a - 1 + (Zdigits2 b - 1)) <= a * b).
  { rewrite pow2_split by lia.
    pose proof (pow2_pos (Zdigits2 a - 1) ltac:(lia)).
    pose proof (pow2_pos (Zdigits2 b - 1) ltac:(lia)). nia. }
  assert (H3 : 0 <= Zdigits2 a - 1 + (Zdigits2 b - 1)) by lia.
  pose proof (digits_ge (a * b) _ H3 H2). lia.
Qed.

(** Multiplication *)

Lemma mul_code (mx mf : positive) (ex ef : Z) :
  PyFloat.mul (S754_finite false mx ex) (S754_finite false mf ef)
  = round_at (qcode (Zpos mx * Zpos mf) 1) (ex + ef).
Proof.
  unfold PyFloat.mul, SFmul. cbn [xorb].
  rewrite binary_round_aux_code by lia. cbn [loc_code].
  rewrite qcode_1, Z.add_0_r, Pos2Z.inj_mul. reflexivity.
Qed.

Lemma mul_fits (mx mf : positive) (ex ef : Z) :
  valid (S754_finite false mx ex) -> valid (S754_finite false mf ef) ->
  fits (qcode (Zpos mx * Zpos mf) 1) (ex + ef).
Proof.
  intros Vx Vf. apply valid_finite in Vx, Vf.
  unfold fits. rewrite target_unfold, qcode_div4, Z.div_1_r by lia.
  pose proof (digits_mul_ge (Zpos mx) (Zpos mf) ltac:(lia) ltac:(lia)).
  pose proof (digits_pos (Zpos mx) ltac:(lia)). pose proof (digits_pos (Zpos mf) ltac:(lia)).
  lia.
Qed.

Lemma mul_valid (x : spec_float) (mf : positive) (ef : Z) :
  valid x -> valid (S754_finite false mf ef) -> sign_clear x = true ->
  valid (PyFloat.mul x (S754_finite false mf ef)).
Proof.
  intros Vx Vf Sx. destruct x as [s|s| |s mx ex]; try reflexivity.
  simpl in Sx. apply negb_true_iff in Sx. subst s.
  rewrite mul_code. apply round_at_valid; [|apply mul_fits; assumption].
  apply qcode_nonneg; lia.
Qed.

Lemma mul_mono (x y : spec_float) (mf : positive) (ef : Z) :
  valid x -> valid y -> valid (S754_finite false mf ef) -> fle x y ->
  fle (PyFloat.mul x (S754_finite false mf ef)) (PyFloat.mul y (S754_finite false mf ef)).
Proof.
  intros Vx Vy Vf H.
  destruct x as [sx|[|]| |[|] mx ex], y as [sy|[|]| |[|] my ey];
    cbn [fle] in H; try contradiction;
    try (unfold PyFloat.mul, SFmul; cbn [xorb fle]; exact I).
  - rewrite mul_code. unfold PyFloat.mul, SFmul. cbn [xorb].
    apply fle_zero_l; [apply qcode_nonneg; lia|apply mul_fits; assumption].
  - rewrite mul_code. unfold PyFloat.mul, SFmul. cbn [xorb].
    apply fle_inf_r; [apply qcode_nonneg; lia|apply mul_fits; assumption].
  - assert (Hf : fle (S754_finite false mx ex) (S754_finite false my ey)) by exact H.
    destruct (fle_values mx my ex ey Vx Vy Hf) as [He Hv].
    rewrite !mul_code.
    apply round_quotients_mono; try lia; try (apply mul_fits; assumption).
    replace (Z.min (ex + ef) (ey + ef)) with (ex + ef) by lia.
    replace (ex + ef - (ex + ef)) with 0 by lia.
    replace (ey + ef - (ex + ef)) with (ey - ex) by lia.
    change (2 ^ 0) with 1. nia.
Qed.

(** Division by 1000.0 *)

Lemma div_eucl_pair (a b : Z) : Z.div_eucl a b = (a / b, a mod b).
Proof. unfold Z.div, Z.modulo. destruct (Z.div_eucl a b). reflexivity. Qed.

Lemma location_code (D N : Z) :
  0 < D -> 0 <= N ->
  4 * (N / D) + loc_code (new_location_even D (N mod D)) = qcode N D.
Proof.
  intros HD HN. unfold new_location_even, qcode.
  pose proof (Z.div_mod N D ltac:(lia)) as E.
  pose proof (Z.mod_pos_bound N D HD) as B.
  set (q := N / D) in *. set (r := N mod D) in *.
  destruct (Z.eqb_spec r 0) as [R0|R0].
  - cbn [loc_code].
    assert (E1 : 2 * N / D = 2 * q) by (symmetry; apply (Z.div_unique _ _ _ 0); lia).
    assert (E2 : (2 * N) mod D = 0) by (symmetry; apply (Z.mod_unique _ _ (2 * q)); lia).
    rewrite E1, E2. change (0 =? 0) with true. cbv iota. lia.
  - destruct (Z.compare_spec (2 * r) D) as [C|C|C]; cbn [loc_code].
    + assert (E1 : 2 * N / D = 2 * q + 1) by (symmetry; apply (Z.div_unique _ _ _ 0); lia).
      assert (E2 : (2 * N) mod D = 0) by (symmetry; apply (Z.mod_unique _ _ (2 * q + 1)); lia).
      rewrite E1, E2. change (0 =? 0) with true. cbv iota. lia.
    + assert (E1 : 2 * N / D = 2 * q) by (symmetry; apply (Z.div_unique _ _ _ (2 * r)); lia).
      assert (E2 : (2 * N) mod D = 2 * r) by (symmetry; apply (Z.mod_unique _ _ (2 * q)); lia).
      rewrite E1, E2. destruct (Z.eqb_spec (2 * r) 0); lia.
    + assert (E1 : 2 * N / D = 2 * q + 1)
        by (symmetry; apply (Z.div_unique _ _ _ (2 * r - D)); lia).
      assert (E2 : (2 * N) mod D = 2 * r - D)
        by (symmetry; apply (Z.mod_unique _ _ (2 * q + 1)); lia).
      rewrite E1, E2. destruct (Z.eqb_spec (2 * r - D) 0); lia.
Qed.

Lemma div_core (m1 : positive) (e1 : Z) (m2 : positive) (e2 : Z) :
  let e' := Z.min (fexp PyFloat.prec PyFloat.emax
                     (Zdigits2 (Zpos m1) + e1 - (Zdigits2 (Zpos m2) + e2))) (e1 - e2) in
  SFdiv_core_binary PyFloat.prec PyFloat.emax (Zpos m1) e1 (Zpos m2) e2
  = (Zpos m1 * 2 ^ (e1 - e2 - e') / Zpos m2, e',
     new_location (Zpos m2) ((Zpos m1 * 2 ^ (e1 - e2 - e')) mod Zpos m2)).
Proof.
  intros e'. unfold SFdiv_core_binary. fold e'.
  assert (Hs : 0 <= e1 - e2 - e') by (unfold e'; lia).
  assert (E : match e1 - e2 - e' with
              | Z0 => Zpos m1
              | Zpos _ => Z.shiftl (Zpos m1) (e1 - e2 - e')
              | Zneg _ => 0
              end = Zpos m1 * 2 ^ (e1 - e2 - e')).
  { destruct (e1 - e2 - e') as [|s|s] eqn:Es.
    - change (2 ^ 0) with 1. lia.
    - rewrite Z.shiftl_mul_pow2 by lia. reflexivity.
    - lia. }
  rewrite E, div_eucl_pair. reflexivity.
Qed.

Lemma div_code (mx : positive) (ex : Z) :
  SFdiv PyFloat.prec PyFloat.emax (S754_finite false mx ex) PyFloat.c1000
  = round_at (qcode (Zpos mx * 2 ^ (ex + 43 - div_exponent mx ex)) m1000)
             (div_exponent mx ex).
Proof.
  unfold SFdiv, PyFloat.c1000. cbn [xorb]. rewrite div_core.
  change (Zdigits2 (Z.pos 0x1f400000000000)) with 53. rewrite fexp_unfold.
  replace (Z.min (Z.max (Zdigits2 (Z.pos mx) + ex - (53 + -43) - 53) (-1074)) (ex - -43))
    with (div_exponent mx ex) by (unfold div_exponent; f_equal; lia).
  replace (ex - -43 - div_exponent mx ex) with (ex + 43 - div_exponent mx ex) by lia.
  assert (Hs : 0 <= ex + 43 - div_exponent mx ex) by (unfold div_exponent; lia).
  pose proof (pow2_pos _ Hs) as Hp.
  rewrite binary_round_aux_code by (apply Z.div_pos; [nia|reflexivity]).
  unfold new_location. change (Z.even (Z.pos 0x1f400000000000)) with true. cbv iota.
  change (Z.pos 0x1f400000000000) with m1000.
  rewrite location_code by (try reflexivity; nia). reflexivity.
Qed.

Lemma div_fits (mx : positive) (ex : Z) :
  valid (S754_finite false mx ex) ->
  fits (qcode (Zpos mx * 2 ^ (ex + 43 - div_exponent mx ex)) m1000) (div_exponent mx ex).
Proof.
  intros Vx. apply valid_finite in Vx. unfold fits.
  rewrite target_unfold, qcode_div4 by reflexivity.
  set (e' := div_exponent mx ex). set (s := ex + 43 - e').
  assert (He : e' <= Z.max (Zdigits2 (Zpos mx) + ex - 63) (-1074) /\ e' <= ex + 43)
    by (unfold e', div_exponent; lia).
  destruct (Z_le_gt_dec e' (-1074)) as [|Hg]; [lia|].
  assert (Hs : 106 - Zdigits2 (Zpos mx) <= s) by (unfold s; lia).
  pose proof (digits_bounds (Zpos mx) ltac:(lia)) as [Lx _].
  pose proof (digits_pos (Zpos mx) ltac:(lia)) as Dp.
  assert (H105 : 2 ^ 105 <= Zpos mx * 2 ^ s).
  { assert (2 ^ 105 <= 2 ^ (Zdigits2 (Zpos mx) - 1 + s)) by (apply pow2_le; lia).
    rewrite pow2_split in H by lia.
    pose proof (pow2_pos s ltac:(lia)). nia. }
  assert (Hq : 2 ^ 52 <= Zpos mx * 2 ^ s / m1000).
  { apply Z.div_le_lower_bound; [reflexivity|].
    assert (m1000 * 2 ^ 52 <= 2 ^ 105) by (vm_compute; discriminate). lia. }
  pose proof (digits_ge _ 52 ltac:(lia) Hq). lia.
Qed.

Lemma div_nonneg (mx : positive) (ex : Z) :
  0 <= qcode (Zpos mx * 2 ^ (ex + 43 - div_exponent mx ex)) m1000.
Proof.
  apply qcode_nonneg; [reflexivity|].
  assert (Hs : 0 <= ex + 43 - div_exponent mx ex) by (unfold div_exponent; lia).
  pose proof (pow2_pos _ Hs). nia.
Qed.

Lemma div_valid (x : spec_float) :
  valid x -> sign_clear x = true ->
  valid (SFdiv PyFloat.prec PyFloat.emax x PyFloat.c1000).
Proof.
  intros Vx Sx. destruct x as [s|s| |s mx ex]; try reflexivity.
  simpl in Sx. apply negb_true_iff in Sx. subst s.
  rewrite div_code. apply round_at_valid; [apply div_nonneg|apply div_fits; assumption].
Qed.

Lemma div_mono (x y : spec_float) :
  valid x -> valid y -> fle x y ->
  fle (SFdiv PyFloat.prec PyFloat.emax x PyFloat.c1000)
      (SFdiv PyFloat.prec PyFloat.emax y PyFloat.c1000).
Proof.
  intros Vx Vy H.
  destruct x as [sx|[|]| |[|] mx ex], y as [sy|[|]| |[|] my ey];
    cbn [fle] in H; try contradiction;
    try (unfold SFdiv, PyFloat.c1000; cbn [xorb fle]; exact I).
  - rewrite div_code. unfold SFdiv, PyFloat.c1000. cbn [xorb].
    apply fle_zero_l; [apply div_nonneg|apply div_fits; assumption].
  - rewrite div_code. unfold SFdiv, PyFloat.c1000. cbn [xorb].
    apply fle_inf_r; [apply div_nonneg|apply div_fits; assumption].
  - assert (Hf : fle (S754_finite false mx ex) (S754_finite false my ey)) by exact H.
    destruct (fle_values mx my ex ey Vx Vy Hf) as [He Hv].
    rewrite !div_code.
    set (ea := div_exponent mx ex). set (eb := div_exponent my ey).
    assert (Ha : ea <= ex + 43) by (unfold ea, div_exponent; lia).
    assert (Hb : eb <= ey + 43) by (unfold eb, div_exponent; lia).
    pose proof (pow2_pos (ex + 43 - ea) ltac:(lia)) as Pa.
    pose proof (pow2_pos (ey + 43 - eb) ltac:(lia)) as Pb.
    apply round_quotients_mono; try reflexivity;
      try (apply div_fits; assumption);
      try (apply Z.mul_nonneg_nonneg; lia).
    set (e0 := Z.min ea eb).
    rewrite <- !Z.mul_assoc, <- !pow2_split by lia.
    replace (ex + 43 - ea + (ea - e0)) with (ex + 43 - e0) by lia.
    replace (ey + 43 - eb + (eb - e0)) with (ey - ex + (ex + 43 - e0)) by lia.
    rewrite pow2_split by lia.
    pose proof (pow2_pos (ex + 43 - e0) ltac:(lia)).
    pose proof (pow2_pos (ey - ex) ltac:(lia)). nia.
Qed.

(** Conversion of an integer *)

Lemma pos_iter_xO (m d : positive) : Zpos (Pos.iter xO m d) = Zpos m * 2 ^ Zpos d.
Proof.
  induction d as [|d IH] using Pos.peano_ind.
  - cbn [Pos.iter]. rewrite Pos2Z.inj_xO. change (2 ^ 1) with 2. lia.
  - rewrite Pos.iter_succ, Pos2Z.inj_xO, IH, Pos2Z.inj_succ, Z.pow_succ_r by lia. lia.
Qed.

Lemma of_Z_code (a : Z) :
  0 < a ->
  PyFloat.of_Z a = round_at (qcode (a * 2 ^ (- int_exponent a)) 1) (int_exponent a).
Proof.
  intros Ha. destruct a as [|p|p]; try lia.
  unfold PyFloat.of_Z, binary_normalize, binary_round, shl_align, int_exponent.
  rewrite fexp_unfold. change (Zdigits2 (Z.pos p)) with (Z.pos (digits2_pos p)).
  rewrite Z.add_0_r, Z.sub_0_r.
  destruct (Z.max (Z.pos (digits2_pos p) - 53) (-1074)) as [|d|d] eqn:E.
  - rewrite binary_round_aux_code by lia. cbn [loc_code].
    change (Z.min 0 0) with 0. change (2 ^ (- 0)) with 1.
    rewrite qcode_1, Z.add_0_r, Z.mul_1_r. reflexivity.
  - rewrite binary_round_aux_code by lia. cbn [loc_code].
    replace (Z.min 0 (Z.pos d)) with 0 by lia. change (2 ^ (- 0)) with 1.
    rewrite qcode_1, Z.add_0_r, Z.mul_1_r. reflexivity.
  - rewrite binary_round_aux_code by lia. cbn [loc_code].
    replace (Z.min 0 (Z.neg d)) with (Z.neg d) by lia.
    rewrite qcode_1, Z.add_0_r, pos_iter_xO. reflexivity.
Qed.

Lemma of_Z_fits (a : Z) :
  0 < a -> fits (qcode (a * 2 ^ (- int_exponent a)) 1) (int_exponent a).
Proof.
  intros Ha. unfold fits. rewrite target_unfold, qcode_div4, Z.div_1_r by lia.
  assert (He : int_exponent a <= 0) by (unfold int_exponent; lia).
  rewrite digits_mul_pow2 by lia. unfold int_exponent. lia.
Qed.

Lemma of_Z_nonneg (a : Z) : 0 < a -> 0 <= qcode (a * 2 ^ (- int_exponent a)) 1.
Proof.
  intros Ha. apply qcode_nonneg; [lia|].
  assert (He : int_exponent a <= 0) by (unfold int_exponent; lia).
  pose proof (pow2_pos (- int_exponent a) ltac:(lia)). nia.
Qed.

Lemma of_Z_valid (a : Z) : 0 <= a -> valid (PyFloat.of_Z a).
Proof.
  intros Ha. destruct (Z.eq_dec a 0) as [->|]; [reflexivity|].
  rewrite of_Z_code by lia. apply round_at_valid; [apply of_Z_nonneg|apply of_Z_fits]; lia.
Qed.

Lemma of_Z_mono (a b : Z) : 0 <= a <= b -> fle (PyFloat.of_Z a) (PyFloat.of_Z b).
Proof.
  intros [Ha Hb]. destruct (Z.eq_dec a 0) as [->|Na].
  - destruct (Z.eq_dec b 0) as [->|Nb]; [exact I|].
    rewrite (of_Z_code b) by lia. change (PyFloat.of_Z 0) with (S754_zero false).
    apply fle_zero_l; [apply of_Z_nonneg|apply of_Z_fits]; lia.
  - rewrite !of_Z_code by lia.
    assert (Ea : int_exponent a <= 0) by (unfold int_exponent; lia).
    assert (Eb : int_exponent b <= 0) by (unfold int_exponent; lia).
    pose proof (pow2_pos (- int_exponent a) ltac:(lia)) as Pa.
    pose proof (pow2_pos (- int_exponent b) ltac:(lia)) as Pb.
    apply round_quotients_mono; try lia; try (apply of_Z_fits; lia);
      try (apply Z.mul_nonneg_nonneg; lia).
    set (e0 := Z.min (int_exponent a) (int_exponent b)).
    rewrite <- !Z.mul_assoc, <- !pow2_split by lia.
    replace (- int_exponent a + (int_exponent a - e0)) with (- e0) by lia.
    replace (- int_exponent b + (int_exponent b - e0)) with (- e0) by lia.
    pose proof (pow2_pos (- e0) ltac:(lia)). nia.
Qed.

(** *** The frames of two offsets *)

Lemma to_int_nonneg (x : spec_float) (n : Z) :
  sign_clear x = true -> PyFloat.to_int x = Ok n -> 0 <= n.
Proof.
  destruct x as [s|s| |s m e]; cbn [PyFloat.to_int sign_clear]; intros Hs H;
    inversion H; subst; try lia.
  apply negb_true_iff in Hs. subst s. apply trunc_nonneg.
Qed.

Lemma of_int_of_Z (z : Z) (x : spec_float) : PyFloat.of_int z = Ok x -> x = PyFloat.of_Z z.
Proof.
  unfold PyFloat.of_int. destruct (PyFloat.of_Z z); intros H; inversion H; reflexivity.
Qed.

Lemma as_float_valid (fps : num) (f : spec_float) :
  not_negative fps -> valid_rate fps -> as_float fps = Ok f ->
  valid f /\ sign_clear f = true.
Proof.
  destruct fps as [z|g]; cbn [not_negative valid_rate as_float]; intros Hn Hv H.
  - pose proof (of_int_sign_clear z f Hn H). apply of_int_of_Z in H. subst f.
    split; [apply of_Z_valid|]; assumption.
  - inversion H; subst. auto.
Qed.

(** For a rate that is not negative, the frame of an offset is not
    negative and does not exceed the frame of a later offset. *)
Lemma ms_to_frames_mono (fps : num) (a b fa fb : Z) :
  0 <= a <= b -> not_negative fps -> valid_rate fps ->
  ms_to_frames a fps = Ok fa -> ms_to_frames b fps = Ok fb ->
  0 <= fa <= fb.
Proof.
  intros [Ha Hab] Hn Hv. unfold ms_to_frames.
  destruct (PyFloat.of_int a) as [xa|] eqn:Exa; cbn [bind]; [|discriminate].
  destruct (PyFloat.of_int b) as [xb|] eqn:Exb; cbn [bind]; [|discriminate].
  unfold PyFloat.truediv. change (PyFloat.is_zero PyFloat.c1000) with false.
  cbv iota. cbn [bind].
  destruct (as_float fps) as [f|] eqn:Ef; cbn [bind]; [|discriminate].
  destruct (as_float_valid fps f Hn Hv Ef) as [Vf Sf].
  pose proof (of_int_sign_clear a xa Ha Exa) as Sa.
  pose proof (of_int_sign_clear b xb ltac:(lia) Exb) as Sb.
  apply of_int_of_Z in Exa, Exb. subst xa xb.
  pose proof (of_Z_valid a Ha) as Va. pose proof (of_Z_valid b ltac:(lia)) as Vb.
  pose proof (of_Z_mono a b ltac:(lia)) as Hx.
  pose proof (div_mono _ _ Va Vb Hx) as Hq.
  pose proof (div_valid _ Va Sa) as Vqa. pose proof (div_valid _ Vb Sb) as Vqb.
  pose proof (div_sign_clear _ PyFloat.c1000 Sa eq_refl) as Sqa.
  pose proof (div_sign_clear _ PyFloat.c1000 Sb eq_refl) as Sqb.
  set (qa := SFdiv PyFloat.prec PyFloat.emax (PyFloat.of_Z a) PyFloat.c1000) in *.
  set (qb := SFdiv PyFloat.prec PyFloat.emax (PyFloat.of_Z b) PyFloat.c1000) in *.
  intros Fa Fb.
  pose proof (to_int_nonneg _ _ (mul_sign_clear qa f Sqa Sf) Fa) as H0.
  split; [assumption|].
  destruct f as [s|s| |s mf ef]; cbn [sign_clear] in Sf;
    try (apply negb_true_iff in Sf; subst s).
  - destruct qa as [sa|sa| |sa ma ea], qb as [sb|sb| |sb mb eb];
      cbn in Fa, Fb; try discriminate; inversion Fa; inversion Fb; lia.
  - destruct qa as [sa|sa| |sa ma ea]; cbn in Fa; discriminate.
  - destruct qa as [sa|sa| |sa ma ea]; cbn in Fa; discriminate.
  - apply (to_int_mono (PyFloat.mul qa (S754_finite false mf ef))
             (PyFloat.mul qb (S754_finite false mf ef))); try assumption.
    + apply mul_valid; assumption.
    + apply mul_valid; assumption.
    + apply mul_mono; assumption.
Qed.

(** ** The duration of the sequence *)

Lemma max_of_spec (xs : list Z) :
  forall x, In (max_of x xs) (x :: xs) /\ forall y, In y (x :: xs) -> y <= max_of x xs.
Proof.
  unfold max_of. induction xs as [|z xs IH]; intros x; cbn [fold_left].
  - split; [left; reflexivity|]. intros y [<-|[]]. lia.
  - destruct (IH (Z.max x z)) as [Hin Hle]. split.
    + destruct Hin as [E|Hin]; [|right; right; assumption].
      rewrite <- E. destruct (Z.max_spec x z) as [[_ ->]|[_ ->]]; cbn; auto.
    + intros y [<-|[<-|Hy]].
      * pose proof (Hle (Z.max x z) ltac:(left; reflexivity)). lia.
      * pose proof (Hle (Z.max x z) ltac:(left; reflexivity)). lia.
      * apply Hle. right. assumption.
Qed.

Lemma marker_element_at (fps : num) (t : marker) (x : xml) :
  marker_element fps t = Ok x -> marker_at fps t (read_back x).
Proof.
  intros H. destruct (read_back_marker fps t x H) as (frame & code & Hf & _ & ->).
  exists frame. split; [assumption|]. split; [reflexivity|].
  unfold in_frame, text_at, node.
  unfold child, leaf. cbn [descend children_of find tag_of String.eqb Ascii.eqb Bool.eqb option_map text_of].
  reflexivity.
Qed.

Lemma markers_at (fps : num) (l : list marker) :
  forall xs, map_result (marker_element fps) l = Ok xs ->
             Forall2 (marker_at fps) l (map read_back xs).
Proof.
  induction l as [|t l IH]; cbn [map_result]; intros xs H.
  - inversion H. constructor.
  - destruct (marker_element fps t) as [x|] eqn:Hx; cbn [bind] in H; [|discriminate].
    destruct (map_result (marker_element fps) l) as [xs'|]; cbn [bind] in H; [|discriminate].
    inversion H; subst. cbn [map].
    constructor; [apply marker_element_at; assumption|auto].
Qed.

Lemma markers_filter (fps : num) (l : list marker) (xs : list xml) :
  Forall2 (marker_at fps) l xs ->
  filter (fun c => String.eqb (tag_of c) "marker") xs = xs.
Proof.
  induction 1 as [|t x l xs [frame [_ [Ht _]]] _ IH]; cbn [filter]; [reflexivity|].
  rewrite Ht. change (String.eqb "marker" "marker") with true. cbv iota.
  rewrite IH. reflexivity.
Qed.

Lemma generator_markers (fps : num) (l : list marker) (duration timebase : Z) (ntsc : bool)
    (markers : list xml) :
  Forall2 (marker_at fps) l markers ->
  markers_of (generator_item duration timebase ntsc markers) = markers.
Proof.
  intros H. unfold markers_of, generator_item. cbn [children_of].
  rewrite filter_app, (markers_filter fps l markers H). reflexivity.
Qed.

Lemma sequence_markers (fps : num) (l : list marker) (duration timebase : Z) (ntsc : bool)
    (title : string) (width height : Z) (item_markers markers : list xml) :
  Forall2 (marker_at fps) l markers ->
  markers_of (sequence_element duration timebase ntsc title width height
                item_markers markers) = markers.
Proof.
  intros H. unfold markers_of, sequence_element. cbn [children_of].
  rewrite filter_app, (markers_filter fps l markers H). reflexivity.
Qed.

Lemma document_paths (duration timebase : Z) (ntsc : bool) (title : string)
    (width height : Z) (item_markers markers : list xml) :
  let root := Element "xmeml" [("version", "4")] JNull
                [ sequence_element duration timebase ntsc title width height
                    item_markers markers ] in
  descend ["sequence"] root
    = Some (sequence_element duration timebase ntsc title width height item_markers markers) /\
  text_at ["sequence"; "duration"] root = Some (JStr (PyStr.of_int duration)) /\
  descend generator_path root = Some (generator_item duration timebase ntsc item_markers) /\
  text_at ["duration"] (generator_item duration timebase ntsc item_markers)
    = Some (JStr (PyStr.of_int duration)) /\
  text_at ["end"] (generator_item duration timebase ntsc item_markers)
    = Some (JStr (PyStr.of_int duration)) /\
  text_at ["out"] (generator_item duration timebase ntsc item_markers)
    = Some (JStr (PyStr.of_int duration)).
Proof.
  intros root. repeat split; reflexivity.
Qed.

(** C2, as the code has it: in a written document the duration of the
    sequence, and the duration, end and out of the generator item,
    are ms_to_frames(max offset + 60000, fps); for a single marker at
    offset 0 this is ms_to_frames(60000, fps); every marker element,
    on the generator item and on the sequence, carries the frame of
    its marker; and when the rate is not negative (a float rate being
    a value of the binary64 format, as every Python float is) and no
    offset is negative, every such frame lies between 0 and the
    duration. *)
Theorem c2_sequence_duration :
  forall w timestamps path fps sequence_name width height r p root,
    create_premiere_xml w timestamps path fps sequence_name width height = Ok r ->
    written r = Some (p, root) ->
    exists first others duration sequence item,
      timestamps = first :: others /\
      In (max_of (timestamp_ms first) (map timestamp_ms others)) (map timestamp_ms timestamps) /\
      (forall t, In t timestamps ->
                 timestamp_ms t <= max_of (timestamp_ms first) (map timestamp_ms others)) /\
      ms_to_frames (max_of (timestamp_ms first) (map timestamp_ms others) + 60000) fps
        = Ok duration /\
      descend ["sequence"] root = Some sequence /\
      text_at ["duration"] sequence = Some (JStr (PyStr.of_int duration)) /\
      descend generator_path root = Some item /\
      text_at ["duration"] item = Some (JStr (PyStr.of_int duration)) /\
      text_at ["end"] item = Some (JStr (PyStr.of_int duration)) /\
      text_at ["out"] item = Some (JStr (PyStr.of_int duration)) /\
      (others = [] -> timestamp_ms first = 0 -> ms_to_frames 60000 fps = Ok duration) /\
      Forall2 (marker_at fps) timestamps (markers_of item) /\
      Forall2 (marker_at fps) timestamps (markers_of sequence) /\
      (not_negative fps -> valid_rate fps -> nonneg_offsets timestamps ->
       forall t, In t timestamps ->
                 exists frame,
                   ms_to_frames (timestamp_ms t) fps = Ok frame /\ 0 <= frame <= duration).
Proof.
  intros w timestamps path fps sequence_name width height r p root Hc Hw.
  destruct (written_document _ _ _ _ _ _ _ _ _ _ Hc Hw)
    as (first & others & tb & d & title & ms & Hts & Htb & Hd & Hm & Hroot).
  destruct (max_of_spec (map timestamp_ms others) (timestamp_ms first)) as [Hin Hmax].
  pose proof (markers_at fps timestamps ms Hm) as Fi.
  set (ims := map read_back ms) in *.
  destruct (document_paths d tb (is_ntsc fps) title width height ims ims)
    as (P1 & P2 & P3 & P4 & P5 & P6).
  exists first, others, d,
    (sequence_element d tb (is_ntsc fps) title width height ims ims),
    (generator_item d tb (is_ntsc fps) ims).
  subst root timestamps.
  assert (Hle : forall t, In t (first :: others) ->
                          timestamp_ms t <= max_of (timestamp_ms first) (map timestamp_ms others)).
  { intros t Ht. apply Hmax. change (In (timestamp_ms t) (map timestamp_ms (first :: others))).
    apply in_map. assumption. }
  split; [reflexivity|]. split; [exact Hin|]. split; [exact Hle|]. split; [exact Hd|].
  split; [exact P1|]. split; [reflexivity|]. split; [exact P3|].
  split; [exact P4|]. split; [exact P5|]. split; [exact P6|].
  split; [|split; [|split]].
  - intros -> E0. cbn [map max_of fold_left] in Hd. rewrite E0 in Hd. exact Hd.
  - rewrite (generator_markers fps (first :: others)); assumption.
  - rewrite (sequence_markers fps (first :: others)); assumption.
  - intros Hn Hv Hoff t Ht.
    assert (Hfr : exists frame, ms_to_frames (timestamp_ms t) fps = Ok frame).
    { clear - Fi Ht. induction Fi as [|t' x l xs [frame [Hf _]] _ IH]; [contradiction|].
      destruct Ht as [<-|Ht]; eauto. }
    destruct Hfr as [frame Hf]. exists frame. split; [assumption|].
    unfold nonneg_offsets in Hoff. rewrite Forall_forall in Hoff.
    pose proof (Hoff t Ht) as H0. pose proof (Hle t Ht) as H1.
    apply (ms_to_frames_mono fps (timestamp_ms t)
             (max_of (timestamp_ms first) (map timestamp_ms others) + 60000));
      try assumption. lia.
Qed.

Lemma c2_sequence_duration_witness :
  exists first others duration sequence item,
    [plain_marker 0] = first :: others /\
    In (max_of (timestamp_ms first) (map timestamp_ms others)) (map timestamp_ms [plain_marker 0]) /\
    (forall t, In t [plain_marker 0] ->
               timestamp_ms t <= max_of (timestamp_ms first) (map timestamp_ms others)) /\
    ms_to_frames (max_of (timestamp_ms first) (map timestamp_ms others) + 60000) (NInt 60)
      = Ok duration /\
    descend ["sequence"]
      (Element "xmeml" [("version", "4")] JNull
         [ sequence_element 3600 60 false "OBS Markers (2024-01-01 00:00)" 1920 1080
             [ node "marker"
                 [ node "comment" []; node "name" []; leaf "in" "0"; leaf "out" "-1";
                   leaf "pproColor" "4294741314" ] ]
             [ node "marker"
                 [ node "comment" []; node "name" []; leaf "in" "0"; leaf "out" "-1";
                   leaf "pproColor" "4294741314" ] ] ]) = Some sequence /\
    text_at ["duration"] sequence = Some (JStr (PyStr.of_int duration)) /\
    descend generator_path
      (Element "xmeml" [("version", "4")] JNull
         [ sequence_element 3600 60 false "OBS Markers (2024-01-01 00:00)" 1920 1080
             [ node "marker"
                 [ node "comment" []; node "name" []; leaf "in" "0"; leaf "out" "-1";
                   leaf "pproColor" "4294741314" ] ]
             [ node "marker"
                 [ node "comment" []; node "name" []; leaf "in" "0"; leaf "out" "-1";
                   leaf "pproColor" "4294741314" ] ] ]) = Some item /\
    text_at ["duration"] item = Some (JStr (PyStr.of_int duration)) /\
    text_at ["end"] item = Some (JStr (PyStr.of_int duration)) /\
    text_at ["out"] item = Some (JStr (PyStr.of_int duration)) /\
    (others = [] -> timestamp_ms first = 0 -> ms_to_frames 60000 (NInt 60) = Ok duration) /\
    Forall2 (marker_at (NInt 60)) [plain_marker 0] (markers_of item) /\
    Forall2 (marker_at (NInt 60)) [plain_marker 0] (markers_of sequence) /\
    (not_negative (NInt 60) -> valid_rate (NInt 60) -> nonneg_offsets [plain_marker 0] ->
     forall t, In t [plain_marker 0] ->
               exists frame,
                 ms_to_frames (timestamp_ms t) (NInt 60) = Ok frame /\ 0 <= frame <= duration).
Proof.
  apply (c2_sequence_duration bare_world [plain_marker 0] "out.xml" (NInt 60) None 1920 1080
           {| returned := true;
              written := Some ("out.xml",
                Element "xmeml" [("version", "4")] JNull
                  [ sequence_element 3600 60 false "OBS Markers (2024-01-01 00:00)" 1920 1080
                      [ node "marker"
                          [ node "comment" []; node "name" []; leaf "in" "0"; leaf "out" "-1";
                            leaf "pproColor" "4294741314" ] ]
                      [ node "marker"
                          [ node "comment" []; node "name" []; leaf "in" "0"; leaf "out" "-1";
                            leaf "pproColor" "4294741314" ] ] ]) |}
           "out.xml").
  - vm_compute. reflexivity.
  - reflexivity.
Defined.

(** C2 as stated fails: at a rate of -60 a marker at offset 0 is
    written at frame 0 in a sequence of duration -3600, so the frame
    is not within the duration; and at 60 frames per second a marker
    at offset -5000 is at frame -300, before the start. *)
Lemma c2_negative_rate_duration :
  option_map (fun r => option_map (fun o => text_at ["sequence"; "duration"] (snd o)) (written r))
    (match create_premiere_xml bare_world [plain_marker 0] "out.xml" (NFloat minus_sixty)
             None 1920 1080 with
     | Ok r => Some r
     | Raise _ => None
     end)
  = Some (Some (Some (JStr "-3600"))) /\
  ms_to_frames 0 (NFloat minus_sixty) = Ok 0 /\
  ms_to_frames (0 + 60000) (NFloat minus_sixty) = Ok (-3600) /\
  ~ 0 <= -3600 /\
  ms_to_frames (-5000) (NInt 60) = Ok (-300) /\
  ~ 0 <= -300.
Proof.
  split; [vm_compute; reflexivity|].
  split; [vm_compute; reflexivity|].
  split; [vm_compute; reflexivity|].
  split; [lia|]. split; [vm_compute; reflexivity|lia].
Qed.

(** ** The parser, line by line *)

Lemma process_object (kv : list (string * json)) :
  process (JObj kv) =
  match Py.dict_get "metadata" kv with
  | Some (JObj m) => Ok (SetMetadata (JObj m))
  | Some _ => Raise AttributeError
  | None =>
    match Py.dict_get "timestamp_ms" kv with
    | None => Ok Skip
    | Some v =>
      match Py.int v with
      | Ok ms =>
        Ok (Append {| timestamp_ms := ms;
                      comment := value_or (JStr "") (Py.dict_get "comment" kv);
                      name := value_or (JStr "") (Py.dict_get "name" kv);
                      color := value_or (JStr "blue") (Py.dict_get "color" kv) |})
      | Raise e => Raise e
      end
    end
  end.
Proof.
  unfold process, read_marker, Py.contains, Py.subscript, Py.get. cbn [bind].
  destruct (Py.dict_get "metadata" kv) as [m|]; cbn [bind].
  - destruct m as [|b|z|f|s|l|kv0]; try reflexivity.
    destruct (Py.dict_get "recording_path" kv0); reflexivity.
  - destruct (Py.dict_get "timestamp_ms" kv) as [v|]; cbn [bind negb]; [|reflexivity].
    destruct (Py.int v) as [ms|e]; cbn [bind]; [|reflexivity].
    destruct (Py.dict_get "comment" kv), (Py.dict_get "name" kv), (Py.dict_get "color" kv);
      reflexivity.
Qed.

Lemma process_not_object (data : json) :
  (forall kv, data <> JObj kv) ->
  process data = Ok Skip \/ process data = Raise TypeError.
Proof.
  intros Hn. unfold process, read_marker.
  destruct data as [|b|z|f|s|l|kv]; try (right; reflexivity).
  - cbn [Py.contains bind]. destruct (PyStr.contains s "metadata"); [right; reflexivity|].
    destruct (PyStr.contains s "timestamp_ms"); [right|left]; reflexivity.
  - cbn [Py.contains bind]. destruct (existsb (Py.is_str "metadata") l); [right; reflexivity|].
    destruct (existsb (Py.is_str "timestamp_ms") l); [right|left]; reflexivity.
  - exfalso. apply (Hn kv). reflexivity.
Qed.

Lemma int_raises (v : json) (e : exn) :
  Py.int v = Raise e ->
  (e = OverflowError /\ exists s, v = JFloat (S754_infinity s)) \/
  ((e = ValueError \/ e = TypeError) /\ forall s, v <> JFloat (S754_infinity s)).
Proof.
  destruct v as [|b|z|f|s|l|kv]; simpl; try discriminate;
    try solve [intros E; inversion E; right; split; [auto|discriminate]].
  - destruct f as [s|s| |s m x]; simpl; try discriminate; intros E; inversion E.
    + left. eauto.
    + right. split; [auto|discriminate].
  - destruct (PyStr.to_int s); [discriminate|].
    intros E; inversion E; right; split; [auto|discriminate].
Qed.

(** One turn of the loop, told by what the line is. *)
Lemma parse_lines_step (l : line) (rest : list line) (metadata : json) (timestamps : list marker) :
  parse_lines (l :: rest) metadata timestamps =
  if fatal l then None
  else parse_lines rest (line_metadata metadata l) (timestamps ++ line_markers l).
Proof.
  destruct l as [| |data]; cbn [parse_lines fatal line_metadata];
    try (unfold line_markers; cbn [line_marker]; rewrite app_nil_r; reflexivity).
  destruct data as [|b|z|f|s|ls|kv].
  1-6: (match goal with
        | |- context [process ?d] =>
          let H := fresh in
          assert (H : forall kv, d <> JObj kv) by discriminate;
          destruct (process_not_object d H) as [-> | ->]
        end; unfold line_markers; cbn [line_marker]; rewrite app_nil_r; reflexivity).
  rewrite process_object. unfold line_markers, line_marker.
  destruct (Py.dict_get "metadata" kv) as [m|]; cbn [value_or].
  - destruct m; try reflexivity. rewrite app_nil_r. reflexivity.
  - destruct (Py.dict_get "timestamp_ms" kv) as [v|]; [|rewrite app_nil_r; reflexivity].
    destruct (Py.int v) as [ms|e] eqn:Hv.
    + destruct v as [|b|z|f|s|ls|kv']; try reflexivity.
      destruct f; try reflexivity. discriminate.
    + destruct (int_raises v e Hv) as [[-> [s ->]]|[He Hs]]; [reflexivity|].
      assert (Hf : match v with JFloat (S754_infinity _) => true | _ => false end = false).
      { destruct v as [|b|z|f|s|ls|kv']; try reflexivity.
        destruct f; try reflexivity. exfalso. apply (Hs s). reflexivity. }
      rewrite Hf, app_nil_r. destruct He as [-> | ->]; reflexivity.
Qed.

Lemma parse_lines_fails (lines : list line) :
  forall metadata timestamps,
    parse_lines lines metadata timestamps = None <-> existsb fatal lines = true.
Proof.
  induction lines as [|l lines IH]; intros metadata timestamps.
  - simpl. split; discriminate.
  - rewrite parse_lines_step. cbn [existsb]. destruct (fatal l); cbn [orb].
    + split; reflexivity.
    + apply IH.
Qed.

Lemma parse_lines_closed (lines : list line) :
  forall metadata timestamps,
    existsb fatal lines = false ->
    parse_lines lines metadata timestamps
    = Some (fold_left line_metadata lines metadata, timestamps ++ file_markers lines).
Proof.
  induction lines as [|l lines IH]; intros metadata timestamps Hf.
  - simpl. rewrite app_nil_r. reflexivity.
  - rewrite parse_lines_step. cbn [existsb] in Hf. apply orb_false_iff in Hf.
    destruct Hf as [Hl Hf]. rewrite Hl, (IH _ _ Hf).
    unfold file_markers. cbn [flat_map fold_left]. rewrite app_assoc. reflexivity.
Qed.

Lemma skipped_effect (l : line) :
  skipped l ->
  fatal l = false /\ line_markers l = [] /\ forall metadata, line_metadata metadata l = metadata.
Proof.
  intros H. destruct H as [| |data Hn|kv Hm Ht|kv v e Hm Ht Hv He].
  - split; [|split]; reflexivity.
  - split; [|split]; reflexivity.
  - destruct data as [|b|z|f|s|ls|kv]; try solve [split; [|split]; reflexivity].
    exfalso. apply (Hn kv). reflexivity.
  - unfold line_markers. cbn [fatal line_marker line_metadata]. rewrite Hm, Ht.
    split; [|split]; reflexivity.
  - unfold line_markers. cbn [fatal line_marker line_metadata]. rewrite Hm, Ht, Hv.
    destruct (int_raises v e Hv) as [[-> _]|[_ Hs]]; [contradiction|].
    split; [|split]; try reflexivity.
    destruct v as [|b|z|f|s|ls|kv']; try reflexivity.
    destruct f; try reflexivity. exfalso. apply (Hs s). reflexivity.
Qed.

Lemma metadata_record_effect (lines : list line) (metadata : json) :
  forallb (fun l => negb (is_metadata_record l)) lines = true ->
  fold_left line_metadata lines metadata = metadata.
Proof.
  revert metadata. induction lines as [|l lines IH]; intros metadata H; [reflexivity|].
  cbn [forallb] in H. apply andb_prop in H. destruct H as [Hl H].
  cbn [fold_left]. rewrite <- (IH metadata H) at 2. f_equal.
  destruct l as [| |data]; try reflexivity.
  destruct data; try reflexivity.
  cbn [is_metadata_record line_metadata] in *.
  destruct (Py.dict_get "metadata" kv); [discriminate|reflexivity].
Qed.

(** X1.  A file that can be read makes the parser fail (it returns
    the pair of two [None]) exactly when one of its lines is an
    object whose [metadata] value is not an object, or an object
    without [metadata] whose [timestamp_ms] is an infinite float; no
    other line stops it. *)
Theorem parse_fails_on_fatal_line :
  forall lines, parse_timestamps (Some lines) = None <-> existsb fatal lines = true.
Proof.
  intros lines. apply parse_lines_fails.
Qed.

(** X2.  When no line stops the parser, the markers it returns are
    those of the lines in the order of the file, one for each object
    without [metadata] whose [timestamp_ms] is converted by [int],
    with the values of [comment], [name] and [color] as they are in
    the record and the defaults (empty, empty, blue) for the keys
    that are absent; nothing is sorted, merged or dropped.  The
    metadata returned is that of the last metadata record. *)
Theorem parse_result_in_file_order :
  forall lines,
    existsb fatal lines = false ->
    parse_timestamps (Some lines) = Some (file_metadata lines, file_markers lines).
Proof.
  intros lines H. unfold parse_timestamps, file_metadata.
  rewrite (parse_lines_closed lines (JObj []) [] H). reflexivity.
Qed.

Lemma parse_result_in_file_order_witness :
  existsb fatal mixed_file = false /\
  parse_timestamps (Some mixed_file)
  = Some (JObj [("fps_num", JInt 30)],
          [ {| timestamp_ms := 2000; comment := JStr ""; name := JStr "b"; color := JStr "blue" |};
            {| timestamp_ms := 1000; comment := JStr ""; name := JStr ""; color := JStr "Red" |};
            {| timestamp_ms := 2000; comment := JInt 7; name := JStr ""; color := JStr "blue" |} ]).
Proof.
  split; [reflexivity|].
  exact (parse_result_in_file_order mixed_file eq_refl).
Defined.

(** X3.  A line that is blank, that is not valid JSON, that decodes
    to something else than an object, that is an object with neither
    [metadata] nor [timestamp_ms], or whose [timestamp_ms] is refused
    by [int] with a ValueError or a TypeError, is passed over: the
    result is that of the file without the line, whatever comes
    before and after it. *)
Theorem skipped_line_changes_nothing :
  forall before l after,
    skipped l ->
    parse_timestamps (Some (before ++ l :: after)) = parse_timestamps (Some (before ++ after)).
Proof.
  intros before l after H. unfold parse_timestamps.
  rewrite !parse_lines_app.
  destruct (parse_lines before (JObj []) []) as [[metadata timestamps]|]; [|reflexivity].
  rewrite parse_lines_step.
  destruct (skipped_effect l H) as (-> & -> & ->). rewrite app_nil_r. reflexivity.
Qed.

Lemma skipped_line_changes_nothing_witness :
  skipped Malformed /\
  parse_timestamps (Some ([Decoded (JObj [("timestamp_ms", JInt 1)])] ++
                          Malformed :: [Decoded (JObj [("timestamp_ms", JInt 3)])]))
  = parse_timestamps (Some ([Decoded (JObj [("timestamp_ms", JInt 1)])] ++
                            [Decoded (JObj [("timestamp_ms", JInt 3)])])).
Proof.
  split; [constructor|].
  exact (skipped_line_changes_nothing _ Malformed _ skipped_malformed).
Defined.

(** X4.  The markers of two files read one after the other are the
    markers of the first followed by the markers of the second: when
    both parts are parsed, so is their concatenation, with the
    metadata of the second part if it has a metadata record and that
    of the first part otherwise. *)
Theorem parse_concatenation :
  forall a b ma ta mb tb,
    parse_timestamps (Some a) = Some (ma, ta) ->
    parse_timestamps (Some b) = Some (mb, tb) ->
    parse_timestamps (Some (a ++ b))
    = Some (if existsb is_metadata_record b then mb else ma, ta ++ tb).
Proof.
  intros a b ma ta mb tb Ha Hb.
  assert (Fa : existsb fatal a = false).
  { destruct (existsb fatal a) eqn:E; [|reflexivity].
    apply parse_lines_fails with (metadata := JObj []) (timestamps := []) in E.
    unfold parse_timestamps in Ha. congruence. }
  assert (Fb : existsb fatal b = false).
  { destruct (existsb fatal b) eqn:E; [|reflexivity].
    apply parse_lines_fails with (metadata := JObj []) (timestamps := []) in E.
    unfold parse_timestamps in Hb. congruence. }
  unfold parse_timestamps in *.
  rewrite parse_lines_app, Ha.
  rewrite (parse_lines_closed a _ _ Fa) in Ha. rewrite (parse_lines_closed b _ _ Fb) in Hb.
  rewrite (parse_lines_closed b _ _ Fb).
  inversion Ha; subst. inversion Hb; subst. cbn [app]. f_equal. f_equal.
  destruct (existsb is_metadata_record b) eqn:E.
  - clear - E. generalize (JObj []) at 2. generalize (fold_left line_metadata a (JObj [])).
    induction b as [|l b IH]; [discriminate|]. intros m1 m2. cbn [existsb] in E. cbn [fold_left].
    destruct (is_metadata_record l) eqn:El.
    + f_equal. destruct l as [| |data]; try discriminate. destruct data; try discriminate.
      cbn [is_metadata_record line_metadata] in *.
      destruct (Py.dict_get "metadata" kv); [reflexivity|discriminate].
    + cbn [orb] in E. destruct b as [|l' b']; [discriminate|].
      assert (Hl : forall m, line_metadata m l = m).
      { intros m. destruct l as [| |data]; try reflexivity. destruct data; try reflexivity.
        cbn [is_metadata_record line_metadata] in *.
        destruct (Py.dict_get "metadata" kv); [discriminate|reflexivity]. }
      rewrite !Hl. apply (IH E).
  - apply metadata_record_effect.
    clear - E. induction b as [|l b IH]; [reflexivity|].
    cbn [existsb] in E. apply orb_false_iff in E. destruct E as [El E].
    cbn [forallb]. rewrite El. apply (IH E).
Qed.

Lemma parse_concatenation_witness :
  parse_timestamps
    (Some ([Decoded (JObj [("metadata", JObj [("fps_num", JInt 30)])]);
            Decoded (JObj [("timestamp_ms", JInt 5)])] ++
           [Decoded (JObj [("timestamp_ms", JInt 1)])]))
  = Some (if existsb is_metadata_record [Decoded (JObj [("timestamp_ms", JInt 1)])]
          then JObj [] else JObj [("fps_num", JInt 30)],
          [plain_marker 5] ++ [plain_marker 1]).
Proof.
  exact (parse_concatenation
           [Decoded (JObj [("metadata", JObj [("fps_num", JInt 30)])]);
            Decoded (JObj [("timestamp_ms", JInt 5)])]
           [Decoded (JObj [("timestamp_ms", JInt 1)])]
           (JObj [("fps_num", JInt 30)]) [plain_marker 5] (JObj []) [plain_marker 1]
           eq_refl eq_refl).
Defined.

Lemma file_metadata_object (lines : list line) :
  forall kv, existsb fatal lines = false ->
             exists kv', fold_left line_metadata lines (JObj kv) = JObj kv'.
Proof.
  induction lines as [|l lines IH]; intros kv H.
  - exists kv. reflexivity.
  - cbn [existsb] in H. apply orb_false_iff in H. destruct H as [Hl H]. cbn [fold_left].
    destruct l as [| |data]; try (apply IH; assumption).
    destruct data as [|b|z|f|s|ls|kv0]; try (apply IH; assumption).
    cbn [line_metadata fatal] in *.
    destruct (Py.dict_get "metadata" kv0) as [m|]; cbn [value_or]; [|apply IH; assumption].
    destruct m; try discriminate. apply IH; assumption.
Qed.

(** X5.  The metadata that the parser returns is always a dict: the
    empty one it starts with, or the value of a metadata record,
    which stops the parser when it is anything else than an object. *)
Theorem parsed_metadata_is_a_dict :
  forall file metadata timestamps,
    parse_timestamps file = Some (metadata, timestamps) ->
    exists kv, metadata = JObj kv.
Proof.
  intros [lines|] metadata timestamps H; [|discriminate].
  assert (F : existsb fatal lines = false).
  { destruct (existsb fatal lines) eqn:E; [|reflexivity].
    apply parse_lines_fails with (metadata := JObj []) (timestamps := []) in E.
    unfold parse_timestamps in H. congruence. }
  unfold parse_timestamps in H. rewrite (parse_lines_closed lines _ _ F) in H.
  inversion H; subst. destruct (file_metadata_object lines [] F) as [kv' E].
  exists kv'. exact E.
Qed.

Lemma parsed_metadata_is_a_dict_witness :
  exists kv, JObj [("fps_num", JInt 30)] = JObj kv.
Proof.
  exact (parsed_metadata_is_a_dict (Some mixed_file) (JObj [("fps_num", JInt 30)])
           (file_markers mixed_file) eq_refl).
Defined.

(** ** The colour table *)

Lemma lower_ascii_idempotent (c : ascii) :
  PyStr.lower_ascii (PyStr.lower_ascii c) = PyStr.lower_ascii c.
Proof.
  destruct c as [b0 b1 b2 b3 b4 b5 b6 b7].
  destruct b0, b1, b2, b3, b4, b5, b6, b7; reflexivity.
Qed.

Lemma lower_idempotent (s : string) : PyStr.lower (PyStr.lower s) = PyStr.lower s.
Proof.
  induction s as [|c s IH]; simpl; [reflexivity|].
  rewrite lower_ascii_idempotent, IH. reflexivity.
Qed.

Lemma map_get_some (k : string) (m : list (string * string)) (v : string) :
  map_get k m = Some v -> In (k, v) m.
Proof.
  induction m as [|[k' v'] m IH]; simpl; [discriminate|].
  destruct (String.eqb_spec k k') as [->|Hk].
  - intros E. inversion E. left. reflexivity.
  - intros E. right. apply IH. exact E.
Qed.

Lemma map_get_none (k : string) (m : list (string * string)) :
  ~ In k (map fst m) -> map_get k m = None.
Proof.
  induction m as [|[k' v'] m IH]; simpl; [reflexivity|].
  intros H. destruct (String.eqb_spec k k') as [->|Hk].
  - exfalso. apply H. left. reflexivity.
  - apply IH. intros Hin. apply H. right. exact Hin.
Qed.

(** X6.  On a string, [get_color_code] never raises, and the code it
    returns is one of the eight codes of the table; for a name that,
    put in lower case, is not a key of the table, it is the code of
    blue. *)
Theorem color_code_of_any_string :
  forall s,
    exists c,
      get_color_code (JStr s) = Ok c /\
      In c (map snd COLOR_MAP) /\
      (~ In (PyStr.lower s) (map fst COLOR_MAP) -> c = blue_code).
Proof.
  intros s. unfold get_color_code.
  destruct (map_get (PyStr.lower s) COLOR_MAP) as [c|] eqn:E.
  - exists c. split; [reflexivity|]. split.
    + apply map_get_some in E. apply (in_map snd) in E. exact E.
    + intros H. rewrite (map_get_none _ _ H) in E. discriminate.
  - exists blue_code. split; [reflexivity|]. split; [left; reflexivity|reflexivity].
Qed.

(** X7.  The lookup of a colour ignores the case of the name: a name
    gets the code of its lower-case form, and every spelling of a key
    of the table gets the code that the table gives to the key. *)
Theorem color_lookup_ignores_case :
  forall s,
    get_color_code (JStr s) = get_color_code (JStr (PyStr.lower s)) /\
    forall k v, In (k, v) COLOR_MAP -> PyStr.lower s = k -> get_color_code (JStr s) = Ok v.
Proof.
  intros s. split.
  - unfold get_color_code. rewrite lower_idempotent. reflexivity.
  - intros k v Hin Hk. unfold get_color_code. rewrite Hk.
    unfold COLOR_MAP in Hin. simpl in Hin.
    repeat (destruct Hin as [Hin|Hin]; [inversion Hin; subst; reflexivity|]).
    contradiction.
Qed.

(** ** The entry point *)

Lemma emitter_result (w : world) (timestamps : list marker) (path : string) (fps : num)
    (sequence_name : option string) (width height : Z) (r : emitted) :
  create_premiere_xml w timestamps path fps sequence_name width height = Ok r ->
  (returned r = true /\ can_write w path = true /\ exists root, written r = Some (path, root)) \/
  (returned r = false /\ written r = None).
Proof.
  unfold create_premiere_xml. destruct timestamps as [|first others].
  - intros E. inversion E. right. split; reflexivity.
  - destruct (build_tree w first others fps sequence_name width height) as [root|];
      cbn [bind]; [|discriminate].
    destruct (serialize root) as [document|]; cbn [bind]; [|discriminate].
    destruct (can_write w path) eqn:Hw; intros E; inversion E; [left|right].
    + split; [reflexivity|]. split; [reflexivity|]. exists document. reflexivity.
    + split; reflexivity.
Qed.

Ltac main_cases Hp Hq Hc :=
  unfold main;
  destruct (parse_timestamps _) as [[?metadata [|?t ?ts]]|] eqn:Hp;
  [ | match goal with
      | |- context [match ?x with Ok _ => _ | Raise _ => _ end] =>
        destruct x as [[?fps ?output_file]|?e] eqn:Hq;
        [ destruct (create_premiere_xml _ _ _ _ _ _ _) as [?r|?e] eqn:Hc | ]
      end | ].


Lemma map_result_ok {A B : Type} (f : A -> result B) (l : list A) (bs : list B) :
  map_result f l = Ok bs -> Forall (fun a => exists b, f a = Ok b) l.
Proof.
  revert bs. induction l as [|a l IH]; intros bs H; [constructor|].
  cbn [map_result] in H. destruct (f a) as [b|] eqn:Ha; cbn [bind] in H; [|discriminate].
  destruct (map_result f l) as [bs'|]; cbn [bind] in H; [|discriminate].
  constructor; [exists b; assumption|]. apply (IH bs'). reflexivity.
Qed.

Lemma map_result_raises {A B : Type} (f : A -> result B) (l : list A) (a : A) (e : exn) :
  In a l -> f a = Raise e -> exists e', map_result f l = Raise e'.
Proof.
  intros Hin Ha. destruct (map_result f l) as [bs|e'] eqn:E; [|eauto].
  apply map_result_ok in E. rewrite Forall_forall in E.
  destruct (E a Hin) as [b Hb]. congruence.
Qed.

(** X9.  The emitter is called with what the earlier stages
    produced and with nothing else: the markers are the list that
    the parser returned, unchanged and not empty, the rate is the
    effective rate, the path is the output path, and every line of
    the preview was printed without an exception. *)
Theorem emitter_gets_parsed_markers :
  forall w (args : arguments) file timestamps p fps,
    emitter_call (main w args file) = Some (timestamps, p, fps) ->
    exists metadata,
      parse_timestamps file = Some (metadata, timestamps) /\
      timestamps <> [] /\
      effective_fps args metadata = Ok fps /\
      output_path w args metadata = Ok p /\
      Forall (fun t => exists u, preview_line t = Ok u) timestamps.
Proof.
  intros w args file timestamps p fps. main_cases Hp Hq Hc; cbn [emitter_call];
    try discriminate; intros E; inversion E; subst; exists metadata;
    (split; [reflexivity|]; split; [discriminate|]);
    destruct (effective_fps args metadata) as [fps'|]; cbn [bind] in Hq; try discriminate;
    destruct (output_path w args metadata) as [o|]; cbn [bind] in Hq; try discriminate;
    destruct (map_result preview_line (t :: ts)) as [us|] eqn:Hu; cbn [bind] in Hq;
    try discriminate; inversion Hq; subst;
    (split; [reflexivity|]; split; [reflexivity|]); apply (map_result_ok _ _ _ Hu).
Qed.

Lemma emitter_gets_parsed_markers_witness :
  exists metadata,
    parse_timestamps (Some mixed_file) = Some (metadata, file_markers mixed_file) /\
    file_markers mixed_file <> [] /\
    effective_fps (default_arguments (NInt 60)) metadata = Ok (NInt 60) /\
    output_path bare_world (default_arguments (NInt 60)) metadata = Ok "in_markers.xml" /\
    Forall (fun t => exists u, preview_line t = Ok u) (file_markers mixed_file).
Proof.
  exact (emitter_gets_parsed_markers bare_world (default_arguments (NInt 60)) (Some mixed_file)
           (file_markers mixed_file) "in_markers.xml" (NInt 60) eq_refl).
Defined.

Lemma has_both_object (kv : list (string * json)) (k1 k2 : string) :
  has_both (JObj kv) k1 k2 =
  Ok (match Py.dict_get k1 kv, Py.dict_get k2 kv with
      | Some _, Some _ => true
      | _, _ => false
      end).
Proof.
  unfold has_both. destruct kv as [|[k v] kv]; [reflexivity|].
  cbn [Py.truthy negb Py.contains bind].
  destruct (Py.dict_get k1 ((k, v) :: kv)); cbn [negb]; [|reflexivity].
  destruct (Py.dict_get k2 ((k, v) :: kv)); reflexivity.
Qed.

Lemma truediv_by_zero (n d : json) :
  is_float_convertible n = true -> is_zero_number d = true ->
  truediv n d = Raise ZeroDivisionError.
Proof.
  unfold is_float_convertible, truediv. intros Hn Hd.
  destruct (as_num n) as [a|] eqn:Ha; [|discriminate]. cbn [bind].
  destruct (as_float a) as [fa|] eqn:Hfa; [|discriminate].
  destruct d as [|b|z|f|s|l|kv]; try discriminate; cbn [is_zero_number] in Hd.
  - destruct b; [discriminate|]. cbn [as_num bind].
    destruct a as [za|fa']; [reflexivity|]. cbn [bind as_float] in *. reflexivity.
  - apply Z.eqb_eq in Hd. subst z. cbn [as_num bind].
    destruct a as [za|fa']; [reflexivity|]. cbn [bind as_float] in *. reflexivity.
  - cbn [as_num bind]. destruct f; try discriminate.
    destruct a as [za|fa']; reflexivity.
Qed.

(** X10.  A metadata record whose [fps_den] is zero (0, 0.0 or
    false) beside a numeric [fps_num] makes the program end on an
    uncaught ZeroDivisionError as soon as one marker was parsed: the
    rate of the command line is not taken instead, the emitter is
    not called and nothing is written. *)
Theorem zero_denominator_crashes :
  forall w (args : arguments) file kv n d t ts,
    parse_timestamps file = Some (JObj kv, t :: ts) ->
    Py.dict_get "fps_num" kv = Some n ->
    Py.dict_get "fps_den" kv = Some d ->
    is_float_convertible n = true ->
    is_zero_number d = true ->
    main w args file
    = {| ended := Uncaught ZeroDivisionError; emitter_call := None; output := None |}.
Proof.
  intros w args file kv n d t ts Hp Hn Hd Cn Zd. unfold main. rewrite Hp.
  unfold effective_fps. rewrite has_both_object, Hn, Hd. cbn [bind Py.subscript].
  rewrite Hn, Hd. cbn [bind]. rewrite (truediv_by_zero n d Cn Zd). reflexivity.
Qed.

Lemma zero_denominator_crashes_witness :
  main bare_world (default_arguments (NInt 60)) zero_denominator_file
  = {| ended := Uncaught ZeroDivisionError; emitter_call := None; output := None |}.
Proof.
  exact (zero_denominator_crashes bare_world (default_arguments (NInt 60)) zero_denominator_file
           [("fps_num", JInt 30); ("fps_den", JInt 0)] (JInt 30) (JInt 0) (plain_marker 0) []
           eq_refl eq_refl eq_refl eq_refl eq_refl).
Defined.

(** X11.  When the metadata lacks [fps_num] or [fps_den], the rate
    handed to the emitter is the one of the command line; when it
    has both as integers, the denominator is not zero (the program
    would have stopped), the rate handed over is the float nearest
    to their quotient and the one of the command line is not used. *)
Theorem rate_handed_to_emitter :
  forall w (args : arguments) file kv timestamps timestamps' p fps,
    parse_timestamps file = Some (JObj kv, timestamps) ->
    emitter_call (main w args file) = Some (timestamps', p, fps) ->
    ((Py.dict_get "fps_num" kv = None \/ Py.dict_get "fps_den" kv = None) ->
     fps = arg_fps args) /\
    (forall n d,
       Py.dict_get "fps_num" kv = Some (JInt n) ->
       Py.dict_get "fps_den" kv = Some (JInt d) ->
       d <> 0 /\ exists q, PyFloat.int_truediv n d = Ok q /\ fps = NFloat q).
Proof.
  intros w args file kv timestamps timestamps' p fps Hp. unfold main. rewrite Hp.
  destruct timestamps as [|t ts]; [discriminate|].
  destruct (effective_fps args (JObj kv)) as [fps'|] eqn:Hf; cbn [bind]; [|discriminate].
  destruct (output_path w args (JObj kv)); cbn [bind]; [|discriminate].
  destruct (map_result preview_line (t :: ts)); cbn [bind]; [|discriminate].
  assert (Hcall : Some (t :: ts, a, fps') = Some (timestamps', p, fps) -> fps' = fps)
    by (intros E; inversion E; reflexivity).
  intros E.
  assert (Hfps : fps' = fps).
  { destruct (create_premiere_xml _ _ _ _ _ _ _); cbn [emitter_call] in E; auto. }
  subst fps'. clear E Hcall.
  unfold effective_fps in Hf. rewrite has_both_object in Hf. split.
  - intros [Hn|Hd].
    + rewrite Hn in Hf. cbn [bind] in Hf. congruence.
    + rewrite Hd in Hf. destruct (Py.dict_get "fps_num" kv); cbn [bind] in Hf; congruence.
  - intros n d Hn Hd. rewrite Hn, Hd in Hf. cbn [bind Py.subscript] in Hf.
    rewrite Hn, Hd in Hf. cbn [bind truediv as_num] in Hf.
    destruct (PyFloat.int_truediv n d) as [q|] eqn:Hq; cbn [bind] in Hf; [|discriminate].
    split.
    + intros ->. destruct n; discriminate.
    + exists q. split; [reflexivity|]. congruence.
Qed.

Lemma rate_handed_to_emitter_witness :
  ((Py.dict_get "fps_num" [("fps_num", JInt 30000); ("fps_den", JInt 1001)] = None \/
    Py.dict_get "fps_den" [("fps_num", JInt 30000); ("fps_den", JInt 1001)] = None) ->
   NFloat fps_30000_1001 = arg_fps (default_arguments (NInt 60))) /\
  (forall n d,
     Py.dict_get "fps_num" [("fps_num", JInt 30000); ("fps_den", JInt 1001)] = Some (JInt n) ->
     Py.dict_get "fps_den" [("fps_num", JInt 30000); ("fps_den", JInt 1001)] = Some (JInt d) ->
     d <> 0 /\ exists q, PyFloat.int_truediv n d = Ok q /\ NFloat fps_30000_1001 = NFloat q).
Proof.
  exact (rate_handed_to_emitter bare_world (default_arguments (NInt 60)) ntsc_metadata_file
           [("fps_num", JInt 30000); ("fps_den", JInt 1001)] [plain_marker 0] [plain_marker 0]
           "in_markers.xml" (NFloat fps_30000_1001) eq_refl eq_refl).
Defined.

Lemma preview_refused (t : marker) :
  refuses_padding (comment t) = true -> exists e, preview_line t = Raise e.
Proof.
  intros H. unfold preview_line.
  destruct (PyFloat.of_int (timestamp_ms t)); cbn [bind]; [|eauto].
  destruct (comment t); try discriminate; cbn [format_ok bind]; eauto.
Qed.

(** X12.  A marker whose comment is [null], a list or an object
    stops the program while the preview is printed: the run ends on
    an uncaught exception before the emitter is called, and nothing
    is written, whatever the other markers are. *)
Theorem unpaddable_comment_crashes_preview :
  forall w (args : arguments) file metadata timestamps t,
    parse_timestamps file = Some (metadata, timestamps) ->
    In t timestamps ->
    refuses_padding (comment t) = true ->
    exists e,
      main w args file = {| ended := Uncaught e; emitter_call := None; output := None |}.
Proof.
  intros w args file metadata timestamps t Hp Hin Hc. unfold main. rewrite Hp.
  destruct timestamps as [|t0 ts]; [contradiction|].
  destruct (effective_fps args metadata) as [fps|e]; cbn [bind]; [|eauto].
  destruct (output_path w args metadata) as [o|e]; cbn [bind]; [|eauto].
  destruct (preview_refused t Hc) as [e He].
  destruct (map_result_raises preview_line (t0 :: ts) t e Hin He) as [e' ->].
  cbn [bind]. eauto.
Qed.

Lemma unpaddable_comment_crashes_preview_witness :
  exists e,
    main bare_world (default_arguments (NInt 60)) null_comment_file
    = {| ended := Uncaught e; emitter_call := None; output := None |}.
Proof.
  exact (unpaddable_comment_crashes_preview bare_world (default_arguments (NInt 60))
           null_comment_file (JObj [])
           [ {| timestamp_ms := 0; comment := JNull; name := JStr ""; color := JStr "blue" |} ]
           {| timestamp_ms := 0; comment := JNull; name := JStr ""; color := JStr "blue" |}
           eq_refl (or_introl eq_refl) eq_refl).
Defined.

(** ** The name of the output file *)

Lemma append_length (a b : string) :
  String.length (String.append a b) = (String.length a + String.length b)%nat.
Proof.
  induction a as [|c a IH]; simpl; [reflexivity|]. rewrite IH. reflexivity.
Qed.

Lemma append_assoc (a b c : string) :
  String.append (String.append a b) c = String.append a (String.append b c).
Proof.
  induction a as [|x a IH]; simpl; [reflexivity|]. rewrite IH. reflexivity.
Qed.

Lemma substring_append_skip (a b : string) (n : nat) :
  String.substring (String.length a) n (String.append a b) = String.substring 0 n b.
Proof.
  induction a as [|c a IH]; simpl; [reflexivity|]. exact IH.
Qed.

Lemma substring_whole (s : string) : String.substring 0 (String.length s) s = s.
Proof.
  induction s as [|c s IH]; simpl; [reflexivity|]. rewrite IH. reflexivity.
Qed.

Lemma endswith_suffix (a p : string) : PyStr.endswith (String.append a p) p = true.
Proof.
  unfold PyStr.endswith. rewrite append_length.
  replace (String.length a + String.length p - String.length p)%nat with (String.length a)
    by (symmetry; apply Nat.add_sub).
  rewrite substring_append_skip, substring_whole, String.eqb_refl, andb_true_r.
  apply Nat.leb_le. apply Nat.le_add_l.
Qed.

Lemma join_keeps_name (d x : string) : exists pre, PyPath.join d x = String.append pre x.
Proof.
  unfold PyPath.join. destruct (PyStr.startswith x "/").
  - exists EmptyString. reflexivity.
  - destruct (orb (String.eqb d "") (PyStr.endswith d "/")).
    + exists d. reflexivity.
    + exists (String.append d "/"). rewrite append_assoc. reflexivity.
Qed.

Lemma or_fallback_name (args : arguments) :
  explicit_output args = Some (or_fallback args (arg_output args)) \/
  PyStr.endswith (or_fallback args (arg_output args)) markers_suffix = true.
Proof.
  unfold explicit_output, or_fallback. destruct (arg_output args) as [o|].
  - destruct (String.eqb o ""); [right; apply endswith_suffix|left; reflexivity].
  - right. apply endswith_suffix.
Qed.

(** X13.  The path of the output is the output argument as it was
    given, or a name that ends with [_markers.xml]: the names that
    the program makes up (from the video found, or from the input
    file) all carry that suffix. *)
Theorem made_up_output_name_has_suffix :
  forall w args metadata p,
    output_path w args metadata = Ok p ->
    explicit_output args = Some p \/ PyStr.endswith p markers_suffix = true.
Proof.
  intros w args metadata p. unfold output_path.
  destruct (has_both metadata "recording_path" "timestamp") as [[|]|]; cbn [bind];
    try discriminate.
  - destruct (Py.subscript metadata "recording_path") as [d|]; cbn [bind]; [|discriminate].
    destruct (Py.subscript metadata "timestamp") as [t|]; cbn [bind]; [|discriminate].
    destruct (find_latest_video_file w d t) as [[v|]|]; cbn [bind]; try discriminate.
    + destruct (String.eqb v "").
      * intros E. inversion E. apply or_fallback_name.
      * destruct d as [| | | |d| |]; try discriminate. intros E. inversion E. right.
        destruct (join_keeps_name d
                    (String.append (fst (PyPath.splitext (PyPath.basename v))) markers_suffix))
          as [pre ->].
        rewrite <- append_assoc. apply endswith_suffix.
    + intros E. inversion E. apply or_fallback_name.
  - intros E. inversion E. apply or_fallback_name.
Qed.

Lemma made_up_output_name_has_suffix_witness :
  explicit_output (arguments_with_output (Some "out.xml")) = Some "/rec/take1_markers.xml" \/
  PyStr.endswith "/rec/take1_markers.xml" markers_suffix = true.
Proof.
  exact (made_up_output_name_has_suffix studio_world (arguments_with_output (Some "out.xml"))
           studio_metadata "/rec/take1_markers.xml" eq_refl).
Defined.

(** ** The resolver *)

Lemma scan_in (w : world) (d : string) (names : list string) :
  forall files path mtime,
    scan w d names = Some files ->
    In (path, mtime) files ->
    exists filename,
      In filename names /\ is_video filename = true /\
      path = PyPath.join d filename /\ getmtime w path = Some mtime.
Proof.
  induction names as [|filename names IH]; intros files path mtime Hs Hin.
  - inversion Hs; subst. contradiction.
  - cbn [scan] in Hs. destruct (is_video filename) eqn:Hv.
    + destruct (getmtime w (PyPath.join d filename)) as [m|] eqn:Hm; [|discriminate].
      destruct (scan w d names) as [l|]; [|discriminate].
      inversion Hs; subst. destruct Hin as [E|Hin].
      * inversion E; subst. exists filename. repeat split; try assumption. left. reflexivity.
      * destruct (IH l path mtime eq_refl Hin) as [f [H1 H2]].
        exists f. split; [right; assumption|assumption].
    + destruct (IH files path mtime Hs Hin) as [f [H1 H2]].
      exists f. split; [right; assumption|assumption].
Qed.

Lemma scan_none (w : world) (d : string) (names : list string) :
  scan w d names = None <-> unreadable_video w d names.
Proof.
  unfold unreadable_video. induction names as [|filename names IH]; cbn [scan].
  - split; [discriminate|]. intros [f [[] _]].
  - destruct (is_video filename) eqn:Hv.
    + destruct (getmtime w (PyPath.join d filename)) as [m|] eqn:Hm.
      * destruct (scan w d names) as [l|].
        -- split; [discriminate|]. intros [f [[<-|Hin] [H1 H2]]]; [congruence|].
           assert (E : Some l = None) by (apply (proj2 IH); eauto). discriminate.
        -- split; [|reflexivity]. intros _.
           destruct (proj1 IH eq_refl) as [f [H1 H2]]. exists f. split; [right|]; assumption.
      * split; [|reflexivity]. intros _. exists filename. split; [left; reflexivity|]. auto.
    + rewrite IH. split.
      * intros [f [H1 H2]]. exists f. split; [right|]; assumption.
      * intros [f [[<-|Hin] [H1 H2]]]; [congruence|eauto].
Qed.

Lemma scan_empty (w : world) (d : string) (names : list string) :
  scan w d names = Some [] <-> forallb (fun f => negb (is_video f)) names = true.
Proof.
  induction names as [|filename names IH]; cbn [scan forallb].
  - split; reflexivity.
  - destruct (is_video filename); cbn [negb andb].
    + split; [|discriminate].
      destruct (getmtime w (PyPath.join d filename)); [|discriminate].
      destruct (scan w d names); discriminate.
    + exact IH.
Qed.

Lemma choose_some (files : list (string * spec_float)) (metadata_time : option spec_float) :
  files <> [] ->
  exists path mtime, choose files metadata_time = Some path /\ In (path, mtime) files.
Proof.
  intros Hne. unfold choose.
  destruct files as [|f0 files0] eqn:Hfiles; [congruence|]. rewrite <- Hfiles in *.
  destruct (sort_desc_nonempty files Hne) as [[hp hm] [t Hsort]].
  assert (Hh : In (hp, hm) files) by (apply sort_desc_in; rewrite Hsort; left; reflexivity).
  rewrite Hsort. cbn [hd_error option_map fst]. rewrite <- Hsort.
  destruct metadata_time as [epoch|]; [|eauto].
  destruct (find (fun x => within_tolerance epoch (snd x)) (sort_desc files))
    as [[path mtime]|] eqn:Hfind; [|eauto].
  exists path, mtime. split; [reflexivity|].
  apply find_some in Hfind. apply sort_desc_in. apply Hfind.
Qed.

Lemma choose_none (files : list (string * spec_float)) (metadata_time : option spec_float) :
  choose files metadata_time = None <-> files = [].
Proof.
  split.
  - intros H. destruct files as [|f files]; [reflexivity|].
    destruct (choose_some (f :: files) metadata_time ltac:(discriminate)) as [p [m [E _]]].
    congruence.
  - intros ->. reflexivity.
Qed.

(** X14.  A path that the resolver returns for a directory is the
    directory joined with a name of its listing that has one of the
    video extensions (whatever the case of its letters) and whose
    modification time could be read; the directory is not the empty
    string and exists.  A file without a video extension is never
    returned. *)
Theorem resolver_returns_listed_video :
  forall w d stamp path,
    find_latest_video_file w (JStr d) stamp = Ok (Some path) ->
    d <> "" /\ path_exists w d = true /\
    exists names filename mtime,
      listdir w d = Some names /\
      In filename names /\
      is_video filename = true /\
      path = PyPath.join d filename /\
      getmtime w path = Some mtime.
Proof.
  intros w d stamp path. unfold find_latest_video_file. cbn [Py.truthy].
  destruct (String.eqb_spec d "") as [->|Hd]; cbn [negb]; [discriminate|].
  destruct (path_exists w d) eqn:He; cbn [negb]; [|discriminate].
  destruct (listdir w d) as [names|] eqn:Hl; [|discriminate].
  destruct (scan w d names) as [files|] eqn:Hs; [|discriminate].
  destruct files as [|f files]; [discriminate|].
  intros E. split; [assumption|]. split; [reflexivity|].
  assert (Hc : exists metadata_time, choose (f :: files) metadata_time = Some path).
  { destruct (match stamp with JStr s => strptime w s | _ => None end) as [t|].
    - destruct (timestamp w t) as [epoch|]; cbn [bind] in E; [|discriminate].
      exists (Some epoch). congruence.
    - exists None. congruence. }
  destruct Hc as [metadata_time Hc].
  destruct (choose_some (f :: files) metadata_time ltac:(discriminate)) as [p [m [Hp Hin]]].
  rewrite Hp in Hc. inversion Hc; subst p.
  destruct (scan_in w d names _ path m Hs Hin) as [filename [H1 [H2 [H3 H4]]]].
  exists names, filename, m. auto.
Qed.

Lemma resolver_returns_listed_video_witness :
  "/rec" <> "" /\ path_exists studio_world "/rec" = true /\
  exists names filename mtime,
    listdir studio_world "/rec" = Some names /\
    In filename names /\
    is_video filename = true /\
    "/rec/take1.mp4" = PyPath.join "/rec" filename /\
    getmtime studio_world "/rec/take1.mp4" = Some mtime.
Proof.
  exact (resolver_returns_listed_video studio_world "/rec" (JStr "2024-01-01 12:00:00")
           "/rec/take1.mp4" eq_refl).
Defined.

(** X15.  For a directory given as a string the resolver returns
    [None] in these cases and in no other: the string is empty, the
    directory does not exist, its listing raises, the modification
    time of one of its videos cannot be read, or none of its names
    has a video extension.  The timestamp plays no part in it. *)
Theorem resolver_finds_nothing :
  forall w d stamp,
    find_latest_video_file w (JStr d) stamp = Ok None <->
    d = "" \/ path_exists w d = false \/ listdir w d = None \/
    exists names,
      listdir w d = Some names /\
      (unreadable_video w d names \/
       forallb (fun f => negb (is_video f)) names = true).
Proof.
  intros w d stamp. unfold find_latest_video_file. cbn [Py.truthy].
  destruct (String.eqb_spec d "") as [->|Hd]; cbn [negb].
  { split; auto. }
  destruct (path_exists w d) eqn:He; cbn [negb].
  2: { split; auto. }
  destruct (listdir w d) as [names|] eqn:Hl.
  2: { split; auto. }
  destruct (scan w d names) as [files|] eqn:Hs.
  2: { split; [|reflexivity]. intros _. right. right. right.
       exists names. split; [reflexivity|]. left.
       apply (proj1 (scan_none w d names)). assumption. }
  destruct files as [|f files].
  { split; [|reflexivity]. intros _. right. right. right.
    exists names. split; [reflexivity|]. right.
    apply (proj1 (scan_empty w d names)). assumption. }
  split.
  - intros E. exfalso.
    assert (Hc : exists metadata_time, choose (f :: files) metadata_time = None).
    { destruct (match stamp with JStr s => strptime w s | _ => None end) as [t|].
      - destruct (timestamp w t) as [epoch|]; cbn [bind] in E; [|discriminate].
        exists (Some epoch). congruence.
      - exists None. congruence. }
    destruct Hc as [metadata_time Hc]. apply choose_none in Hc. discriminate.
  - intros [H|[H|[H|[names' [Hn H]]]]]; try congruence.
    inversion Hn; subst names'. destruct H as [H|H].
    + apply (proj2 (scan_none w d names)) in H. congruence.
    + apply (proj2 (scan_empty w d names)) in H. rewrite H in Hs. discriminate.
Qed.

(** X16.  When the timestamp of the metadata cannot be used (it is
    not a string, or it does not have the format), the resolver
    returns one of the videos found that no other is more recent
    than, the modification times being numbers. *)
Theorem resolver_without_timestamp :
  forall w d stamp names files,
    d <> "" ->
    path_exists w d = true ->
    unusable_timestamp w stamp ->
    listdir w d = Some names ->
    scan w d names = Some files ->
    files <> [] ->
    times_are_numbers files ->
    exists path mtime,
      find_latest_video_file w (JStr d) stamp = Ok (Some path) /\
      In (path, mtime) files /\
      forall x, In x files -> PyFloat.ltb mtime (snd x) = false.
Proof.
  intros w d stamp names files Hd He Hu Hl Hs Hne Hn.
  destruct (sort_desc_nonempty files Hne) as [[hp hm] [t Hsort]].
  exists hp, hm. split; [|split].
  - unfold find_latest_video_file. cbn [Py.truthy].
    destruct (String.eqb_spec d ""); [contradiction|]. cbn [negb].
    rewrite He, Hl, Hs. cbn [negb].
    assert (Ht : match stamp with JStr s => strptime w s | _ => None end = None).
    { destruct stamp; try reflexivity. exact Hu. }
    rewrite Ht. destruct files as [|f files']; [congruence|].
    unfold choose. rewrite Hsort. reflexivity.
  - apply sort_desc_in. rewrite Hsort. left. reflexivity.
  - intros x Hx. pose proof (sort_desc_descending files Hn) as Hdesc. rewrite Hsort in Hdesc.
    apply (descending_head (hp, hm) t Hdesc). rewrite <- Hsort. apply sort_desc_in. assumption.
Qed.

Lemma resolver_without_timestamp_witness :
  exists path mtime,
    find_latest_video_file studio_world (JStr "/rec") (JStr "yesterday") = Ok (Some path) /\
    In (path, mtime) [close_file; far_file] /\
    forall x, In x [close_file; far_file] -> PyFloat.ltb mtime (snd x) = false.
Proof.
  refine (resolver_without_timestamp studio_world "/rec" (JStr "yesterday")
            ["take1.mp4"; "notes.txt"; "take2.MKV"] [close_file; far_file]
            _ eq_refl eq_refl eq_refl eq_refl _ _).
  - discriminate.
  - discriminate.
  - repeat constructor.
Defined.

(** ** Frames of whole seconds *)

Lemma coarsen_exact (n N : Z) : 0 <= n -> coarsen n (4 * (N * 2 ^ n)) = 4 * N.
Proof.
  intros Hn. unfold coarsen. rewrite pow2_succ by assumption.
  pose proof (pow2_pos n Hn) as Hp.
  replace (4 * (N * 2 ^ n)) with (2 * N * (2 * 2 ^ n)) by ring.
  rewrite Z.div_mul by lia. rewrite Z.mod_mul by lia.
  change (0 =? 0) with true. cbv iota. ring.
Qed.

Lemma small_digits (n : Z) : 0 < n < 2 ^ 53 -> 1 <= Zdigits2 n <= 53.
Proof.
  intros [Hp Hb]. split.
  - pose proof (digits_pos n Hp). lia.
  - apply digits_le; lia.
Qed.

Lemma canonical_mantissa (n : Z) :
  0 < n < 2 ^ 53 -> 0 < n * 2 ^ (53 - Zdigits2 n) < 2 ^ 53.
Proof.
  intros Hn. pose proof (small_digits n Hn) as Hd.
  pose proof (pow2_pos (53 - Zdigits2 n) ltac:(lia)) as Hp.
  pose proof (digits_bounds n ltac:(lia)) as [_ Hu].
  split; [nia|].
  replace (2 ^ 53) with (2 ^ Zdigits2 n * 2 ^ (53 - Zdigits2 n)).
  - apply Z.mul_lt_mono_pos_r; assumption.
  - rewrite <- pow2_split by lia. f_equal. lia.
Qed.

(** Rounding a number that is an integer below 2^53 gives that
    integer, at whatever exponent it was handed over. *)
Lemma round_at_integer (n e : Z) :
  0 < n < 2 ^ 53 -> e <= 0 -> fits (4 * (n * 2 ^ (- e))) e ->
  round_at (4 * (n * 2 ^ (- e))) e = canonical n.
Proof.
  intros Hn He Hf. pose proof (small_digits n Hn) as Hd.
  pose proof (pow2_pos (- e) ltac:(lia)) as Hp.
  assert (Hq : 4 * (n * 2 ^ (- e)) / 4 = n * 2 ^ (- e))
    by (rewrite Z.mul_comm; apply Z.div_mul; lia).
  assert (Ht : target (4 * (n * 2 ^ (- e))) e = Zdigits2 n - 53).
  { rewrite target_unfold, Hq, digits_mul_pow2 by lia. lia. }
  rewrite round_at_pack; [|nia|assumption].
  unfold rounded. rewrite Ht. unfold fits in Hf. rewrite Ht in Hf.
  replace (n * 2 ^ (- e))
    with (n * 2 ^ (53 - Zdigits2 n) * 2 ^ (Zdigits2 n - 53 - e)).
  2:{ rewrite <- Z.mul_assoc, <- pow2_split by lia. do 2 f_equal. lia. }
  rewrite coarsen_exact by lia. rewrite round_code_exact.
  pose proof (canonical_mantissa n Hn) as Hm.
  unfold pack, canonical.
  destruct (Z.eqb_spec (n * 2 ^ (53 - Zdigits2 n)) 0); [lia|].
  destruct (Z.eqb_spec (n * 2 ^ (53 - Zdigits2 n)) (2 ^ 53)); [lia|].
  destruct (Z.leb_spec (Zdigits2 n - 53) 971); [reflexivity|lia].
Qed.

Lemma of_Z_integer (n : Z) : 0 < n < 2 ^ 53 -> PyFloat.of_Z n = canonical n.
Proof.
  intros Hn. pose proof (small_digits n Hn) as Hd.
  pose proof (of_Z_fits n ltac:(lia)) as Hf.
  rewrite of_Z_code by lia. rewrite qcode_1 in *.
  apply round_at_integer; try assumption. unfold int_exponent. lia.
Qed.

Lemma canonical_valid (n : Z) : 0 < n < 2 ^ 53 -> valid (canonical n).
Proof.
  intros Hn. rewrite <- of_Z_integer by assumption. apply of_Z_valid. lia.
Qed.

Lemma canonical_to_int (n : Z) : 0 < n < 2 ^ 53 -> PyFloat.to_int (canonical n) = Ok n.
Proof.
  intros Hn. pose proof (small_digits n Hn) as Hd.
  pose proof (canonical_mantissa n Hn) as Hm.
  unfold canonical, PyFloat.to_int. f_equal. rewrite trunc_floor.
  rewrite Z2Pos.id by lia.
  destruct (Z.leb_spec 0 (Zdigits2 n - 53)).
  - replace (Zdigits2 n - 53) with 0 by lia. replace (53 - Zdigits2 n) with 0 by lia.
    rewrite Z.pow_0_r. lia.
  - replace (- (Zdigits2 n - 53)) with (53 - Zdigits2 n) by lia.
    apply Z.div_mul. pose proof (pow2_pos (53 - Zdigits2 n) ltac:(lia)). lia.
Qed.

Lemma canonical_digits (n : Z) :
  0 < n < 2 ^ 53 -> Zdigits2 (n * 2 ^ (53 - Zdigits2 n)) = 53.
Proof.
  intros Hn. pose proof (small_digits n Hn) as Hd.
  rewrite digits_mul_pow2 by lia. lia.
Qed.

(** A whole number of thousands divided by 1000.0 *)
Lemma div_1000_integer (k : Z) :
  0 < k -> 1000 * k < 2 ^ 53 ->
  SFdiv PyFloat.prec PyFloat.emax (canonical (1000 * k)) PyFloat.c1000 = canonical k.
Proof.
  intros Hk Hb.
  assert (Hn : 0 < 1000 * k < 2 ^ 53) by lia.
  assert (Hk' : 0 < k < 2 ^ 53) by lia.
  pose proof (small_digits _ Hn) as Hd. pose proof (canonical_mantissa _ Hn) as Hm.
  pose proof (canonical_valid _ Hn) as Hv.
  unfold canonical in Hv |- * at 1.
  set (D := Zdigits2 (1000 * k)) in *.
  set (mx := Z.to_pos (1000 * k * 2 ^ (53 - D))) in *.
  assert (Emx : Zpos mx = 1000 * k * 2 ^ (53 - D)) by (apply Z2Pos.id; lia).
  assert (Ede : div_exponent mx (D - 53) = D - 63).
  { unfold div_exponent. rewrite Emx. unfold D at 1. rewrite canonical_digits by assumption.
    fold D. lia. }
  pose proof (div_fits mx (D - 53) Hv) as Hf.
  rewrite div_code. rewrite Ede in *.
  replace (D - 53 + 43 - (D - 63)) with 53 in * by lia.
  assert (Eq : qcode (Zpos mx * 2 ^ 53) m1000 = 4 * (k * 2 ^ (- (D - 63)))).
  { rewrite Emx. replace (- (D - 63)) with (53 - D + 10) by lia.
    rewrite pow2_split by lia.
    replace (1000 * k * 2 ^ (53 - D) * 2 ^ 53)
      with (k * (2 ^ (53 - D) * 2 ^ 10) * (1000 * 2 ^ 43))
      by (change (2 ^ 53) with (2 ^ 10 * 2 ^ 43); ring).
    change m1000 with (1 * (1000 * 2 ^ 43)).
    rewrite qcode_scale by lia. apply qcode_1. }
  rewrite Eq in *. apply round_at_integer; [assumption|lia|assumption].
Qed.

Lemma mul_integers (k f : Z) :
  0 < k -> 0 < f -> k * f < 2 ^ 53 ->
  PyFloat.mul (canonical k) (canonical f) = canonical (k * f).
Proof.
  intros Hk Hf Hb.
  assert (Bk : 0 < k < 2 ^ 53) by nia.
  assert (Bf : 0 < f < 2 ^ 53) by nia.
  assert (Bkf : 0 < k * f < 2 ^ 53) by nia.
  pose proof (small_digits _ Bk) as Dk. pose proof (small_digits _ Bf) as Df.
  pose proof (canonical_mantissa _ Bk) as Mk. pose proof (canonical_mantissa _ Bf) as Mf.
  pose proof (mul_fits _ _ _ _ (canonical_valid _ Bk) (canonical_valid _ Bf)) as Hfit.
  unfold canonical at 1 2. rewrite mul_code. rewrite qcode_1 in *.
  rewrite !Z2Pos.id in * by lia.
  assert (E : k * 2 ^ (53 - Zdigits2 k) * (f * 2 ^ (53 - Zdigits2 f))
              = k * f * 2 ^ (- (Zdigits2 k - 53 + (Zdigits2 f - 53)))).
  { replace (- (Zdigits2 k - 53 + (Zdigits2 f - 53)))
      with (53 - Zdigits2 k + (53 - Zdigits2 f)) by lia.
    rewrite pow2_split by lia. ring. }
  rewrite E in *. apply round_at_integer; [assumption|lia|assumption].
Qed.

Lemma of_int_integer (n : Z) :
  0 <= n < 2 ^ 53 ->
  PyFloat.of_int n = Ok (if n =? 0 then S754_zero false else canonical n).
Proof.
  intros Hn. unfold PyFloat.of_int. destruct (Z.eqb_spec n 0) as [->|Hz]; [reflexivity|].
  rewrite of_Z_integer by lia. reflexivity.
Qed.

(** X17.  A whole number of seconds is converted without error at a
    rate that is a whole number, given as an int or as the float
    equal to it: for an offset of [k] seconds and a rate of [fps]
    frames per second, neither negative, with [1000 * k], [fps] and
    [k * fps] below 2^53, the frame is exactly [k * fps]. *)
Theorem whole_seconds_are_exact :
  forall k fps rate,
    0 <= k -> 1000 * k < 2 ^ 53 ->
    0 <= fps < 2 ^ 53 -> k * fps < 2 ^ 53 ->
    rate = NInt fps \/ rate = NFloat (PyFloat.of_Z fps) ->
    ms_to_frames (1000 * k) rate = Ok (k * fps).
Proof.
  intros k fps rate Hk Hb Hf Hkf Hr. unfold ms_to_frames.
  assert (Ef : as_float rate = Ok (if fps =? 0 then S754_zero false else canonical fps)).
  { destruct Hr as [-> | ->]; cbn [as_float]; [apply of_int_integer; assumption|].
    destruct (Z.eqb_spec fps 0) as [->|Hz]; [reflexivity|].
    rewrite of_Z_integer by lia. reflexivity. }
  rewrite (of_int_integer (1000 * k)) by lia. rewrite Ef.
  cbn [bind]. unfold PyFloat.truediv. change (PyFloat.is_zero PyFloat.c1000) with false.
  cbv iota. cbn [bind].
  destruct (Z.eqb_spec (1000 * k) 0) as [Ek|Ek].
  - assert (k = 0) by lia. subst k.
    change (SFdiv PyFloat.prec PyFloat.emax (S754_zero false) PyFloat.c1000)
      with (S754_zero false).
    destruct (Z.eqb_spec fps 0); reflexivity.
  - rewrite div_1000_integer by lia.
    destruct (Z.eqb_spec fps 0) as [->|Efps].
    + rewrite Z.mul_0_r. reflexivity.
    + rewrite mul_integers by lia. apply canonical_to_int. nia.
Qed.

Lemma whole_seconds_are_exact_witness :
  ms_to_frames (1000 * 7200) (NFloat (PyFloat.of_Z 30)) = Ok (7200 * 30).
Proof.
  apply (whole_seconds_are_exact 7200 30); try lia. right. reflexivity.
Defined.

(** X18.  A rate that is a whole number, given as an int or as the
    float equal to it, is written as it is: for [fps] from 0 to
    below 2^53 the time base is [fps] and the rate is not taken for
    an NTSC rate. *)
Theorem whole_rate_is_its_time_base :
  forall fps rate,
    0 <= fps < 2 ^ 53 ->
    rate = NInt fps \/ rate = NFloat (PyFloat.of_Z fps) ->
    is_ntsc rate = false /\ timebase_of rate = Ok fps.
Proof.
  intros fps rate Hf Hr.
  assert (Hn : is_ntsc rate = false).
  { destruct Hr as [-> | ->]; [reflexivity|].
    destruct (Z.eq_dec fps 0) as [->|Hz]; [reflexivity|].
    rewrite of_Z_integer by lia.
    destruct (is_ntsc (NFloat (canonical fps))) eqn:E; [|reflexivity]. exfalso.
    apply is_ntsc_listed in E. pose proof (canonical_to_int fps ltac:(lia)) as Ht.
    destruct E as [E|[E|E]];
      apply (f_equal (fun r => match r with NFloat f => f | NInt _ => S754_nan end)) in E;
      cbv beta iota in E; rewrite E in Ht; vm_compute in Ht; inversion Ht as [Hv];
      rewrite <- Hv in E; vm_compute in E; discriminate. }
  split; [assumption|]. unfold timebase_of. rewrite Hn. cbn [negb].
  destruct Hr as [-> | ->]; [reflexivity|]. cbn [int_of_num].
  destruct (Z.eq_dec fps 0) as [->|Hz]; [reflexivity|].
  rewrite of_Z_integer by lia. apply canonical_to_int. lia.
Qed.

Lemma whole_rate_is_its_time_base_witness :
  is_ntsc (NFloat (PyFloat.of_Z 30)) = false /\ timebase_of (NFloat (PyFloat.of_Z 30)) = Ok 30.
Proof.
  apply (whole_rate_is_its_time_base 30); [lia|]. right. reflexivity.
Defined.

(** ** The texts of the document *)

Lemma xml_chars_of_uint (u : Decimal.uint) : xml_chars (NilEmpty.string_of_uint u) = true.
Proof.
  induction u; simpl; try reflexivity; exact IHu.
Qed.

Lemma xml_chars_of_int (z : Z) : xml_chars (PyStr.of_int z) = true.
Proof.
  unfold PyStr.of_int, NilZero.string_of_int, NilZero.string_of_uint.
  destruct (Z.to_int z) as [u|u]; destruct u; try reflexivity;
    try apply (xml_chars_of_uint (Decimal.D0 u));
    try apply (xml_chars_of_uint (Decimal.D1 u));
    try apply (xml_chars_of_uint (Decimal.D2 u));
    try apply (xml_chars_of_uint (Decimal.D3 u));
    try apply (xml_chars_of_uint (Decimal.D4 u));
    try apply (xml_chars_of_uint (Decimal.D5 u));
    try apply (xml_chars_of_uint (Decimal.D6 u));
    try apply (xml_chars_of_uint (Decimal.D7 u));
    try apply (xml_chars_of_uint (Decimal.D8 u));
    try apply (xml_chars_of_uint (Decimal.D9 u)).
Qed.

Lemma color_code_in_table (s : string) :
  exists c, get_color_code (JStr s) = Ok c /\ In c (map snd COLOR_MAP).
Proof.
  unfold get_color_code. destruct (map_get (PyStr.lower s) COLOR_MAP) as [c|] eqn:E.
  - exists c. split; [reflexivity|]. apply map_get_some in E. apply (in_map snd) in E. exact E.
  - exists blue_code. split; [reflexivity|]. left. reflexivity.
Qed.

Lemma color_code_chars (c : json) (code : string) :
  get_color_code c = Ok code -> xml_chars code = true.
Proof.
  destruct c as [| | | |s| |]; try discriminate. intros H.
  destruct (color_code_in_table s) as [code' [E Hin]].
  assert (code' = code) by congruence. subst code'.
  unfold COLOR_MAP in Hin. simpl in Hin.
  repeat (destruct Hin as [<-|Hin]; [reflexivity|]). contradiction.
Qed.

Lemma marker_element_node (fps : num) (t : marker) (x : xml) :
  marker_element fps t = Ok x -> carries fps t x.
Proof.
  unfold marker_element, carries.
  destruct (ms_to_frames (timestamp_ms t) fps) as [frame|]; cbn [bind]; [|discriminate].
  destruct (get_color_code (color t)) as [code|]; cbn [bind]; [|discriminate].
  intros E. inversion E. exists frame, code. repeat split; reflexivity.
Qed.

Lemma markers_carried (fps : num) (l : list marker) :
  forall xs, map_result (marker_element fps) l = Ok xs -> Forall2 (carries fps) l xs.
Proof.
  induction l as [|t l IH]; cbn [map_result]; intros xs H.
  - inversion H. constructor.
  - destruct (marker_element fps t) as [x|] eqn:Hx; cbn [bind] in H; [|discriminate].
    destruct (map_result (marker_element fps) l) as [xs'|]; cbn [bind] in H; [|discriminate].
    inversion H; subst. constructor; [apply marker_element_node; assumption|auto].
Qed.

Lemma markers_built (fps : num) (l : list marker) :
  Forall (fun t => exists fr, ms_to_frames (timestamp_ms t) fps = Ok fr) l ->
  has_bad_color l = false ->
  exists xs, map_result (marker_element fps) l = Ok xs.
Proof.
  induction 1 as [|t l [fr Hfr] _ IH]; intros Hc; [exists []; reflexivity|].
  unfold has_bad_color in Hc. cbn [existsb] in Hc. apply orb_false_iff in Hc.
  destruct Hc as [Ht Hl]. destruct (IH Hl) as [xs Hxs].
  cbn [map_result]. unfold marker_element at 1. rewrite Hfr. cbn [bind].
  destruct (color t) as [| | | |s| |]; try discriminate.
  destruct (color_code_in_table s) as [code [-> _]]. cbn [bind]. rewrite Hxs. cbn [bind].
  eauto.
Qed.

Section Texts.

Variable P : json -> bool.
Hypothesis P_null : P JNull = true.
Hypothesis P_str : forall s, xml_chars s = true -> P (JStr s) = true.

Lemma all_texts_element (t : string) (a : list (string * string)) (x : json) (c : list xml) :
  all_texts P (Element t a x c) = andb (P x) (forallb (all_texts P) c).
Proof.
  unfold all_texts. cbn [texts forallb]. f_equal.
  induction c as [|y c IH]; cbn [flat_map forallb]; [reflexivity|].
  rewrite forallb_app, IH. reflexivity.
Qed.

Lemma all_texts_leaf (t s : string) : all_texts P (leaf t s) = P (JStr s).
Proof.
  unfold leaf. rewrite all_texts_element. apply andb_true_r.
Qed.

Lemma all_texts_const (t s : string) : xml_chars s = true -> all_texts P (leaf t s) = true.
Proof.
  intros H. rewrite all_texts_leaf. apply P_str, H.
Qed.

Lemma all_texts_int (t : string) (z : Z) : all_texts P (leaf t (PyStr.of_int z)) = true.
Proof.
  apply all_texts_const, xml_chars_of_int.
Qed.

Lemma all_texts_node (t : string) (a : list (string * string)) (c : list xml) :
  all_texts P (Element t a JNull c) = forallb (all_texts P) c.
Proof.
  rewrite all_texts_element, P_null. reflexivity.
Qed.

Ltac texts_step :=
  repeat first
    [ rewrite all_texts_int
    | rewrite all_texts_const by reflexivity
    | rewrite all_texts_node
    | progress cbn [forallb andb] ].

Lemma texts_rate (timebase : Z) (ntsc : bool) : all_texts P (rate_element timebase ntsc) = true.
Proof.
  unfold rate_element, node. destruct ntsc; texts_step; reflexivity.
Qed.

Lemma texts_matte : all_texts P color_matte_effect = true.
Proof.
  unfold color_matte_effect, node. texts_step. reflexivity.
Qed.

Lemma texts_opacity : all_texts P opacity_filter = true.
Proof.
  unfold opacity_filter, node. texts_step. reflexivity.
Qed.

Lemma texts_audio : all_texts P audio_element = true.
Proof.
  unfold audio_element, audio_track, node. texts_step. reflexivity.
Qed.

Lemma texts_timecode (timebase : Z) (ntsc : bool) :
  all_texts P (timecode_element timebase ntsc) = true.
Proof.
  unfold timecode_element, node. rewrite all_texts_node. cbn [forallb].
  rewrite texts_rate. texts_step. reflexivity.
Qed.

Lemma texts_generator (duration timebase : Z) (ntsc : bool) (markers : list xml) :
  all_texts P (generator_item duration timebase ntsc markers) = forallb (all_texts P) markers.
Proof.
  unfold generator_item. rewrite all_texts_node, forallb_app. cbn [forallb].
  rewrite texts_rate, texts_matte, texts_opacity. texts_step. reflexivity.
Qed.

Lemma texts_video (duration timebase : Z) (ntsc : bool) (width height : Z)
    (markers : list xml) :
  all_texts P (video_element duration timebase ntsc width height markers)
  = forallb (all_texts P) markers.
Proof.
  unfold video_element, node. rewrite all_texts_node. cbn [forallb].
  rewrite (all_texts_node "track"). cbn [forallb]. rewrite texts_generator.
  rewrite (all_texts_node "format"). cbn [forallb].
  rewrite (all_texts_node "samplecharacteristics"). cbn [forallb].
  rewrite texts_rate. texts_step. rewrite !andb_true_r. reflexivity.
Qed.

Lemma texts_sequence (duration timebase : Z) (ntsc : bool) (title : string)
    (width height : Z) (item_markers markers : list xml) :
  all_texts P (sequence_element duration timebase ntsc title width height item_markers markers)
  = andb (P (JStr title))
         (andb (forallb (all_texts P) item_markers) (forallb (all_texts P) markers)).
Proof.
  unfold sequence_element. rewrite all_texts_node, forallb_app. cbn [forallb].
  rewrite (all_texts_leaf "name" title), texts_rate, texts_timecode.
  unfold node at 1. rewrite (all_texts_node "media"). cbn [forallb].
  rewrite texts_video, texts_audio. texts_step. rewrite !andb_true_r.
  rewrite andb_assoc. reflexivity.
Qed.

Lemma texts_document (duration timebase : Z) (ntsc : bool) (title : string)
    (width height : Z) (item_markers markers : list xml) :
  all_texts P (Element "xmeml" [("version", "4")] JNull
                 [ sequence_element duration timebase ntsc title width height
                     item_markers markers ])
  = andb (P (JStr title))
         (andb (forallb (all_texts P) item_markers) (forallb (all_texts P) markers)).
Proof.
  rewrite all_texts_node. cbn [forallb]. rewrite texts_sequence. apply andb_true_r.
Qed.

Lemma texts_marker (t : marker) (frame : Z) (code : string) :
  xml_chars code = true ->
  all_texts P (marker_node t frame code) = andb (P (comment t)) (P (name t)).
Proof.
  intros Hc. unfold marker_node, node. rewrite all_texts_node. cbn [forallb].
  rewrite !all_texts_element. cbn [forallb]. rewrite all_texts_int.
  rewrite (all_texts_const "out") by reflexivity.
  rewrite (all_texts_const "pproColor") by assumption.
  rewrite !andb_true_r. reflexivity.
Qed.

Lemma texts_markers (fps : num) (l : list marker) (xs : list xml) :
  Forall2 (carries fps) l xs ->
  forallb (all_texts P) xs = forallb (fun t => andb (P (comment t)) (P (name t))) l.
Proof.
  induction 1 as [|t x l xs (frame & code & _ & Hc & ->) _ IH]; [reflexivity|].
  cbn [forallb]. rewrite IH, texts_marker; [reflexivity|].
  apply (color_code_chars (color t)). assumption.
Qed.

End Texts.

(** ** What the emitter does with a list of markers *)

Lemma text_ok_null : text_ok JNull = true.
Proof. reflexivity. Qed.

Lemma text_ok_str (s : string) : xml_chars s = true -> text_ok (JStr s) = true.
Proof. reflexivity. Qed.

Lemma text_chars_ok_null : text_chars_ok JNull = true.
Proof. reflexivity. Qed.

Lemma text_chars_ok_str (s : string) : xml_chars s = true -> text_chars_ok (JStr s) = true.
Proof. intros H. exact H. Qed.

(** The tree built for markers whose frames can be computed and
    whose colours are strings, and the two tests of the
    serialization on it. *)
Lemma emitter_tree (w : world) (first : marker) (others : list marker) (fps : num)
    (sequence_name : option string) (width height : Z) :
  conversions_succeed fps first others ->
  has_bad_color (first :: others) = false ->
  exists timebase duration markers,
    timebase_of fps = Ok timebase /\
    ms_to_frames (max_of (timestamp_ms first) (map timestamp_ms others) + 60000) fps
      = Ok duration /\
    Forall2 (carries fps) (first :: others) markers /\
    let root := Element "xmeml" [("version", "4")] JNull
                  [ sequence_element duration timebase (is_ntsc fps)
                      (sequence_title w sequence_name) width height markers markers ] in
    build_tree w first others fps sequence_name width height = Ok root /\
    forallb text_ok (texts root) = forallb text_fields_ok (first :: others) /\
    forallb text_chars_ok (texts root)
    = andb (xml_chars (sequence_title w sequence_name))
           (forallb text_fields_chars_ok (first :: others)).
Proof.
  intros ((tb & Htb) & (d & Hd) & Hall) Hc.
  destruct (markers_built fps (first :: others) Hall Hc) as [ms Hms].
  pose proof (markers_carried fps _ _ Hms) as Hcar.
  exists tb, d, ms. split; [assumption|]. split; [assumption|]. split; [assumption|].
  intros root. split; [|split].
  - unfold build_tree. rewrite Htb. cbn [bind]. rewrite Hd. cbn [bind].
    rewrite Hms. cbn [bind]. reflexivity.
  - change (forallb text_ok (texts root)) with (all_texts text_ok root). unfold root.
    rewrite (texts_document text_ok text_ok_null text_ok_str).
    rewrite (texts_markers text_ok text_ok_null text_ok_str fps _ _ Hcar).
    cbn [text_ok andb]. apply andb_diag.
  - change (forallb text_chars_ok (texts root)) with (all_texts text_chars_ok root).
    unfold root.
    rewrite (texts_document text_chars_ok text_chars_ok_null text_chars_ok_str).
    rewrite (texts_markers text_chars_ok text_chars_ok_null text_chars_ok_str fps _ _ Hcar).
    cbn [text_chars_ok]. rewrite andb_diag. reflexivity.
Qed.


Lemma conversions_at_sixty (t : marker) :
  timestamp_ms t = 0 -> conversions_succeed (NInt 60) t [].
Proof.
  intros H. unfold conversions_succeed. cbn [map max_of fold_left]. rewrite H.
  split; [exists 60; reflexivity|]. split; [exists 3600; reflexivity|].
  constructor; [|constructor]. rewrite H. exists 0. reflexivity.
Qed.


Lemma unserializable_not_ok (x : json) : unserializable x = true -> text_ok x = false.
Proof.
  unfold unserializable, text_ok. intros H. apply andb_prop in H. destruct H as [Ht Hs].
  destruct x; try discriminate; rewrite Ht; reflexivity.
Qed.

Lemma unserializable_fields (l : list marker) :
  has_unserializable l = true -> forallb text_fields_ok l = false.
Proof.
  induction l as [|t l IH]; [discriminate|].
  unfold has_unserializable. cbn [existsb forallb]. intros H.
  apply orb_true_iff in H. destruct H as [H|H].
  - unfold text_fields_ok. apply orb_true_iff in H.
    destruct H as [H|H]; rewrite (unserializable_not_ok _ H); [reflexivity|].
    rewrite andb_false_r. reflexivity.
  - rewrite (IH H). apply andb_false_r.
Qed.

(** X20.  A marker whose comment or name is a number other than
    zero, [True], or a list or an object that is not empty, makes
    the emitter raise TypeError when the tree is serialized: with
    frames that can be computed and colours that are strings,
    nothing is returned and nothing is written. *)
Theorem non_text_field_raises :
  forall w first others path fps sequence_name width height,
    conversions_succeed fps first others ->
    has_bad_color (first :: others) = false ->
    has_unserializable (first :: others) = true ->
    create_premiere_xml w (first :: others) path fps sequence_name width height
    = Raise TypeError.
Proof.
  intros w first others path fps sequence_name width height Hconv Hcol Hbad.
  destruct (emitter_tree w first others fps sequence_name width height Hconv Hcol)
    as (tb & d & ms & _ & _ & _ & Hb & H1 & _).
  cbv zeta in Hb, H1.
  unfold create_premiere_xml. rewrite Hb. cbn [bind]. unfold serialize.
  rewrite H1, (unserializable_fields _ Hbad). reflexivity.
Qed.

Lemma non_text_field_raises_witness :
  create_premiere_xml bare_world [numbered_marker] "out.xml" (NInt 60) None 1920 1080
  = Raise TypeError.
Proof.
  exact (non_text_field_raises bare_world numbered_marker [] "out.xml" (NInt 60) None 1920 1080
           (conversions_at_sixty numbered_marker eq_refl) eq_refl eq_refl).
Defined.



Lemma color_code_kept (c : json) (code : string) :
  get_color_code c = Ok code -> text_read_back (JStr code) = JStr code.
Proof.
  destruct c as [| | | |s| |]; try discriminate. intros H.
  destruct (color_code_in_table s) as [code' [E Hin]].
  assert (code' = code) by congruence. subst code'.
  unfold COLOR_MAP in Hin. simpl in Hin.
  repeat (destruct Hin as [<-|Hin]; [reflexivity|]). contradiction.
Qed.

Lemma marker_written_as (fps : num) (t : marker) (x : xml) :
  marker_element fps t = Ok x -> written_as fps t (read_back x).
Proof.
  intros H. destruct (read_back_marker fps t x H) as (frame & code & Hf & Hc & ->).
  exists frame, code. split; [assumption|]. split; [assumption|].
  rewrite (color_code_kept _ _ Hc). reflexivity.
Qed.

Lemma markers_written_as (fps : num) (l : list marker) :
  forall xs, map_result (marker_element fps) l = Ok xs ->
             Forall2 (written_as fps) l (map read_back xs).
Proof.
  induction l as [|t l IH]; cbn [map_result]; intros xs H.
  - inversion H. constructor.
  - destruct (marker_element fps t) as [x|] eqn:Hx; cbn [bind] in H; [|discriminate].
    destruct (map_result (marker_element fps) l) as [xs'|]; cbn [bind] in H; [|discriminate].
    inversion H; subst. cbn [map].
    constructor; [apply marker_written_as; assumption|auto].
Qed.

Lemma sequence_title_not_empty (w : world) (sequence_name : option string) :
  sequence_title w sequence_name <> "".
Proof.
  unfold sequence_title.
  destruct sequence_name as [n|]; [|apply default_sequence_name_not_empty].
  destruct (String.eqb_spec n ""); [apply default_sequence_name_not_empty|assumption].
Qed.

(** The document that was written: the tree built, read back. *)
Lemma written_tree (w : world) (timestamps : list marker) (path : string) (fps : num)
    (sequence_name : option string) (width height : Z) (r : emitted) (p : string) (root : xml) :
  create_premiere_xml w timestamps path fps sequence_name width height = Ok r ->
  written r = Some (p, root) ->
  exists timebase duration markers,
    Forall2 (written_as fps) timestamps markers /\
    root = Element "xmeml" [("version", "4")] JNull
             [ sequence_element duration timebase (is_ntsc fps)
                 (end_of_lines (sequence_title w sequence_name)) width height
                 markers markers ].
Proof.
  unfold create_premiere_xml. destruct timestamps as [|first others].
  - intros E. inversion E; subst. discriminate.
  - unfold build_tree.
    destruct (timebase_of fps) as [tb|] eqn:Htb; cbn [bind]; [|discriminate].
    destruct (ms_to_frames _ fps) as [d|] eqn:Hd; cbn [bind]; [|discriminate].
    destruct (map_result (marker_element fps) (first :: others)) as [ms|] eqn:Hms;
      cbn [bind]; [|discriminate].
    unfold serialize.
    destruct (negb (forallb text_ok _)); cbn [bind]; [discriminate|].
    destruct (negb (forallb text_chars_ok _)); cbn [bind]; [discriminate|].
    destruct (can_write w path); intros E; inversion E; subst; cbn [written]; intros W;
      [|discriminate].
    inversion W; subst. exists tb, d, (map read_back ms).
    split; [apply markers_written_as; assumption|].
    apply (read_back_document d tb (is_ntsc fps) (sequence_title w sequence_name)).
    apply sequence_title_not_empty.
Qed.

Lemma written_filter (fps : num) (l : list marker) (xs : list xml) :
  Forall2 (written_as fps) l xs ->
  filter (fun c => String.eqb (tag_of c) "marker") xs = xs.
Proof.
  induction 1 as [|t x l xs (frame & code & _ & _ & ->) _ IH]; cbn [filter]; [reflexivity|].
  change (String.eqb (tag_of (written_marker t frame code)) "marker") with true. cbv iota.
  rewrite IH. reflexivity.
Qed.

Lemma written_marker_texts (t : marker) (frame : Z) (code : string) :
  text_at ["comment"] (written_marker t frame code) = Some (text_read_back (comment t)) /\
  text_at ["name"] (written_marker t frame code) = Some (text_read_back (name t)).
Proof.
  split; reflexivity.
Qed.

(** X22.  In a written document the marker elements of the generator
    item and those of the sequence are the same list; it has one
    element for each marker handed to the emitter, in the same
    order.  The element of a marker carries the frame of its offset
    as [in], -1 as [out], the code of its colour as [pproColor], and
    its comment and its name as they are read back from the file:
    no text for [None], for the empty string and for any other
    value that is false as a condition; otherwise the string with
    every CR LF pair and every other carriage return turned into a
    line feed.  So a comment or a name that is a string, not empty
    and without a carriage return, is carried unchanged. *)
Theorem markers_written_twice :
  forall w timestamps path fps sequence_name width height r p root,
    create_premiere_xml w timestamps path fps sequence_name width height = Ok r ->
    written r = Some (p, root) ->
    exists sequence item,
      descend ["sequence"] root = Some sequence /\
      descend generator_path root = Some item /\
      markers_of sequence = markers_of item /\
      Forall2 (written_as fps) timestamps (markers_of item) /\
      Forall2 (fun t x =>
                 text_at ["comment"] x = Some (text_read_back (comment t)) /\
                 text_at ["name"] x = Some (text_read_back (name t)) /\
                 (forall s, comment t = JStr s -> kept s = true ->
                            text_at ["comment"] x = Some (JStr s)) /\
                 (forall s, name t = JStr s -> kept s = true ->
                            text_at ["name"] x = Some (JStr s)))
              timestamps (markers_of item).
Proof.
  intros w timestamps path fps sequence_name width height r p root Hc Hw.
  destruct (written_tree _ _ _ _ _ _ _ _ _ _ Hc Hw) as (tb & d & ms & Hcar & ->).
  set (title := end_of_lines (sequence_title w sequence_name)).
  destruct (document_paths d tb (is_ntsc fps) title width height ms ms) as (P1 & _ & P3 & _).
  exists (sequence_element d tb (is_ntsc fps) title width height ms ms),
         (generator_item d tb (is_ntsc fps) ms).
  split; [exact P1|]. split; [exact P3|].
  assert (Hi : markers_of (generator_item d tb (is_ntsc fps) ms) = ms).
  { unfold markers_of, generator_item. cbn [children_of].
    rewrite filter_app, (written_filter fps timestamps ms Hcar). reflexivity. }
  assert (Hs : markers_of (sequence_element d tb (is_ntsc fps) title width height ms ms) = ms).
  { unfold markers_of, sequence_element. cbn [children_of].
    rewrite filter_app, (written_filter fps timestamps ms Hcar). reflexivity. }
  rewrite Hi, Hs. split; [reflexivity|]. split; [assumption|].
  clear - Hcar. induction Hcar as [|t x l xs (frame & code & _ & _ & ->) _ IH]; constructor;
    [|exact IH].
  destruct (written_marker_texts t frame code) as [Tc Tn].
  split; [exact Tc|]. split; [exact Tn|]. split.
  - intros s E K. rewrite Tc, E, (text_read_back_kept s K). reflexivity.
  - intros s E K. rewrite Tn, E, (text_read_back_kept s K). reflexivity.
Qed.

Lemma markers_written_twice_witness :
  exists sequence item,
    descend ["sequence"]
      (Element "xmeml" [("version", "4")] JNull
         [ sequence_element 3600 60 false "OBS Markers (2024-01-01 00:00)" 1920 1080
             [ node "marker"
                 [ leaf "comment" lf_between; node "name" []; leaf "in" "0"; leaf "out" "-1";
                   leaf "pproColor" "4294741314" ] ]
             [ node "marker"
                 [ leaf "comment" lf_between; node "name" []; leaf "in" "0"; leaf "out" "-1";
                   leaf "pproColor" "4294741314" ] ] ]) = Some sequence /\
    descend generator_path
      (Element "xmeml" [("version", "4")] JNull
         [ sequence_element 3600 60 false "OBS Markers (2024-01-01 00:00)" 1920 1080
             [ node "marker"
                 [ leaf "comment" lf_between; node "name" []; leaf "in" "0"; leaf "out" "-1";
                   leaf "pproColor" "4294741314" ] ]
             [ node "marker"
                 [ leaf "comment" lf_between; node "name" []; leaf "in" "0"; leaf "out" "-1";
                   leaf "pproColor" "4294741314" ] ] ]) = Some item /\
    markers_of sequence = markers_of item /\
    Forall2 (written_as (NInt 60)) [carriage_marker] (markers_of item) /\
    Forall2 (fun t x =>
               text_at ["comment"] x = Some (text_read_back (comment t)) /\
               text_at ["name"] x = Some (text_read_back (name t)) /\
               (forall s, comment t = JStr s -> kept s = true ->
                          text_at ["comment"] x = Some (JStr s)) /\
               (forall s, name t = JStr s -> kept s = true ->
                          text_at ["name"] x = Some (JStr s)))
            [carriage_marker] (markers_of item).
Proof.
  exact (markers_written_twice bare_world [carriage_marker] "out.xml" (NInt 60) None 1920 1080
           {| returned := true;
              written :=
                Some ("out.xml",
                      Element "xmeml" [("version", "4")] JNull
                        [ sequence_element 3600 60 false "OBS Markers (2024-01-01 00:00)"
                            1920 1080
                            [ node "marker"
                                [ leaf "comment" lf_between; node "name" []; leaf "in" "0";
                                  leaf "out" "-1"; leaf "pproColor" "4294741314" ] ]
                            [ node "marker"
                                [ leaf "comment" lf_between; node "name" []; leaf "in" "0";
                                  leaf "out" "-1"; leaf "pproColor" "4294741314" ] ] ]) |}
           "out.xml" _ eq_refl eq_refl).
Defined.

(** X23.  A written document carries the arguments of the call: the
    file is at the output path; the name of the sequence is the
    sequence name given, or [OBS Markers (<date and time>)] when
    none or an empty one was given, read back from the file, that
    is with every CR LF pair and every other carriage return turned
    into a line feed, and so unchanged when it holds no carriage
    return; the width and the height of the picture are the decimal
    forms of the two dimensions. *)
Theorem document_carries_arguments :
  forall w timestamps path fps sequence_name width height r p root,
    create_premiere_xml w timestamps path fps sequence_name width height = Ok r ->
    written r = Some (p, root) ->
    p = path /\
    text_at name_path root = Some (JStr (end_of_lines (sequence_title w sequence_name))) /\
    (no_carriage_return (sequence_title w sequence_name) = true ->
     text_at name_path root = Some (JStr (sequence_title w sequence_name))) /\
    text_at width_path root = Some (JStr (PyStr.of_int width)) /\
    text_at height_path root = Some (JStr (PyStr.of_int height)).
Proof.
  intros w timestamps path fps sequence_name width height r p root Hc Hw.
  destruct (written_tree _ _ _ _ _ _ _ _ _ _ Hc Hw) as (tb & d & ms & _ & ->).
  destruct (emitter_result _ _ _ _ _ _ _ _ Hc) as [(_ & _ & root' & Hr)|(_ & Hn)];
    [|congruence].
  split; [congruence|]. split; [reflexivity|]. split; [|split; reflexivity].
  intros K. rewrite <- (end_of_lines_kept _ K) at 2. reflexivity.
Qed.

Lemma document_carries_arguments_witness :
  "out.xml" = "out.xml" /\
  text_at name_path
    (Element "xmeml" [("version", "4")] JNull
       [ sequence_element 3600 60 false lf_between 1280 720
           [written_marker (plain_marker 0) 0 blue_code]
           [written_marker (plain_marker 0) 0 blue_code] ])
  = Some (JStr (end_of_lines (sequence_title bare_world (Some cr_between)))) /\
  (no_carriage_return (sequence_title bare_world (Some cr_between)) = true ->
   text_at name_path
     (Element "xmeml" [("version", "4")] JNull
        [ sequence_element 3600 60 false lf_between 1280 720
            [written_marker (plain_marker 0) 0 blue_code]
            [written_marker (plain_marker 0) 0 blue_code] ])
   = Some (JStr (sequence_title bare_world (Some cr_between)))) /\
  text_at width_path
    (Element "xmeml" [("version", "4")] JNull
       [ sequence_element 3600 60 false lf_between 1280 720
           [written_marker (plain_marker 0) 0 blue_code]
           [written_marker (plain_marker 0) 0 blue_code] ])
  = Some (JStr (PyStr.of_int 1280)) /\
  text_at height_path
    (Element "xmeml" [("version", "4")] JNull
       [ sequence_element 3600 60 false lf_between 1280 720
           [written_marker (plain_marker 0) 0 blue_code]
           [written_marker (plain_marker 0) 0 blue_code] ])
  = Some (JStr (PyStr.of_int 720)).
Proof.
  exact (document_carries_arguments bare_world [plain_marker 0] "out.xml" (NInt 60)
           (Some cr_between) 1280 720
           {| returned := true;
              written :=
                Some ("out.xml",
                      Element "xmeml" [("version", "4")] JNull
                        [ sequence_element 3600 60 false lf_between 1280 720
                            [written_marker (plain_marker 0) 0 blue_code]
                            [written_marker (plain_marker 0) 0 blue_code] ]) |}
           "out.xml" _ eq_refl eq_refl).
Defined.

(** ** Frames and rates *)

Lemma round_aux_opp (s : bool) (m e : Z) (l : location) :
  binary_round_aux PyFloat.prec PyFloat.emax (negb s) m e l
  = SFopp (binary_round_aux PyFloat.prec PyFloat.emax s m e l).
Proof.
  unfold binary_round_aux.
  destruct (shr_fexp PyFloat.prec PyFloat.emax m e l) as [mrs' e'].
  destruct (shr_fexp PyFloat.prec PyFloat.emax _ e' loc_Exact) as [mrs'' e''].
  destruct (shr_m mrs''); try reflexivity.
  destruct (e'' <=? PyFloat.emax - PyFloat.prec); reflexivity.
Qed.

Lemma of_Z_opp (z : Z) : z <> 0 -> PyFloat.of_Z (- z) = SFopp (PyFloat.of_Z z).
Proof.
  intros Hz. unfold PyFloat.of_Z, binary_normalize.
  destruct z as [|p|p]; [congruence| |]; cbn [Z.opp]; unfold binary_round;
    destruct (shl_align p 0 _) as [mz ez].
  - apply (round_aux_opp false).
  - apply (round_aux_opp true).
Qed.

Lemma div_opp (x : spec_float) (m : positive) (e : Z) :
  SFdiv PyFloat.prec PyFloat.emax (SFopp x) (S754_finite false m e)
  = SFopp (SFdiv PyFloat.prec PyFloat.emax x (S754_finite false m e)).
Proof.
  destruct x as [s|s| |s mx ex]; cbn [SFopp SFdiv]; try reflexivity;
    try (destruct s; reflexivity).
  destruct (SFdiv_core_binary _ _ _ _ _ _) as [[mz ez] lz].
  destruct s; [apply (round_aux_opp true)|apply (round_aux_opp false)].
Qed.

Lemma mul_opp (x y : spec_float) :
  PyFloat.mul (SFopp x) y = SFopp (PyFloat.mul x y).
Proof.
  unfold PyFloat.mul.
  destruct x as [s|s| |s mx ex], y as [t|t| |t my ey]; cbn [SFopp SFmul];
    try reflexivity; try (destruct s, t; reflexivity).
  destruct s, t; cbn [negb xorb];
    first [apply (round_aux_opp true)|apply (round_aux_opp false)].
Qed.

Lemma to_int_opp (x : spec_float) :
  PyFloat.to_int (SFopp x)
  = match PyFloat.to_int x with Ok n => Ok (- n) | Raise e => Raise e end.
Proof.
  destruct x as [s|s| |s m e]; cbn [SFopp PyFloat.to_int]; try reflexivity.
  f_equal. unfold PyFloat.trunc. destruct s; cbn [negb]; lia.
Qed.

(** Truncation toward zero makes the conversion odd in the offset. *)
Lemma ms_to_frames_opp (ms : Z) (fps : num) :
  ms_to_frames (- ms) fps
  = match ms_to_frames ms fps with Ok n => Ok (- n) | Raise e => Raise e end.
Proof.
  unfold ms_to_frames. destruct (Z.eq_dec ms 0) as [->|Hz].
  - change (- 0) with 0. change (PyFloat.of_int 0) with (Ok (S754_zero false)).
    cbn [bind]. change (PyFloat.truediv (S754_zero false) PyFloat.c1000)
      with (Ok (S754_zero false)). cbn [bind].
    destruct (as_float fps) as [f|]; cbn [bind]; [|reflexivity].
    destruct f; reflexivity.
  - unfold PyFloat.of_int. rewrite (of_Z_opp ms Hz).
    destruct (PyFloat.of_Z ms) as [s|s| |s m e]; cbn [SFopp bind]; try reflexivity.
    + unfold PyFloat.truediv. change (PyFloat.is_zero PyFloat.c1000) with false.
      cbv iota. cbn [bind]. destruct (as_float fps) as [f|]; cbn [bind]; [|reflexivity].
      change (S754_zero (negb s)) with (SFopp (S754_zero s)).
      unfold PyFloat.c1000. rewrite div_opp, mul_opp, to_int_opp. reflexivity.
    + destruct (as_float fps) as [f|]; reflexivity.
    + unfold PyFloat.truediv. change (PyFloat.is_zero PyFloat.c1000) with false.
      cbv iota. cbn [bind]. destruct (as_float fps) as [f|]; cbn [bind]; [|reflexivity].
      change (S754_finite (negb s) m e) with (SFopp (S754_finite s m e)).
      unfold PyFloat.c1000. rewrite div_opp, mul_opp, to_int_opp. reflexivity.
Qed.

(** X24.  At a rate that is not negative (a float rate being a
    value of the binary64 format), frames follow offsets, negative
    offsets included: of two offsets the later one never gets an
    earlier frame; an offset that is not negative gets a frame that
    is not negative, and an offset that is not positive gets a
    frame that is not positive. *)
Theorem frames_follow_offsets :
  forall fps a b fa fb,
    a <= b ->
    not_negative fps ->
    valid_rate fps ->
    ms_to_frames a fps = Ok fa ->
    ms_to_frames b fps = Ok fb ->
    fa <= fb /\ (0 <= a -> 0 <= fa) /\ (b <= 0 -> fb <= 0).
Proof.
  intros fps a b fa fb Hab Hn Hv Ha Hb.
  assert (Ha' : ms_to_frames (- a) fps = Ok (- fa)) by (rewrite ms_to_frames_opp, Ha; reflexivity).
  assert (Hb' : ms_to_frames (- b) fps = Ok (- fb)) by (rewrite ms_to_frames_opp, Hb; reflexivity).
  assert (Pa : 0 <= a -> 0 <= fa).
  { intros H. apply (ms_to_frames_mono fps a a fa fa); try assumption. lia. }
  assert (Pb : 0 <= b -> 0 <= fb).
  { intros H. apply (ms_to_frames_mono fps b b fb fb); try assumption. lia. }
  assert (Na : a <= 0 -> fa <= 0).
  { intros H. pose proof (ms_to_frames_mono fps (- a) (- a) (- fa) (- fa) ltac:(lia) Hn Hv Ha' Ha').
    lia. }
  assert (Nb : b <= 0 -> fb <= 0).
  { intros H. pose proof (ms_to_frames_mono fps (- b) (- b) (- fb) (- fb) ltac:(lia) Hn Hv Hb' Hb').
    lia. }
  split; [|split; assumption].
  destruct (Z.le_gt_cases 0 a) as [H0|H0].
  - apply (ms_to_frames_mono fps a b fa fb); try assumption. lia.
  - destruct (Z.le_gt_cases b 0) as [H1|H1].
    + pose proof (ms_to_frames_mono fps (- b) (- a) (- fb) (- fa) ltac:(lia) Hn Hv Hb' Ha').
      lia.
    + specialize (Na ltac:(lia)). specialize (Pb ltac:(lia)). lia.
Qed.

Lemma frames_follow_offsets_witness :
  -123 <= 122 /\ (0 <= -2066 -> 0 <= -123) /\ (2050 <= 0 -> 122 <= 0).
Proof.
  refine (frames_follow_offsets (NFloat c60) (-2066) 2050 (-123) 122 _ eq_refl eq_refl
            eq_refl eq_refl).
  lia.
Defined.

(** X25.  The conversion is odd in the offset: a negative offset
    gets the opposite of the frame of its absolute value, since
    [int] truncates toward zero (it does not take the floor), and
    the conversion raises for the one exactly when it raises for the
    other, with the same exception. *)
Theorem negative_offset_mirrors_positive :
  forall ms fps,
    ms_to_frames (- ms) fps
    = match ms_to_frames ms fps with
      | Ok n => Ok (- n)
      | Raise e => Raise e
      end.
Proof.
  intros ms fps. apply ms_to_frames_opp.
Qed.

(** X26.  A rate that is NaN or infinite (as [--fps nan] or
    [--fps inf] give) makes the emitter raise for every list of
    markers that is not empty, before anything is built or written:
    ValueError for NaN, OverflowError for an infinity. *)
Theorem non_finite_rate_raises :
  forall w first others path f sequence_name width height,
    not_finite f = true ->
    create_premiere_xml w (first :: others) path (NFloat f) sequence_name width height
    = Raise (if PyFloat.is_nan f then ValueError else OverflowError).
Proof.
  intros w first others path f sequence_name width height Hf.
  unfold create_premiere_xml, build_tree.
  assert (Ht : timebase_of (NFloat f)
               = Raise (if PyFloat.is_nan f then ValueError else OverflowError)).
  { destruct f as [s|[|]| |s m e]; try discriminate; reflexivity. }
  rewrite Ht. reflexivity.
Qed.

Lemma non_finite_rate_raises_witness :
  create_premiere_xml bare_world [plain_marker 0] "out.xml" (NFloat S754_nan) None 1920 1080
  = Raise (if PyFloat.is_nan S754_nan then ValueError else OverflowError).
Proof.
  exact (non_finite_rate_raises bare_world (plain_marker 0) [] "out.xml" S754_nan None
           1920 1080 eq_refl).
Defined.

(** ** The whole program *)





(** ** What the made-up output names cannot be *)

Lemma lower_append (a b : string) :
  PyStr.lower (String.append a b) = String.append (PyStr.lower a) (PyStr.lower b).
Proof.
  induction a as [|c a IH]; simpl; [reflexivity|]. rewrite IH. reflexivity.
Qed.

Lemma substring_split (s : string) :
  forall n, (n <= String.length s)%nat ->
            s = String.append (String.substring 0 n s)
                              (String.substring n (String.length s - n) s).
Proof.
  induction s as [|c s IH]; intros n Hn.
  - destruct n; [reflexivity|]. simpl in Hn. inversion Hn.
  - destruct n as [|n].
    + cbn [String.substring String.append String.length Nat.sub].
      rewrite substring_whole. reflexivity.
    + cbn [String.substring String.append String.length Nat.sub].
      f_equal. apply IH. simpl in Hn. apply le_S_n. exact Hn.
Qed.

Lemma endswith_split (s p : string) :
  PyStr.endswith s p = true -> exists a, s = String.append a p.
Proof.
  unfold PyStr.endswith. intros H. apply andb_prop in H. destruct H as [Hl He].
  apply Nat.leb_le in Hl. apply String.eqb_eq in He.
  exists (String.substring 0 (String.length s - String.length p) s).
  rewrite (substring_split s (String.length s - String.length p)) at 1
    by apply Nat.le_sub_l.
  f_equal. rewrite <- He at 3. f_equal.
  rewrite Nat.sub_sub_distr by (try assumption; apply Nat.le_refl).
  rewrite Nat.sub_diag. reflexivity.
Qed.

(** Of two endings of a string, the shorter is an ending of the
    longer. *)
Lemma endings_nest (a b p q : string) :
  String.append a p = String.append b q ->
  (String.length q <= String.length p)%nat ->
  exists c, p = String.append c q.
Proof.
  revert b. induction a as [|x a IH]; intros b H Hl.
  - exists b. exact H.
  - destruct b as [|y b].
    + cbn [String.append] in H. subst q. cbn [String.length] in Hl.
      rewrite append_length in Hl. exfalso.
      apply (Nat.nle_succ_diag_l (String.length p)).
      apply (Nat.le_trans _ (S (String.length a + String.length p))); [|assumption].
      apply le_n_S. apply Nat.le_add_l.
    + cbn [String.append] in H. inversion H. apply (IH b); assumption.
Qed.

Lemma video_name_ending (filename : string) :
  is_video filename = true ->
  exists ext, In ext video_extensions /\ PyStr.endswith (PyStr.lower filename) ext = true.
Proof.
  unfold is_video. intros H. apply existsb_exists in H. exact H.
Qed.

Lemma suffix_is_no_video (s : string) :
  PyStr.endswith (PyStr.lower s) markers_suffix = true ->
  forall pre filename, s = String.append pre filename -> is_video filename = false.
Proof.
  intros Hs pre filename E. destruct (is_video filename) eqn:Hv; [|reflexivity]. exfalso.
  destruct (video_name_ending filename Hv) as [ext [Hin He]].
  destruct (endswith_split _ _ Hs) as [a Ha].
  destruct (endswith_split _ _ He) as [b Hb].
  rewrite E, lower_append, Hb, <- append_assoc in Ha.
  assert (Hlen : (String.length ext <= String.length markers_suffix)%nat).
  { unfold video_extensions in Hin. simpl in Hin.
    repeat (destruct Hin as [<-|Hin]; [simpl; repeat constructor|]). contradiction. }
  destruct (endings_nest _ _ _ _ (eq_sym Ha) Hlen) as [c Hc].
  assert (Hend : PyStr.endswith markers_suffix ext = true)
    by (rewrite Hc; apply endswith_suffix).
  unfold video_extensions in Hin. simpl in Hin.
  repeat (destruct Hin as [<-|Hin]; [vm_compute in Hend; discriminate|]). contradiction.
Qed.

Lemma lower_suffix (a : string) :
  PyStr.endswith (PyStr.lower (String.append a markers_suffix)) markers_suffix = true.
Proof.
  rewrite lower_append. apply endswith_suffix.
Qed.

Lemma has_sep_append (a b : string) : PyPath.has_sep b = true -> PyPath.has_sep (String.append a b) = true.
Proof.
  intros H. induction a as [|c a IH]; simpl; [assumption|]. rewrite IH. apply orb_true_r.
Qed.

Lemma basename_ending (p : string) : exists pre, p = String.append pre (PyPath.basename p).
Proof.
  induction p as [|c p [pre IH]]; [exists EmptyString; reflexivity|].
  cbn [PyPath.basename]. destruct (PyPath.has_sep p).
  - exists (String c pre). cbn [String.append]. f_equal. exact IH.
  - destruct (Ascii.eqb c "/").
    + exists (String c EmptyString). reflexivity.
    + exists EmptyString. reflexivity.
Qed.

Lemma split_last_dot_parts (s root ext : string) :
  PyPath.split_last_dot s = Some (root, ext) ->
  s = String.append root ext /\ exists r, ext = String "." r.
Proof.
  revert root ext. induction s as [|c s IH]; intros root ext H; [discriminate|].
  cbn [PyPath.split_last_dot] in H.
  destruct (PyPath.split_last_dot s) as [[root' ext']|].
  - inversion H; subst. destruct (IH root' ext eq_refl) as [E R].
    split; [cbn [String.append]; f_equal; exact E|exact R].
  - destruct (Ascii.eqb_spec c "."); [|discriminate]. inversion H; subst.
    split; [reflexivity|]. eauto.
Qed.

Lemma substring_prefix (a b : string) :
  String.substring 0 (String.length a) (String.append a b) = a.
Proof.
  induction a as [|c a IH]; simpl.
  - destruct b; reflexivity.
  - rewrite IH. reflexivity.
Qed.

Lemma append_cancel (a b c : string) : String.append a b = String.append a c -> b = c.
Proof.
  induction a as [|x a IH]; simpl; intros H; [assumption|]. inversion H. auto.
Qed.

Lemma append_longer (a b : string) : b <> EmptyString -> String.append a b <> a.
Proof.
  intros Hb H. apply (f_equal String.length) in H. rewrite append_length in H.
  destruct b as [|c b]; [congruence|]. simpl in H.
  rewrite Nat.add_succ_r in H. apply (Nat.neq_succ_diag_l (String.length a + String.length b)).
  apply (f_equal (fun n => (n - String.length a)%nat)) in H.
  rewrite Nat.sub_diag in H. rewrite (Nat.add_comm (String.length a)) in H.
  change (S (String.length b + String.length a)) with (1 + (String.length b + String.length a))%nat in H.
  rewrite Nat.add_assoc, Nat.add_sub in H. discriminate.
Qed.

Lemma splitext_parts (p : string) :
  String.append (fst (PyPath.splitext p)) (snd (PyPath.splitext p)) = p /\
  (snd (PyPath.splitext p) = EmptyString \/ exists r, snd (PyPath.splitext p) = String "." r).
Proof.
  unfold PyPath.splitext.
  destruct (basename_ending p) as [pre Hp].
  destruct (PyPath.split_last_dot (PyPath.basename p)) as [[root ext]|] eqn:Hs.
  - destruct (PyPath.all_dots root).
    + cbn [fst snd]. split; [|left; reflexivity].
      clear. induction p as [|c p IH]; simpl; [reflexivity|]. rewrite IH. reflexivity.
    + cbn [fst snd]. destruct (split_last_dot_parts _ _ _ Hs) as [Hb Hr]. split; [|right; exact Hr].
      assert (El : (String.length p - String.length (PyPath.basename p))%nat = String.length pre).
      { rewrite Hp at 1. rewrite append_length. apply Nat.add_sub. }
      rewrite El. rewrite Hp at 1. rewrite substring_prefix.
      rewrite append_assoc, <- Hb. symmetry. exact Hp.
  - cbn [fst snd]. split; [|left; reflexivity].
    clear. induction p as [|c p IH]; simpl; [reflexivity|]. rewrite IH. reflexivity.
Qed.

(** X28.  A name that the program makes up for its output is never
    the video it found, and the fallback name is never the input
    file: the document is not written over either of them.  (The
    output argument, when it is the one used, is taken as given.) *)
Theorem made_up_name_overwrites_nothing :
  forall w args metadata,
    (forall d v p,
       video_resolved w metadata d v ->
       output_path w args metadata = Ok p ->
       p <> v) /\
    fallback_output args <> arg_input args.
Proof.
  intros w args metadata. split.
  - intros d v p (Hb & Hd & t & Ht & Hf & Hv) Ho E. subst p.
    unfold output_path in Ho. rewrite Hb in Ho. cbn [bind] in Ho.
    rewrite Hd, Ht in Ho. cbn [bind] in Ho. rewrite Hf in Ho. cbn [bind] in Ho.
    destruct (String.eqb_spec v ""); [contradiction|]. inversion Ho as [Hp]. clear Ho.
    destruct (join_keeps_name d
                (String.append (fst (PyPath.splitext (PyPath.basename v))) markers_suffix))
      as [pre Hpre].
    rewrite Hpre, <- append_assoc in Hp.
    assert (Hend : PyStr.endswith (PyStr.lower v) markers_suffix = true)
      by (rewrite <- Hp; apply lower_suffix).
    unfold find_latest_video_file in Hf. cbn [Py.truthy] in Hf.
    destruct (negb (negb (String.eqb d ""))); [discriminate|].
    destruct (negb (path_exists w d)); [discriminate|].
    destruct (listdir w d) as [names|]; [|discriminate].
    destruct (scan w d names) as [files|] eqn:Hs; [|discriminate].
    destruct files as [|f files]; [discriminate|].
    assert (Hc : exists metadata_time, choose (f :: files) metadata_time = Some v).
    { destruct (match t with JStr s => strptime w s | _ => None end) as [dt|].
      - destruct (timestamp w dt) as [epoch|]; cbn [bind] in Hf; [|discriminate].
        exists (Some epoch). congruence.
      - exists None. congruence. }
    destruct Hc as [metadata_time Hc].
    destruct (choose_some (f :: files) metadata_time ltac:(discriminate))
      as [path [m [Hpath Hin]]].
    rewrite Hpath in Hc. inversion Hc; subst path.
    destruct (scan_in w d names _ v m Hs Hin) as [filename [_ [Hvid [Hj _]]]].
    destruct (join_keeps_name d filename) as [pre' Hpre'].
    rewrite Hpre' in Hj.
    rewrite (suffix_is_no_video v Hend pre' filename Hj) in Hvid. discriminate.
  - unfold fallback_output. intros E.
    destruct (splitext_parts (arg_input args)) as [Hp [He|[r He]]].
    + rewrite He in Hp. rewrite <- Hp in E at 2.
      assert (Hnil : forall s, String.append s EmptyString = s)
        by (induction s as [|c s IH]; simpl; [reflexivity|rewrite IH; reflexivity]).
      rewrite Hnil in E. apply append_longer in E; [assumption|discriminate].
    + rewrite <- Hp in E at 2. apply append_cancel in E. rewrite He in E. discriminate.
Qed.

Lemma made_up_name_overwrites_nothing_witness :
  "/rec/take1_markers.xml" <> "/rec/take1.mp4" /\
  fallback_output (arguments_with_output None) <> arg_input (arguments_with_output None).
Proof.
  split.
  - apply (proj1 (made_up_name_overwrites_nothing studio_world (arguments_with_output None)
                    studio_metadata) "/rec" "/rec/take1.mp4" "/rec/take1_markers.xml").
    + unfold video_resolved. split; [reflexivity|]. split; [reflexivity|].
      exists (JStr "2024-01-01 12:00:00").
      split; [reflexivity|]. split; [vm_compute; reflexivity|discriminate].
    + vm_compute. reflexivity.
  - apply (proj2 (made_up_name_overwrites_nothing studio_world (arguments_with_output None)
                    studio_metadata)).
Defined.
